(** * seras-vpn: the taiga message protocol, the node handler and the client
      handshake, embedded and verified.

    Go packages become modules ([msg], [wss], [tun], [handler], [processor],
    [vpn], [keygen]).  Code outside the repository (curve25519, sha256,
    chacha20poly1305, kelindar/binary, crypto/rand, the TUN device, the
    client transport) is taken as an interface: operations are fields of a
    class or of an environment record, and the properties the proofs rely
    on are stated as explicit laws. *)

From Stdlib Require Import ZArith Lia Bool.
From Stdlib.Strings Require Import Byte.
From stdpp Require Import base option list gmap strings pretty.

Local Open Scope string_scope.
Local Open Scope Z_scope.

Abbreviation byte := Byte.byte.

(** ** Go values *)

(** [(T, error)] results; an [error] alone is [option string], [None]
    being [nil]. *)
Inductive result (A : Type) : Type :=
| Ok (a : A)
| Err (e : string).
Arguments Ok {A} a.
Arguments Err {A} e.

Definition error := option string.

(** A call either returns or panics (nil dereference). *)
Inductive exec (A : Type) : Type :=
| Ret (a : A)
| Panic (p : string).
Arguments Ret {A} a.
Arguments Panic {A} p.

Definition nil_deref : string :=
  "runtime error: invalid memory address or nil pointer dereference".

(** [fmt.Errorf("ctx: %w", err)] *)
Definition Errorf (ctx e : string) : string := ctx ++ ": " ++ e.

(** [copy(dst[:], src)] into a zeroed array of [n] bytes. *)
Definition copy (n : nat) (src : list byte) : list byte :=
  take n src ++ replicate (n - length src) Byte.x00.

(** ** crypto/rand

    The entropy source is a tape of bytes; [Read] of [n] bytes consumes
    them, and fails when the source cannot deliver. *)
Module rand.
Definition Entropy := list byte.

Definition Read (n : nat) (rnd : Entropy) : result (list byte) * Entropy :=
  if (n <=? length rnd)%nat
  then (Ok (take n rnd), drop n rnd)
  else (Err "entropy source failed", rnd).

End rand.

(** State-and-error monad of the sealing functions: they draw from the
    entropy source and return on the first error. *)
Definition Rand (A : Type) : Type := rand.Entropy -> result A * rand.Entropy.

Definition ret {A} (a : A) : Rand A := fun rnd => (Ok a, rnd).

Definition bind {A B} (m : Rand A) (k : A -> Rand B) : Rand B :=
  fun rnd => match m rnd with
             | (Ok a, rnd') => k a rnd'
             | (Err e, rnd') => (Err e, rnd')
             end.

(** lift a pure [(T, error)] *)
Definition lift {A} (r : result A) : Rand A := fun rnd => (r, rnd).

(** [if err != nil { return nil, fmt.Errorf("ctx: %w", err) }] *)
Definition orElse {A} (m : Rand A) (ctx : string) : Rand A :=
  fun rnd => match m rnd with
             | (Ok a, rnd') => (Ok a, rnd')
             | (Err e, rnd') => (Err (Errorf ctx e), rnd')
             end.

Declare Scope rand_scope.
Delimit Scope rand_scope with rand.
Notation "x <- m ;; k" := (bind m (fun x => k))
  (at level 100, m at next level, right associativity) : rand_scope.
Notation "m @@ ctx" := (orElse m ctx) (at level 65, right associativity) : rand_scope.

(** The same for pure [(T, error)] code. *)
Definition rbind {A B} (r : result A) (k : A -> result B) : result B :=
  match r with
  | Ok a => k a
  | Err e => Err e
  end.

Definition rwrap {A} (r : result A) (ctx : string) : result A :=
  match r with
  | Ok a => Ok a
  | Err e => Err (Errorf ctx e)
  end.

Declare Scope result_scope.
Delimit Scope result_scope with result.
Notation "x <- m ;; k" := (rbind m (fun x => k))
  (at level 100, m at next level, right associativity) : result_scope.
Notation "m @@ ctx" := (rwrap m ctx) (at level 65, right associativity) : result_scope.

(** ** External libraries as interfaces *)

(** curve25519.X25519, sha256.Sum256 and the chacha20poly1305 AEAD
    ([Seal]/[Open] with no additional data). *)
Class Crypto := {
  X25519 : list byte -> list byte -> result (list byte);
  Basepoint : list byte;
  Sum256 : list byte -> list byte;
  Seal : list byte -> list byte -> list byte -> list byte;
  Open : list byte -> list byte -> list byte -> result (list byte);
}.

(** What the proofs use of them: multiplying the base point by a 32-byte
    scalar does not fail and gives 32 bytes; two parties with derived public
    keys compute, without error, the same shared secret (Diffie-Hellman);
    the digest has 32 bytes; a sealed text opens, under the same 32-byte key
    and 12-byte nonce, to the plaintext. *)
Class CryptoLaws `{Crypto} := {
  X25519_base s :
    length s = 32%nat -> exists P, X25519 s Basepoint = Ok P /\ length P = 32%nat;
  X25519_dh a b A B :
    length a = 32%nat -> length b = 32%nat ->
    X25519 a Basepoint = Ok A -> X25519 b Basepoint = Ok B ->
    exists s, X25519 a B = Ok s /\ X25519 b A = Ok s;
  Sum256_length s : length (Sum256 s) = 32%nat;
  Open_Seal k n pt :
    length k = 32%nat -> length n = 12%nat -> Open k n (Seal k n pt) = Ok pt;
}.

(** kelindar/binary: [binary.Marshal(v)] and [binary.Unmarshal(b, &v)] at
    one Go type. *)
Class Binary (A : Type) := {
  Marshal : A -> result (list byte);
  Unmarshal : list byte -> result A;
}.

(** Values of the Go type (array sizes, integer ranges) marshal, and
    unmarshal to themselves. *)
Definition roundtrips {A} `{Binary A} (wf : A -> Prop) : Prop :=
  forall v, wf v -> exists d, Marshal v = Ok d /\ Unmarshal d = Ok v.

(** ** golang.org/x/crypto/chacha20poly1305

    [New] accepts exactly [KeySize] bytes; the cipher it returns seals and
    opens under that key. *)
Module chacha20poly1305.
Definition KeySize : nat := 32.
Definition NonceSize : nat := 12.

Record AEAD := { key : list byte }.

Definition New (k : list byte) : result AEAD :=
  if (length k =? KeySize)%nat
  then Ok {| key := k |}
  else Err "chacha20poly1305: bad key length".

Definition Seal_ `{Crypto} (c : AEAD) (nonce plaintext : list byte) : list byte :=
  Seal (key c) nonce plaintext.

Definition Open_ `{Crypto} (c : AEAD) (nonce ciphertext : list byte)
  : result (list byte) :=
  Open (key c) nonce ciphertext.
End chacha20poly1305.

(** ** pkg/taiga/msg *)
Module msg.

Definition Protocol := string.
Definition Wg : Protocol := "wg".
Definition Wss : Protocol := "wss".
Definition V2Ray : Protocol := "v2ray".

Definition Version := string.
Definition Version1 : Version := "taiga_v1_alpha".

(** [Key [32]byte], [Nonce [12]byte], [Type uint8]: the sizes are typing
    invariants, stated by the [_wf] predicates below. *)
Definition Key := list byte.
Definition Nonce := list byte.
Definition Type_ := Z.

Definition TypeData : Type_ := 1.
Definition TypeHandshake : Type_ := 2.
Definition TypeHandshakeAck : Type_ := 3.

Record Handshake := { Handshake_ClientPublicKey : Key }.

Record HandshakeAck := {
  HandshakeAck_Success : bool;
  HandshakeAck_Message : string;
}.

Record NextHop := {
  NextHop_PublicKey : Key;
  NextHop_Protocol : Protocol;
  NextHop_Endpoint : string;
}.

Record Msg := {
  Msg_Flags : Z;                    (* uint32 *)
  Msg_Timestamp : Z;                (* int64 *)
  Msg_NextHop : option NextHop;     (* nil: final destination *)
  Msg_Data : list byte;
}.

Record Header := {
  Header_Version : Version;
  Header_Type : Type_;
  Header_EphemeralKey : Key;
  Header_Nonce : Nonce;
}.

Record RawMsg := {
  RawMsg_Header : option Header;    (* *Header *)
  RawMsg_Body : list byte;
}.

Record CookedMsg := {
  CookedMsg_Header : option Header; (* *Header *)
  CookedMsg_Body : option Msg;      (* *Msg *)
}.

Record Encoder := {
  Encoder_NodePublicKey : Key;
  Encoder_Version : Version;
}.

Record Decoder := {
  Decoder_PrivateKey : Key;
  Decoder_Version : Version;
}.

(** Values that inhabit the Go types. *)
Definition Key_wf (k : Key) : Prop := length k = 32%nat.
Definition Nonce_wf (n : Nonce) : Prop := length n = 12%nat.
Definition Handshake_wf (hs : Handshake) : Prop :=
  Key_wf (Handshake_ClientPublicKey hs).
Definition HandshakeAck_wf (ack : HandshakeAck) : Prop := True.
Definition NextHop_wf (nh : NextHop) : Prop := Key_wf (NextHop_PublicKey nh).
Definition Msg_wf (m : Msg) : Prop :=
  0 <= Msg_Flags m < 2 ^ 32 /\
  - 2 ^ 63 <= Msg_Timestamp m < 2 ^ 63 /\
  from_option NextHop_wf True (Msg_NextHop m).
Definition Header_wf (h : Header) : Prop :=
  0 <= Header_Type h < 2 ^ 8 /\
  Key_wf (Header_EphemeralKey h) /\ Nonce_wf (Header_Nonce h).
Definition RawMsg_wf (r : RawMsg) : Prop :=
  from_option Header_wf True (RawMsg_Header r).

Definition NewEncoder (nodePublicKey : Key) : Encoder :=
  {| Encoder_NodePublicKey := nodePublicKey; Encoder_Version := Version1 |}.

Definition NewDecoder (privateKey : Key) : Decoder :=
  {| Decoder_PrivateKey := privateKey; Decoder_Version := Version1 |}.

Section Protocol.
Context `{Crypto}.
Context `{Binary Msg} `{Binary Handshake} `{Binary HandshakeAck}.

Definition GenerateKeyPair : Rand (Key * Key) :=
  (privateKey <- rand.Read 32 @@ "failed to generate private key" ;;
   pub <- lift (X25519 privateKey Basepoint) @@ "failed to derive public key" ;;
   let publicKey := copy 32 pub in
   ret (privateKey, publicKey))%rand.

Definition PublicKeyFromPrivate (privateKey : Key) : result Key :=
  (pub <- X25519 privateKey Basepoint @@ "failed to derive public key" ;;
   let publicKey := copy 32 pub in
   Ok publicKey)%result.

Definition EncryptMsg (e : Encoder) (msg : Msg) : Rand RawMsg :=
  (ephemeralPrivate <- rand.Read 32 @@ "failed to generate ephemeral key" ;;
   pub <- lift (X25519 ephemeralPrivate Basepoint)
            @@ "failed to compute ephemeral public key" ;;
   let ephemeralPublic := copy 32 pub in
   sharedSecret <- lift (X25519 ephemeralPrivate (Encoder_NodePublicKey e))
                     @@ "failed to compute shared secret" ;;
   let encKey := Sum256 sharedSecret in
   nonce <- rand.Read 12 @@ "failed to generate nonce" ;;
   cipher <- lift (chacha20poly1305.New encKey) @@ "failed to create cipher" ;;
   data <- lift (Marshal msg) @@ "failed to marshal message" ;;
   let encryptedBody := chacha20poly1305.Seal_ cipher nonce data in
   let header := {| Header_Version := Encoder_Version e;
                    Header_Type := TypeData;
                    Header_EphemeralKey := ephemeralPublic;
                    Header_Nonce := nonce |} in
   ret {| RawMsg_Header := Some header; RawMsg_Body := encryptedBody |})%rand.

Definition DecryptBody (d : Decoder) (rawMsg : RawMsg) : exec (result CookedMsg) :=
  match RawMsg_Header rawMsg with
  | None => Panic nil_deref
  | Some header =>
    Ret (sharedSecret <- X25519 (Decoder_PrivateKey d) (Header_EphemeralKey header)
                           @@ "failed to compute shared secret" ;;
         let encKey := Sum256 sharedSecret in
         cipher <- chacha20poly1305.New encKey @@ "failed to create cipher" ;;
         data <- chacha20poly1305.Open_ cipher (Header_Nonce header) (RawMsg_Body rawMsg)
                   @@ "failed to decrypt body" ;;
         msg <- Unmarshal data @@ "failed to unmarshal message" ;;
         Ok {| CookedMsg_Header := RawMsg_Header rawMsg;
               CookedMsg_Body := Some msg |})%result
  end.

Definition EncryptHandshake (e : Encoder) (hs : Handshake) : Rand RawMsg :=
  (ephemeralPrivate <- rand.Read 32 @@ "failed to generate ephemeral key" ;;
   pub <- lift (X25519 ephemeralPrivate Basepoint)
            @@ "failed to compute ephemeral public key" ;;
   let ephemeralPublic := copy 32 pub in
   sharedSecret <- lift (X25519 ephemeralPrivate (Encoder_NodePublicKey e))
                     @@ "failed to compute shared secret" ;;
   let encKey := Sum256 sharedSecret in
   nonce <- rand.Read 12 @@ "failed to generate nonce" ;;
   cipher <- lift (chacha20poly1305.New encKey) @@ "failed to create cipher" ;;
   data <- lift (Marshal hs) @@ "failed to marshal handshake" ;;
   let encryptedBody := chacha20poly1305.Seal_ cipher nonce data in
   let header := {| Header_Version := Encoder_Version e;
                    Header_Type := TypeHandshake;
                    Header_EphemeralKey := ephemeralPublic;
                    Header_Nonce := nonce |} in
   ret {| RawMsg_Header := Some header; RawMsg_Body := encryptedBody |})%rand.

Definition DecryptHandshake (d : Decoder) (rawMsg : RawMsg) : exec (result Handshake) :=
  match RawMsg_Header rawMsg with
  | None => Panic nil_deref
  | Some header =>
    Ret (sharedSecret <- X25519 (Decoder_PrivateKey d) (Header_EphemeralKey header)
                           @@ "failed to compute shared secret" ;;
         let encKey := Sum256 sharedSecret in
         cipher <- chacha20poly1305.New encKey @@ "failed to create cipher" ;;
         data <- chacha20poly1305.Open_ cipher (Header_Nonce header) (RawMsg_Body rawMsg)
                   @@ "failed to decrypt handshake" ;;
         hs <- Unmarshal data @@ "failed to unmarshal handshake" ;;
         Ok hs)%result
  end.

Definition EncryptHandshakeAck (e : Encoder) (ack : HandshakeAck) : Rand RawMsg :=
  (ephemeralPrivate <- rand.Read 32 @@ "failed to generate ephemeral key" ;;
   pub <- lift (X25519 ephemeralPrivate Basepoint)
            @@ "failed to compute ephemeral public key" ;;
   let ephemeralPublic := copy 32 pub in
   sharedSecret <- lift (X25519 ephemeralPrivate (Encoder_NodePublicKey e))
                     @@ "failed to compute shared secret" ;;
   let encKey := Sum256 sharedSecret in
   nonce <- rand.Read 12 @@ "failed to generate nonce" ;;
   cipher <- lift (chacha20poly1305.New encKey) @@ "failed to create cipher" ;;
   data <- lift (Marshal ack) @@ "failed to marshal ack" ;;
   let encryptedBody := chacha20poly1305.Seal_ cipher nonce data in
   let header := {| Header_Version := Encoder_Version e;
                    Header_Type := TypeHandshakeAck;
                    Header_EphemeralKey := ephemeralPublic;
                    Header_Nonce := nonce |} in
   ret {| RawMsg_Header := Some header; RawMsg_Body := encryptedBody |})%rand.

Definition DecryptHandshakeAck (d : Decoder) (rawMsg : RawMsg)
  : exec (result HandshakeAck) :=
  match RawMsg_Header rawMsg with
  | None => Panic nil_deref
  | Some header =>
    Ret (sharedSecret <- X25519 (Decoder_PrivateKey d) (Header_EphemeralKey header)
                           @@ "failed to compute shared secret" ;;
         let encKey := Sum256 sharedSecret in
         cipher <- chacha20poly1305.New encKey @@ "failed to create cipher" ;;
         data <- chacha20poly1305.Open_ cipher (Header_Nonce header) (RawMsg_Body rawMsg)
                   @@ "failed to decrypt ack" ;;
         ack <- Unmarshal data @@ "failed to unmarshal ack" ;;
         Ok ack)%result
  end.
End Protocol.
End msg.

(** ** log/slog: the log is the list of records written so far. *)
Module slog.
Inductive Level := LevelInfo | LevelWarn | LevelError.

Inductive Value :=
| StringValue (s : string)
| IntValue (n : Z)
| BytesValue (b : list byte).

Record Record_ := {
  Level_ : Level;
  Message : string;
  Attrs : list (string * Value);
}.

Definition Log := list Record_.

Definition Info (msg : string) (args : list (string * Value)) (l : Log) : Log :=
  (l ++ [{| Level_ := LevelInfo; Message := msg; Attrs := args |}])%list.
Definition Warn (msg : string) (args : list (string * Value)) (l : Log) : Log :=
  (l ++ [{| Level_ := LevelWarn; Message := msg; Attrs := args |}])%list.
Definition Error (msg : string) (args : list (string * Value)) (l : Log) : Log :=
  (l ++ [{| Level_ := LevelError; Message := msg; Attrs := args |}])%list.
End slog.

(** ** internal/tun

    [TUN.Write] hands the buffer to the device ([water.Interface]); what the
    device answers is its own business ([dev_Write]), the packets handed
    over are recorded in [written]. *)
Module tun.
Record TUN := {
  dev_Write : list byte -> Z * error;
  written : list (list byte);
}.

Definition Write (t : TUN) (buf : list byte) : (Z * error) * TUN :=
  (dev_Write t buf,
   {| dev_Write := dev_Write t; written := (written t ++ [buf])%list |}).
End tun.

(** ** internal/transport/server/wss

    A buffered channel is its queue and its capacity.  A [Connection] is
    here the data of the struct: the channel and [closed].  The mutex
    [c.mu] and the goroutines that take it ([writePump], the callers of
    [Send], the cleanup) come after it, in [Live] and [turn]. *)
Module wss.
Record chan := {
  buf : list (list byte);
  cap : nat;
}.

Definition make_chan (n : nat) : chan := {| buf := []; cap := n |}.

Record Connection := {
  sendCh : chan;
  closed : bool;
}.

(** the connection [handleWebSocket] creates after the upgrade *)
Definition handleWebSocket_conn : Connection :=
  {| sendCh := make_chan 256; closed := false |}.

(** its cleanup, after [readPump] returns: mark closed *)
Definition handleWebSocket_cleanup (c : Connection) : Connection :=
  {| sendCh := sendCh c; closed := true |}.

(** [data := <-c.sendCh] at the head of [writePump]'s loop: the next frame
    off the channel.  The write that follows it, under [c.mu], is the
    turns [Run_writePump] and [WriteMessage_returns] below. *)
Definition writePump_recv (c : Connection) : option (list byte * Connection) :=
  match buf (sendCh c) with
  | [] => None
  | data :: rest =>
    Some (data, {| sendCh := {| buf := rest; cap := cap (sendCh c) |};
                   closed := closed c |})
  end.

(** [Send] from the moment it holds [c.mu], run without another goroutine
    in between: the check of [closed], then the [select].  The
    [c.mu.Lock()] in front of it is a step of its own, which waits while
    [writePump] holds the mutex: [Run_Send] below. *)
Definition Send (c : Connection) (data : list byte) : error * Connection :=
  if closed c then (Some "connection closed", c)
  else
    (* select { case c.sendCh <- data: ...; default: ... } *)
    if (length (buf (sendCh c)) <? cap (sendCh c))%nat
    then (None, {| sendCh := {| buf := (buf (sendCh c) ++ [data])%list;
                                cap := cap (sendCh c) |};
                   closed := closed c |})
    else (Some "send buffer full", c).

(** The states a connection of the server goes through. *)
Inductive reachable : Connection -> Prop :=
| reach_new : reachable handleWebSocket_conn
| reach_Send c data : reachable c -> reachable (Send c data).2
| reach_write c data c' :
    reachable c -> writePump_recv c = Some (data, c') -> reachable c'
| reach_cleanup c : reachable c -> reachable (handleWebSocket_cleanup c).

(** *** The mutex and the goroutines of a connection

    [c.mu] is taken by [Send] before it reads [closed], by the cleanup
    before it sets [closed], and by [writePump], which holds it across
    [c.conn.WriteMessage]: a write to the network, with no deadline, that
    returns when the peer has taken the frame or the connection has
    failed.  [Send] and the cleanup hold the mutex for one read or one
    write of [closed]; so between turns it is held exactly when
    [writePump] is inside [WriteMessage].

    A goroutine is where its next step is.  A turn gives the next step to
    one of them; a goroutine whose step has to wait (for the mutex, or
    for a frame on the channel) stays where it is.  When and how
    [WriteMessage] returns is the network's turn. *)
Inductive WritePump :=
| Ranging                        (* at [for data := range c.sendCh] *)
| Writing (data : list byte)     (* holds [c.mu], inside [c.conn.WriteMessage] *)
| Returned.                      (* has returned *)

Inductive Call :=                (* a call of [c.Send(data)] *)
| AtLock (data : list byte)      (* at [c.mu.Lock()] *)
| AtSelect (data : list byte)    (* found [closed] false; at the [select] *)
| Done (err : error)             (* has returned [err] *)
| Panicked.                      (* send on closed channel *)

Record Live := {
  conn : Connection;
  sendCh_closed : bool;          (* [close(conn.sendCh)] has run *)
  writePump : WritePump;
  calls : list Call;             (* the calls of [Send], in the order they began *)
  wire : list (list byte);       (* the frames [WriteMessage] has sent *)
  log : slog.Log;
}.

(** [c.mu] is held *)
Definition mu (s : Live) : bool :=
  match writePump s with
  | Writing _ => true
  | _ => false
  end.

(** after [go conn.writePump()] in [handleWebSocket] *)
Definition handleWebSocket_live : Live :=
  {| conn := handleWebSocket_conn; sendCh_closed := false; writePump := Ranging;
     calls := []; wire := []; log := [] |}.

Definition with_conn (c : Connection) (s : Live) : Live :=
  {| conn := c; sendCh_closed := sendCh_closed s; writePump := writePump s;
     calls := calls s; wire := wire s; log := log s |}.

Definition with_writePump (p : WritePump) (s : Live) : Live :=
  {| conn := conn s; sendCh_closed := sendCh_closed s; writePump := p;
     calls := calls s; wire := wire s; log := log s |}.

Definition with_calls (l : list Call) (s : Live) : Live :=
  {| conn := conn s; sendCh_closed := sendCh_closed s; writePump := writePump s;
     calls := l; wire := wire s; log := log s |}.

(** [select { case c.sendCh <- data: return nil; default: ... }] *)
Definition Send_select (c : Connection) (data : list byte) : error * Connection :=
  if (length (buf (sendCh c)) <? cap (sendCh c))%nat
  then (None, {| sendCh := {| buf := (buf (sendCh c) ++ [data])%list;
                              cap := cap (sendCh c) |};
                 closed := closed c |})
  else (Some "send buffer full", c).

Inductive Turn :=
| Call_Send (data : list byte)          (* a goroutine calls [c.Send(data)] *)
| Run_Send (i : nat)                    (* the goroutine of the [i]-th call *)
| Run_writePump                         (* [writePump], at its [range] *)
| WriteMessage_returns (err : error)    (* the network write ends *)
| Run_cleanup                           (* [conn.closed = true], under [conn.mu] *)
| Run_close.                            (* [close(conn.sendCh)] *)

Definition turn (t : Turn) (s : Live) : Live :=
  match t with
  | Call_Send data => with_calls (calls s ++ [AtLock data])%list s
  | Run_Send i =>
    match calls s !! i with
    | Some (AtLock data) =>
      if mu s then s                                   (* [c.mu.Lock()] waits *)
      else if closed (conn s)
           then with_calls (<[i := Done (Some "connection closed")]> (calls s)) s
           else with_calls (<[i := AtSelect data]> (calls s)) s
    | Some (AtSelect data) =>
      if sendCh_closed s then with_calls (<[i := Panicked]> (calls s)) s
      else
        let '(err, c) := Send_select (conn s) data in
        with_calls (<[i := Done err]> (calls s)) (with_conn c s)
    | _ => s
    end
  | Run_writePump =>
    match writePump s with
    | Ranging =>
      match writePump_recv (conn s) with
      | Some (data, c) =>
        (* [c.mu.Lock()]; then into [c.conn.WriteMessage] *)
        with_writePump (Writing data) (with_conn c s)
      | None => if sendCh_closed s then with_writePump Returned s else s
      end
    | _ => s
    end
  | WriteMessage_returns err =>
    match writePump s with
    | Writing data =>
      (* [c.mu.Unlock()] *)
      match err with
      | None =>
        {| conn := conn s; sendCh_closed := sendCh_closed s; writePump := Ranging;
           calls := calls s; wire := (wire s ++ [data])%list; log := log s |}
      | Some err =>
        {| conn := conn s; sendCh_closed := sendCh_closed s; writePump := Returned;
           calls := calls s; wire := wire s;
           log := slog.Error "Write error" [("error", slog.StringValue err)] (log s) |}
      end
    | _ => s
    end
  | Run_cleanup =>
    if mu s then s                                     (* [conn.mu.Lock()] waits *)
    else with_conn (handleWebSocket_cleanup (conn s)) s
  | Run_close =>
    if closed (conn s)
    then {| conn := conn s; sendCh_closed := true; writePump := writePump s;
            calls := calls s; wire := wire s; log := log s |}
    else s
  end.

Definition run (turns : list Turn) (s : Live) : Live :=
  foldl (fun s t => turn t s) s turns.
End wss.

(** ** internal/node/handler

    A [*wss.Connection] is its address; the connections themselves, the TUN
    device, the log and the entropy source make up the rest of the node's
    state. *)
Module handler.
Import msg.

Definition Conn := positive.

Record Handler := {
  decoder : Decoder;
  privateKey : Key;
  connEncoders : gmap Conn Encoder;
}.

Record Node := {
  h : Handler;
  tun_ : tun.TUN;
  conns : gmap Conn wss.Connection;
  log : slog.Log;
  entropy : rand.Entropy;
}.

Definition NewHandler (privateKey : Key) : Handler :=
  {| decoder := NewDecoder privateKey;
     privateKey := privateKey;
     connEncoders := ∅ |}.

Definition with_log (f : slog.Log -> slog.Log) (w : Node) : Node :=
  {| h := h w; tun_ := tun_ w; conns := conns w; log := f (log w);
     entropy := entropy w |}.

Definition with_entropy (rnd : rand.Entropy) (w : Node) : Node :=
  {| h := h w; tun_ := tun_ w; conns := conns w; log := log w;
     entropy := rnd |}.

Definition with_tun (t : tun.TUN) (w : Node) : Node :=
  {| h := h w; tun_ := t; conns := conns w; log := log w;
     entropy := entropy w |}.

Definition with_connEncoders (m : gmap Conn Encoder) (w : Node) : Node :=
  {| h := {| decoder := decoder (h w); privateKey := privateKey (h w);
             connEncoders := m |};
     tun_ := tun_ w; conns := conns w; log := log w; entropy := entropy w |}.

(** [conn.Send(data)], the returned error dropped *)
Definition conn_Send (conn : Conn) (data : list byte) (w : Node) : Node :=
  {| h := h w; tun_ := tun_ w;
     conns := alter (fun c => (wss.Send c data).2) conn (conns w);
     log := log w; entropy := entropy w |}.

Section Handler.
Context `{Crypto}.
Context `{Binary Msg} `{Binary Handshake} `{Binary HandshakeAck} `{Binary RawMsg}.

Definition sendHandshakeAck (conn : Conn) (clientPubKey : option Key)
           (success : bool) (message : string) (w : Node) : Node :=
  let ack := {| HandshakeAck_Success := success;
                HandshakeAck_Message := message |} in
  match clientPubKey with
  | None => with_log (slog.Error "Cannot send ack - no client public key" []) w
  | Some clientPubKey =>
    let encoder := NewEncoder clientPubKey in
    match EncryptHandshakeAck encoder ack (entropy w) with
    | (Err err, rnd) =>
      with_log (slog.Error "Failed to encrypt ack" [("error", slog.StringValue err)])
               (with_entropy rnd w)
    | (Ok rawMsg, rnd) =>
      let w := with_entropy rnd w in
      match Marshal rawMsg with
      | Err err =>
        with_log (slog.Error "Failed to marshal ack" [("error", slog.StringValue err)]) w
      | Ok data => conn_Send conn data w
      end
    end
  end.

Definition handleHandshake (conn : Conn) (rawMsg : RawMsg) (w : Node) : exec Node :=
  match DecryptHandshake (decoder (h w)) rawMsg with
  | Panic p => Panic p
  | Ret (Err err) =>
    let w := with_log (slog.Error "Failed to decrypt handshake"
                                  [("error", slog.StringValue err)]) w in
    Ret (sendHandshakeAck conn None false "decrypt error" w)
  | Ret (Ok hs) =>
    let w := with_connEncoders
               (<[conn := NewEncoder (Handshake_ClientPublicKey hs)]>
                  (connEncoders (h w))) w in
    let w := with_log (slog.Info "Client registered"
               [("pubkey", slog.BytesValue (take 8 (Handshake_ClientPublicKey hs)))]) w in
    Ret (sendHandshakeAck conn (Some (Handshake_ClientPublicKey hs)) true "ok" w)
  end.

Definition handleData (conn : Conn) (rawMsg : RawMsg) (w : Node) : exec Node :=
  let hasEncoder := bool_decide (is_Some (connEncoders (h w) !! conn)) in
  if negb hasEncoder
  then Ret (with_log (slog.Warn "Data from unregistered client, ignoring" []) w)
  else
    match DecryptBody (decoder (h w)) rawMsg with
    | Panic p => Panic p
    | Ret (Err err) =>
      Ret (with_log (slog.Error "Failed to decrypt message"
                                [("error", slog.StringValue err)]) w)
    | Ret (Ok cookedMsg) =>
      match CookedMsg_Body cookedMsg with
      | None => Panic nil_deref
      | Some body =>
        match Msg_NextHop body with
        | Some _ =>
          Ret (with_log (slog.Warn "Multi-hop routing not implemented yet" []) w)
        | None =>
          let '((n, err), t) := tun.Write (tun_ w) (Msg_Data body) in
          let w := with_tun t w in
          match err with
          | Some err =>
            Ret (with_log (slog.Error "Failed to write to TUN"
                                      [("error", slog.StringValue err)]) w)
          | None =>
            if negb (n =? Z.of_nat (length (Msg_Data body)))
            then Ret (with_log (slog.Warn "Incomplete TUN write"
                        [("written", slog.IntValue n);
                         ("expected", slog.IntValue (Z.of_nat (length (Msg_Data body))))]) w)
            else Ret w
          end
        end
      end
    end.

Definition HandleMessage (conn : Conn) (data : list byte) (w : Node) : exec Node :=
  match Unmarshal data with
  | Err err =>
    Ret (with_log (slog.Error "Failed to unmarshal message"
                              [("error", slog.StringValue err)]) w)
  | Ok rawMsg =>
    match RawMsg_Header rawMsg with
    | None => Panic nil_deref
    | Some header =>
      if Header_Type header =? TypeHandshake then handleHandshake conn rawMsg w
      else if Header_Type header =? TypeData then handleData conn rawMsg w
      else Ret (with_log (slog.Warn "Unknown message type"
                            [("type", slog.IntValue (Header_Type header))]) w)
    end
  end.

Definition RemoveConnection (conn : Conn) (w : Node) : Node :=
  with_log (slog.Info "Client disconnected" [])
           (with_connEncoders (delete conn (connEncoders (h w))) w).
End Handler.
End handler.

(** ** internal/kedr/processor

    The [Processor] holds nothing but the pointer to the client's TUN; the
    device is passed in and handed back. *)
Module processor.
Import msg.

Definition Process (data : CookedMsg) (t : tun.TUN) : exec (error * tun.TUN) :=
  match CookedMsg_Body data with
  | None => Panic nil_deref
  | Some body =>
    match Msg_NextHop body with
    | None =>
      (* Final destination - write to TUN *)
      let '((n, err), t) := tun.Write t (Msg_Data body) in
      match err with
      | Some err => Ret (Some (Errorf "failed to write to TUN" err), t)
      | None =>
        if negb (n =? Z.of_nat (length (Msg_Data body)))
        then Ret (Some ("incomplete write: " ++ pretty n ++ "/"
                          ++ pretty (Z.of_nat (length (Msg_Data body)))
                          ++ " bytes"), t)
        else Ret (None, t)
      end
    | Some _ =>
      (* TODO: handle multi-hop routing when NextHop != nil *)
      Ret (None, t)
    end
  end.
End processor.

(** ** internal/transport/client

    The [Client] interface as the handshake sees it: what the peer and the
    network answer is given ([Send_answer], [Receive_answer], the latter by
    the index of the call); the calls made are recorded. *)
Module client.
Record Transport := {
  Send_answer : list byte -> error;
  sent : list (list byte);
  Receive_answer : nat -> result (list byte);
  receives : nat;
}.

Definition Send (t : Transport) (data : list byte) : error * Transport :=
  (Send_answer t data,
   {| Send_answer := Send_answer t; sent := (sent t ++ [data])%list;
      Receive_answer := Receive_answer t; receives := receives t |}).

Definition Receive (t : Transport) : result (list byte) * Transport :=
  (Receive_answer t (receives t),
   {| Send_answer := Send_answer t; sent := sent t;
      Receive_answer := Receive_answer t; receives := S (receives t) |}).
End client.

(** ** internal/kedr/config: the fields [NewClient] reads *)
Module config.
Record ConnConfig := {
  PrivateKey : msg.Key;
  NodePublicKey : msg.Key;
  Type_ : string;
  RemoteHost : string;
}.
End config.

(** ** internal/kedr/vpn *)
Module vpn.
Import msg.

Record Node := {
  Node_PublicKey : Key;
  Node_Protocol : Protocol;
  Node_Endpoint : string;
}.

Record Circuit := { Nodes : list Node }.

Record Client := {
  encoder : Encoder;
  decoder : Decoder;
  circuit : Circuit;
  clientPubKey : Key;
}.

(** what the client's pointers lead to, and the goroutines started *)
Record World := {
  transport : client.Transport;
  tun_ : tun.TUN;
  log : slog.Log;
  entropy : rand.Entropy;
  goroutines : list string;
}.

Definition with_transport (t : client.Transport) (w : World) : World :=
  {| transport := t; tun_ := tun_ w; log := log w; entropy := entropy w;
     goroutines := goroutines w |}.

Definition with_entropy (rnd : rand.Entropy) (w : World) : World :=
  {| transport := transport w; tun_ := tun_ w; log := log w; entropy := rnd;
     goroutines := goroutines w |}.

Definition with_log (f : slog.Log -> slog.Log) (w : World) : World :=
  {| transport := transport w; tun_ := tun_ w; log := f (log w);
     entropy := entropy w; goroutines := goroutines w |}.

(** [go f(...)] *)
Definition go (f : string) (w : World) : World :=
  {| transport := transport w; tun_ := tun_ w; log := log w;
     entropy := entropy w; goroutines := (goroutines w ++ [f])%list |}.

(** How far [Run] gets: it returns an error, or it has started both
    pumps and waits in its [select]. *)
Inductive RunState :=
| Returned (err : string)
| Selecting.

Section Client.
Context `{Crypto}.
Context `{Binary Msg} `{Binary Handshake} `{Binary HandshakeAck} `{Binary RawMsg}.

Definition NewClient (cfg : config.ConnConfig) : Client :=
  let circuit := {| Nodes := [{| Node_PublicKey := config.NodePublicKey cfg;
                                 Node_Protocol := config.Type_ cfg;
                                 Node_Endpoint := config.RemoteHost cfg |}] |} in
  (* clientPubKey, _ := msg.PublicKeyFromPrivate(cfg.PrivateKey) *)
  let clientPubKey := match PublicKeyFromPrivate (config.PrivateKey cfg) with
                      | Ok k => k
                      | Err _ => replicate 32 Byte.x00
                      end in
  {| encoder := NewEncoder (config.NodePublicKey cfg);
     decoder := NewDecoder (config.PrivateKey cfg);
     circuit := circuit;
     clientPubKey := clientPubKey |}.

Definition handshake (c : Client) (w : World) : exec (error * World) :=
  let hs := {| Handshake_ClientPublicKey := clientPubKey c |} in
  match EncryptHandshake (encoder c) hs (entropy w) with
  | (Err err, rnd) => Ret (Some (Errorf "encrypt handshake" err), with_entropy rnd w)
  | (Ok rawMsg, rnd) =>
    let w := with_entropy rnd w in
    match Marshal rawMsg with
    | Err err => Ret (Some (Errorf "marshal handshake" err), w)
    | Ok data =>
      let '(err, t) := client.Send (transport w) data in
      let w := with_transport t w in
      match err with
      | Some err => Ret (Some (Errorf "send handshake" err), w)
      | None =>
        (* Wait for ack *)
        let '(r, t) := client.Receive (transport w) in
        let w := with_transport t w in
        match r with
        | Err err => Ret (Some (Errorf "receive ack" err), w)
        | Ok ackData =>
          match Unmarshal ackData with
          | Err err => Ret (Some (Errorf "unmarshal ack" err), w)
          | Ok ackRaw =>
            match RawMsg_Header ackRaw with
            | None => Panic nil_deref
            | Some header =>
              if negb (Header_Type header =? TypeHandshakeAck)
              then Ret (Some ("expected handshake ack, got type "
                                ++ pretty (Header_Type header)), w)
              else
                match DecryptHandshakeAck (decoder c) ackRaw with
                | Panic p => Panic p
                | Ret (Err err) => Ret (Some (Errorf "decrypt ack" err), w)
                | Ret (Ok ack) =>
                  if negb (HandshakeAck_Success ack)
                  then Ret (Some ("handshake rejected: "
                                    ++ HandshakeAck_Message ack), w)
                  else Ret (None, w)
                end
            end
          end
        end
      end
    end
  end.

Definition Run (c : Client) (w : World) : exec (RunState * World) :=
  (* Perform handshake first *)
  match handshake c w with
  | Panic p => Panic p
  | Ret (Some err, w) => Ret (Returned (Errorf "handshake failed" err), w)
  | Ret (None, w) =>
    let w := with_log (slog.Info "Handshake complete" []) w in
    let w := go "sendLoop" w in
    let w := go "receiveLoop" w in
    Ret (Selecting, w)
  end.
End Client.
End vpn.

(** ** the key-generation command

    [encoding/hex] is taken as given; standard output is the list of the
    lines printed, next to the exit code. *)
Module keygen.
Import msg.

Record Flags := {
  client_ : bool;       (* -client *)
  node_ : bool;         (* -node *)
  derive : string;      (* -derive *)
}.

Section Main.
Context `{Crypto}.
Variable hex_EncodeToString : list byte -> string.
Variable hex_DecodeString : string -> result (list byte).

(** [priv, pub, _ := msg.GenerateKeyPair()]: on error both are [Key{}] *)
Definition GenerateKeyPair_ (rnd : rand.Entropy) : (Key * Key) * rand.Entropy :=
  match GenerateKeyPair rnd with
  | (Ok kp, rnd) => (kp, rnd)
  | (Err _, rnd) => ((replicate 32 Byte.x00, replicate 32 Byte.x00), rnd)
  end.

Definition main (flags : Flags) (rnd : rand.Entropy) : list string * Z :=
  if negb (String.eqb (derive flags) "") then
    (* Derive public key from private *)
    match hex_DecodeString (derive flags) with
    | Err _ => (["Error: private key must be 64 hex characters"], 1)
    | Ok privBytes =>
      if negb (length privBytes =? 32)%nat
      then (["Error: private key must be 64 hex characters"], 1)
      else
        let privKey := copy 32 privBytes in
        match PublicKeyFromPrivate privKey with
        | Err err => (["Error: " ++ err], 1)
        | Ok pubKey =>
          (["Private: " ++ hex_EncodeToString privKey;
            "Public:  " ++ hex_EncodeToString pubKey], 0)
        end
    end
  else if client_ flags then
    match GenerateKeyPair rnd with
    | (Err err, _) => (["Error: " ++ err], 1)
    | (Ok (priv, pub), _) =>
      (["# Client keys (add to .env.client)";
        "PRIVATE_KEY=" ++ hex_EncodeToString priv;
        "";
        "# Add this to .env.node as CLIENT_PUBLIC_KEY";
        "CLIENT_PUBLIC_KEY=" ++ hex_EncodeToString pub], 0)
    end
  else if node_ flags then
    match GenerateKeyPair rnd with
    | (Err err, _) => (["Error: " ++ err], 1)
    | (Ok (priv, pub), _) =>
      (["# Node keys (add to .env.node)";
        "NODE_PRIVATE_KEY=" ++ hex_EncodeToString priv;
        "NODE_PUBLIC_KEY=" ++ hex_EncodeToString pub;
        "";
        "# Add NODE_PUBLIC_KEY to .env.client"], 0)
    end
  else
    (* Default: generate both *)
    let '((nodePriv, nodePub), rnd) := GenerateKeyPair_ rnd in
    let '((clientPriv, clientPub), rnd) := GenerateKeyPair_ rnd in
    (["=== Generating new key pairs ===";
      "";
      "# .env.node";
      "NODE_PRIVATE_KEY=" ++ hex_EncodeToString nodePriv;
      "NODE_PUBLIC_KEY=" ++ hex_EncodeToString nodePub;
      "CLIENT_PUBLIC_KEY=" ++ hex_EncodeToString clientPub;
      "";
      "# .env.client";
      "PRIVATE_KEY=" ++ hex_EncodeToString clientPriv;
      "NODE_PUBLIC_KEY=" ++ hex_EncodeToString nodePub], 0).
End Main.
End keygen.

(** ** An instance of the interfaces

    Small stand-ins for the libraries: they show that the laws assumed of
    them can be met together, and let the handlers run on concrete frames.
    The codec follows the wire contract of the design: fields in
    declaration order, a length prefix before variable-length fields, one
    presence byte before a pointer, strings as length-prefixed bytes. *)
Module model.
Import msg.
Local Open Scope list_scope.

Definition byte_of_Z (z : Z) : byte := default Byte.x00 (Byte.of_N (Z.to_N z)).
Definition Z_of_byte (b : byte) : Z := Z.of_N (Byte.to_N b).

#[global] Instance byte_eq_dec : EqDecision byte := Byte.byte_eq_dec.

(** little-endian, fixed width *)
Fixpoint le_encode (n : nat) (x : Z) : list byte :=
  match n with
  | O => []
  | S n => byte_of_Z (x mod 256) :: le_encode n (x / 256)
  end.

Fixpoint le_decode (l : list byte) : Z :=
  match l with
  | [] => 0
  | b :: l => Z_of_byte b + 256 * le_decode l
  end.

(** *** Key agreement: multiplication by an odd scalar modulo 2^256.
    As X25519 does, it rejects a point whose image is zero. *)
Definition scalar (s : list byte) : Z := 2 * le_decode s + 1.

Definition X25519 (s pt : list byte) : result (list byte) :=
  if negb ((length s =? 32)%nat && (length pt =? 32)%nat)
  then Err "bad scalar or point length"
  else
    let r := (scalar s * le_decode pt) mod 2 ^ 256 in
    if r =? 0 then Err "bad input point: low order point"
    else Ok (le_encode 32 r).

Definition Basepoint : list byte := le_encode 32 9.

Definition Sum256 (s : list byte) : list byte := copy 32 s.

(** *** AEAD: the plaintext followed by a 16-byte tag of nonce and key. *)
Definition tag (k n : list byte) : list byte := copy 16 (n ++ k).

Definition Seal (k n pt : list byte) : list byte := pt ++ tag k n.

Definition Open (k n ct : list byte) : result (list byte) :=
  if (length ct <? 16)%nat then Err "chacha20poly1305: ciphertext too short"
  else
    let m := (length ct - 16)%nat in
    if bool_decide (drop m ct = tag k n) then Ok (take m ct)
    else Err "chacha20poly1305: message authentication failed".

Definition crypto : Crypto :=
  Build_Crypto X25519 Basepoint Sum256 Seal Open.

(** *** Codec *)

(** A format writes a value and reads one back off the front of the
    input. *)
Record Fmt (A : Type) := {
  put : A -> list byte;
  get : list byte -> option (A * list byte);
}.
Arguments put {A} _ _.
Arguments get {A} _ _.

(** reading what was written gives the value back and leaves the rest *)
Definition lawful {A} (f : Fmt A) (wf : A -> Prop) : Prop :=
  forall a rest, wf a -> get f (put f a ++ rest) = Some (a, rest).

Definition u8 : Fmt Z :=
  {| put z := [byte_of_Z z];
     get l := match l with
              | [] => None
              | b :: l => Some (Z_of_byte b, l)
              end |}.

(** unsigned varint, seven bits a byte, low group first *)
Fixpoint put_uvarint (fuel : nat) (n : Z) : list byte :=
  match fuel with
  | O => []
  | S fuel =>
    if n <? 128 then [byte_of_Z n]
    else byte_of_Z (128 + n mod 128) :: put_uvarint fuel (n / 128)
  end.

Fixpoint get_uvarint (l : list byte) : option (Z * list byte) :=
  match l with
  | [] => None
  | b :: l =>
    if Z_of_byte b <? 128 then Some (Z_of_byte b, l)
    else match get_uvarint l with
         | Some (n, rest) => Some (Z_of_byte b - 128 + 128 * n, rest)
         | None => None
         end
  end.

Definition uvarint : Fmt Z :=
  {| put n := put_uvarint (S (Z.to_nat (Z.log2 n))) n;
     get := get_uvarint |}.

(** signed varint: zig-zag, then unsigned *)
Definition zigzag (z : Z) : Z := if 0 <=? z then 2 * z else - 2 * z - 1.
Definition unzigzag (n : Z) : Z := if Z.even n then n / 2 else - ((n + 1) / 2).

Definition varint : Fmt Z :=
  {| put z := put uvarint (zigzag z);
     get l := match get uvarint l with
              | Some (n, rest) => Some (unzigzag n, rest)
              | None => None
              end |}.

Definition boolean : Fmt bool :=
  {| put (b : bool) := [if b then Byte.x01 else Byte.x00];
     get l := match l with
              | [] => None
              | b :: l => Some (negb (Z_of_byte b =? 0), l)
              end |}.

(** [[n]byte] *)
Definition array (n : nat) : Fmt (list byte) :=
  {| put a := a;
     get l := if (length l <? n)%nat then None else Some (take n l, drop n l) |}.

(** [[]byte] *)
Definition bytes : Fmt (list byte) :=
  {| put b := put uvarint (Z.of_nat (length b)) ++ b;
     get l := match get uvarint l with
              | Some (n, rest) => get (array (Z.to_nat n)) rest
              | None => None
              end |}.

Definition str : Fmt string :=
  {| put s := put bytes (String.list_byte_of_string s);
     get l := match get bytes l with
              | Some (b, rest) => Some (String.string_of_list_byte b, rest)
              | None => None
              end |}.

(** a pointer: the nil flag, then the pointee *)
Definition pointer {A} (f : Fmt A) : Fmt (option A) :=
  {| put o := match o with
              | None => [Byte.x01]
              | Some a => Byte.x00 :: put f a
              end;
     get l := match l with
              | [] => None
              | b :: l =>
                if negb (Z_of_byte b =? 0) then Some (None, l)
                else match get f l with
                     | Some (a, rest) => Some (Some a, rest)
                     | None => None
                     end
              end |}.

(** one more field of a struct *)
Definition field {A B C} (fa : Fmt A) (fb : Fmt B) (mk : A -> B -> C)
           (pa : C -> A) (pb : C -> B) : Fmt C :=
  {| put c := put fa (pa c) ++ put fb (pb c);
     get l := match get fa l with
              | Some (a, rest) =>
                match get fb rest with
                | Some (b, rest) => Some (mk a b, rest)
                | None => None
                end
              | None => None
              end |}.

Definition map_fmt {A B} (f : Fmt A) (to : A -> B) (from : B -> A) : Fmt B :=
  {| put b := put f (from b);
     get l := match get f l with
              | Some (a, rest) => Some (to a, rest)
              | None => None
              end |}.

Definition handshake_fmt : Fmt Handshake :=
  map_fmt (array 32) Build_Handshake Handshake_ClientPublicKey.

Definition handshakeAck_fmt : Fmt HandshakeAck :=
  field boolean str Build_HandshakeAck HandshakeAck_Success HandshakeAck_Message.

Definition nextHop_fmt : Fmt NextHop :=
  field (field (array 32) str pair fst snd) str
        (fun ab c => Build_NextHop ab.1 ab.2 c)
        (fun nh => (NextHop_PublicKey nh, NextHop_Protocol nh))
        NextHop_Endpoint.

Definition msg_fmt : Fmt Msg :=
  field (field uvarint varint pair fst snd)
        (field (pointer nextHop_fmt) bytes pair fst snd)
        (fun ab cd => Build_Msg ab.1 ab.2 cd.1 cd.2)
        (fun m => (Msg_Flags m, Msg_Timestamp m))
        (fun m => (Msg_NextHop m, Msg_Data m)).

Definition header_fmt : Fmt Header :=
  field (field str u8 pair fst snd)
        (field (array 32) (array 12) pair fst snd)
        (fun ab cd => Build_Header ab.1 ab.2 cd.1 cd.2)
        (fun h => (Header_Version h, Header_Type h))
        (fun h => (Header_EphemeralKey h, Header_Nonce h)).

Definition rawMsg_fmt : Fmt RawMsg :=
  field (pointer header_fmt) bytes Build_RawMsg RawMsg_Header RawMsg_Body.

Definition binary {A} (f : Fmt A) : Binary A :=
  {| Marshal v := Ok (put f v);
     Unmarshal d := match get f d with
                    | Some (v, _) => Ok v
                    | None => Err "EOF"
                    end |}.

Definition binary_Msg : Binary Msg := binary msg_fmt.
Definition binary_Handshake : Binary Handshake := binary handshake_fmt.
Definition binary_HandshakeAck : Binary HandshakeAck := binary handshakeAck_fmt.
Definition binary_RawMsg : Binary RawMsg := binary rawMsg_fmt.

(** *** Sample values: a node and a client key pair, entropy, bodies *)
Definition unwrap (r : result (list byte)) : list byte :=
  match r with
  | Ok b => b
  | Err _ => []
  end.

Definition nodePrivate : Key := replicate 32 Byte.x01.
Definition nodePublic : Key := unwrap (X25519 nodePrivate Basepoint).
Definition clientPrivate : Key := replicate 32 Byte.x02.
Definition clientPublic : Key := unwrap (X25519 clientPrivate Basepoint).
Definition zeroKey : Key := replicate 32 Byte.x00.

Definition tape : rand.Entropy := replicate 44 Byte.x07.

Definition packet : Msg :=
  {| Msg_Flags := 0; Msg_Timestamp := 0; Msg_NextHop := None;
     Msg_Data := [Byte.xaa; Byte.xbb; Byte.xcc] |}.

Definition forwarded : Msg :=
  {| Msg_Flags := 0; Msg_Timestamp := 0;
     Msg_NextHop := Some {| NextHop_PublicKey := clientPublic;
                            NextHop_Protocol := Wss;
                            NextHop_Endpoint := "10.0.0.2:8080"%string |};
     Msg_Data := [Byte.xaa; Byte.xbb; Byte.xcc] |}.

Definition hello : Handshake := {| Handshake_ClientPublicKey := clientPublic |}.

Definition accepted : HandshakeAck :=
  {| HandshakeAck_Success := true; HandshakeAck_Message := "ok"%string |}.

(** what an encoder for [k], stamped with version [v], makes of the tape *)
Definition frame (r : result RawMsg * rand.Entropy) : RawMsg :=
  match r with
  | (Ok raw, _) => raw
  | (Err _, _) => {| RawMsg_Header := None; RawMsg_Body := [] |}
  end.

Definition sealed_packet (v : Version) (m : Msg) : RawMsg :=
  frame (@EncryptMsg crypto binary_Msg
           {| Encoder_NodePublicKey := nodePublic; Encoder_Version := v |} m tape).

Definition sealed_hello (v : Version) (hs : Handshake) : RawMsg :=
  frame (@EncryptHandshake crypto binary_Handshake
           {| Encoder_NodePublicKey := nodePublic; Encoder_Version := v |} hs tape).

Definition sealed_ack (v : Version) (ack : HandshakeAck) : RawMsg :=
  frame (@EncryptHandshakeAck crypto binary_HandshakeAck
           {| Encoder_NodePublicKey := clientPublic; Encoder_Version := v |} ack tape).
(** a handshake sealed for the client's key, not the node's *)
Definition misdirected_hello : RawMsg :=
  frame (@EncryptHandshake crypto binary_Handshake (NewEncoder clientPublic) hello tape).

(** a handshake, sealed for the node, that announces the all-zero key *)
Definition zero_hello : RawMsg :=
  sealed_hello Version1 {| Handshake_ClientPublicKey := zeroKey |}.

(** *** Sample states *)

(** a device that takes every packet whole *)
Definition device : tun.TUN :=
  {| tun.dev_Write b := (Z.of_nat (length b), None); tun.written := [] |}.

(** a node with one fresh connection, at address 1, and no client
    registered *)
Definition node0 : handler.Node :=
  {| handler.h := handler.NewHandler nodePrivate;
     handler.tun_ := device;
     handler.conns := {[1%positive := wss.handleWebSocket_conn]};
     handler.log := [];
     handler.entropy := tape |}.

(** the same after the client's handshake on that connection *)
Definition node1 : handler.Node :=
  handler.with_connEncoders {[1%positive := NewEncoder clientPublic]} node0.

(** the frame that is a nil [Header] pointer and an empty [Body] *)
Definition nil_header_frame : list byte := [Byte.x01; Byte.x00].

Definition cfg : config.ConnConfig :=
  {| config.PrivateKey := clientPrivate;
     config.NodePublicKey := nodePublic;
     config.Type_ := "wss"%string;
     config.RemoteHost := "203.0.113.1"%string |}.

(** a client whose transport accepts every frame and answers every
    [Receive] with [reply] *)
Definition world (reply : result (list byte)) : vpn.World :=
  {| vpn.transport := {| client.Send_answer _ := None; client.sent := [];
                         client.Receive_answer _ := reply; client.receives := 0 |};
     vpn.tun_ := device;
     vpn.log := [];
     vpn.entropy := tape;
     vpn.goroutines := [] |}.
End model.

(** ** encoding/hex, as an instance for the examples: lower-case digits
    out, both cases in, an odd length or another character refused *)
Module hex.
Definition digit (n : N) : Ascii.ascii :=
  Ascii.ascii_of_N (if (n <? 10)%N then 48 + n else 87 + n).

Definition fromHexChar (c : Ascii.ascii) : option N :=
  let n := Ascii.N_of_ascii c in
  if ((48 <=? n) && (n <=? 57))%N then Some (n - 48)%N
  else if ((97 <=? n) && (n <=? 102))%N then Some (n - 87)%N
  else if ((65 <=? n) && (n <=? 70))%N then Some (n - 55)%N
  else None.

Definition encode_byte (b : byte) (s : string) : string :=
  let n := Byte.to_N b in
  String (digit (n / 16)) (String (digit (n mod 16)) s).

Fixpoint EncodeToString (src : list byte) : string :=
  match src with
  | [] => ""
  | b :: src => encode_byte b (EncodeToString src)
  end.

Fixpoint DecodeString (s : string) : result (list byte) :=
  match s with
  | "" => Ok []
  | String p "" =>
    match fromHexChar p with
    | None => Err "encoding/hex: invalid byte"
    | Some _ => Err "encoding/hex: odd length hex string"
    end
  | String p (String q s) =>
    match fromHexChar p, fromHexChar q with
    | Some a, Some b =>
      match DecodeString s with
      | Ok dst => Ok (default Byte.x00 (Byte.of_N (16 * a + b)) :: dst)
      | Err e => Err e
      end
    | _, _ => Err "encoding/hex: invalid byte"
    end
  end.
End hex.

(** ** internal/node/handler: the TUN reader

    One pass of the loop in [StartTUNReader] is a function of what the
    device read ([Ok] of the packet [buf[:n]], or the error), of the clock
    and of the order in which [range] visits the encoder table; the loop is
    the passes over the reads the device delivers. *)
Module reader.
Import msg handler.

Record Pass := {
  read : result (list byte);          (* n, err := h.tun.Read(buf) *)
  now : Z;                            (* time.Now().Unix() *)
  order : list (Conn * Encoder);      (* range h.connEncoders *)
}.

Section Reader.
Context `{Crypto}.
Context `{Binary Msg} `{Binary RawMsg}.

(** the body of [for conn, encoder := range h.connEncoders] *)
Definition send_to (message : Msg) (w : Node) (entry : Conn * Encoder) : Node :=
  let '(conn, encoder) := entry in
  match EncryptMsg encoder message (entropy w) with
  | (Err err, rnd) =>
    with_log (slog.Error "Failed to encrypt response" [("error", slog.StringValue err)])
             (with_entropy rnd w)
  | (Ok rawMsg, rnd) =>
    let w := with_entropy rnd w in
    match Marshal rawMsg with
    | Err err =>
      with_log (slog.Error "Failed to marshal response"
                           [("error", slog.StringValue err)]) w
    | Ok data => conn_Send conn data w
    end
  end.

Definition StartTUNReader_pass (p : Pass) (w : Node) : Node :=
  match read p with
  | Err err =>
    with_log (slog.Error "Failed to read from TUN" [("error", slog.StringValue err)]) w
  | Ok packet =>
    if (length packet =? 0)%nat then w
    else
      let message := {| Msg_Flags := 0;
                        Msg_Timestamp := now p;
                        Msg_NextHop := None;
                        Msg_Data := packet |} in
      (* Send to all registered clients with their specific encoders *)
      foldl (send_to message) w (order p)
  end.

Definition StartTUNReader (passes : list Pass) (w : Node) : Node :=
  foldl (fun w p => StartTUNReader_pass p w) w passes.
End Reader.

(** [range] visits every entry of the table once *)
Definition ranges (p : Pass) (w : Node) : Prop :=
  order p ≡ₚ map_to_list (connEncoders (h w)).
End reader.

(** ** internal/kedr/vpn: the two pumps

    A pass of [sendLoop] is a function of whether the context is done, of
    what the TUN read and of the clock; a pass of [receiveLoop] of whether
    the context is done, the frame coming from the transport.  A loop ends
    by returning, with or without an error put on [errChan], or is still
    running when the passes given are used up. *)
Module pumps.
Import msg vpn.

Inductive Loop :=
| Running
| Cancelled                 (* case <-ctx.Done(): return *)
| Failed (err : string).    (* errChan <- err; return *)

Record SendPass := {
  send_done : bool;
  send_read : result (list byte);
  send_now : Z;
}.

Section Pumps.
Context `{Crypto}.
Context `{Binary Msg} `{Binary RawMsg}.

Definition sendLoop_pass (c : Client) (p : SendPass) (w : World) : Loop * World :=
  if send_done p then (Cancelled, w)
  else
    match send_read p with
    | Err err =>
      (Failed (Errorf "TUN read error" err),
       with_log (slog.Error "failed to read from TUN" [("error", slog.StringValue err)]) w)
    | Ok packet =>
      if (length packet =? 0)%nat then (Running, w)
      else
        let message := {| Msg_Flags := 0;
                          Msg_Timestamp := send_now p;
                          Msg_NextHop := None;
                          Msg_Data := packet |} in
        match EncryptMsg (encoder c) message (entropy w) with
        | (Err err, rnd) =>
          (Running,
           with_log (slog.Error "failed to encrypt message"
                                [("error", slog.StringValue err)])
                    (with_entropy rnd w))
        | (Ok rawMsg, rnd) =>
          let w := with_entropy rnd w in
          match Marshal rawMsg with
          | Err err =>
            (Running,
             with_log (slog.Error "failed to marshal message"
                                  [("error", slog.StringValue err)]) w)
          | Ok data =>
            let '(err, t) := client.Send (transport w) data in
            let w := with_transport t w in
            match err with
            | Some err =>
              (Failed (Errorf "transport send error" err),
               with_log (slog.Error "failed to send message"
                                    [("error", slog.StringValue err)]) w)
            | None => (Running, w)
            end
          end
        end
    end.



Definition with_tun (t : tun.TUN) (w : World) : World :=
  {| transport := transport w; tun_ := t; log := log w; entropy := entropy w;
     goroutines := goroutines w |}.

Definition receiveLoop_pass (c : Client) (done : bool) (w : World)
  : exec (Loop * World) :=
  if done then Ret (Cancelled, w)
  else
    let '(r, t) := client.Receive (transport w) in
    let w := with_transport t w in
    match r with
    | Err err =>
      Ret (Failed (Errorf "transport receive error" err),
           with_log (slog.Error "failed to receive message"
                                [("error", slog.StringValue err)]) w)
    | Ok data =>
      match Unmarshal data with
      | Err err =>
        Ret (Running,
             with_log (slog.Error "failed to unmarshal message"
                                  [("error", slog.StringValue err)]) w)
      | Ok rawMsg =>
        match DecryptBody (decoder c) rawMsg with
        | Panic p => Panic p
        | Ret (Err err) =>
          Ret (Running,
               with_log (slog.Error "failed to decrypt message"
                                    [("error", slog.StringValue err)]) w)
        | Ret (Ok cookedMsg) =>
          match processor.Process cookedMsg (tun_ w) with
          | Panic p => Panic p
          | Ret (err, t) =>
            let w := with_tun t w in
            match err with
            | Some err =>
              Ret (Running,
                   with_log (slog.Error "failed to process message"
                                        [("error", slog.StringValue err)]) w)
            | None => Ret (Running, w)
            end
          end
        end
      end
    end.

End Pumps.
End pumps.

(** ** internal/transport/server/wss: the way of a frame

    A frame that [Send] accepts goes onto the channel, from there into
    [writePump]'s hands and from there onto the wire.  [accepted] lists
    the frames that the calls of [Send] put on the channel in the course
    of a run, in the order in which they did. *)
Module queue.
Import wss.

(** the frame [writePump] holds *)
Definition inflight (s : Live) : list (list byte) :=
  match writePump s with
  | Writing data => [data]
  | _ => []
  end.

(** written, being written, waiting *)
Definition in_order (s : Live) : list (list byte) :=
  wire s ++ inflight s ++ buf (sendCh (conn s)).

(** what a turn puts on the channel *)
Definition accepts (t : Turn) (s : Live) : list (list byte) :=
  match t with
  | Run_Send i =>
    match calls s !! i with
    | Some (AtSelect data) =>
      if sendCh_closed s then []
      else match Send_select (conn s) data with
           | (None, _) => [data]
           | (Some _, _) => []
           end
    | _ => []
    end
  | _ => []
  end.

Fixpoint accepted (turns : list Turn) (s : Live) : list (list byte) :=
  match turns with
  | [] => []
  | t :: turns => accepts t s ++ accepted turns (turn t s)
  end.
End queue.

(** ** internal/transport/server/wss with cmd/node: the sessions of a node

    [main] makes [h.HandleMessage] the server's [onMessage] and
    [h.RemoveConnection] its [onDisconnect].  A session is the run of
    [handleWebSocket] for one upgraded connection; it goes through
    [readPump], then through the three parts of the cleanup.  The server
    keeps [s.connections]; beside each entry stands where that session's
    goroutine is.  Sessions, the [writePump]s and the TUN reader take
    turns.  A turn is a stretch of code run to its end: a frame handled, a
    pass of the reader, one part of the cleanup, a frame taken off a
    queue.  Where such a stretch has to wait for a connection's mutex
    (see [wss.turn]), the turn stands for the stretch once it has got it;
    what is said of the states between turns is about the encoder table,
    [closed] and the queues, not about who waits for whom. *)
Module server.
Import msg handler.

Definition TextMessage : Z := 1.
Definition BinaryMessage : Z := 2.

Inductive Phase :=
| Reading          (* in readPump, or past it and not yet at conn.closed = true *)
| Closed           (* conn.closed = true *)
| Disconnected.    (* s.onDisconnect(conn) has returned *)

Record Server := {
  node : Node;
  connections : gmap Conn Phase;
}.

Definition with_node (w : Node) (s : Server) : Server :=
  {| node := w; connections := connections s |}.

Definition with_conns (m : gmap Conn wss.Connection) (w : Node) : Node :=
  {| h := h w; tun_ := tun_ w; conns := m; log := log w; entropy := entropy w |}.

(** what [main] starts the server with *)
Definition boot (privateKey : Key) (t : tun.TUN) (rnd : rand.Entropy) : Server :=
  {| node := {| h := NewHandler privateKey; tun_ := t; conns := ∅; log := [];
                entropy := rnd |};
     connections := ∅ |}.

(** [handleWebSocket] after the upgrade: the new connection, at address
    [conn], is put into [s.connections] *)
Definition handleWebSocket_connect (remote : string) (conn : Conn) (s : Server) : Server :=
  {| node := with_log (slog.Info "Client connected" [("remote", slog.StringValue remote)])
                      (with_conns (<[conn := wss.handleWebSocket_conn]> (conns (node s)))
                                  (node s));
     connections := <[conn := Reading]> (connections s) |}.

(** [ReadMessage] failed: [readPump] returns, and the cleanup, once it has
    the mutex, marks the connection closed *)
Definition readPump_return (conn : Conn) (unexpected : option string) (s : Server)
  : Server :=
  let w := match unexpected with
           | Some err =>
             with_log (slog.Error "Read error" [("error", slog.StringValue err)]) (node s)
           | None => node s
           end in
  {| node := with_conns (alter wss.handleWebSocket_cleanup conn (conns w)) w;
     connections := <[conn := Closed]> (connections s) |}.

(** [delete(s.connections, conn)], the channel and the socket closed *)
Definition handleWebSocket_delete (remote : string) (conn : Conn) (s : Server) : Server :=
  {| node := with_log (slog.Info "Client disconnected"
                                 [("remote", slog.StringValue remote)]) (node s);
     connections := delete conn (connections s) |}.

(** an iteration of [writePump] on the connection at [conn], from the
    frame taken off the channel to the return of [WriteMessage] with
    [err] *)
Definition writePump_write (conn : Conn) (err : error) (s : Server) : Server :=
  match conns (node s) !! conn with
  | None => s
  | Some c =>
    match wss.writePump_recv c with
    | None => s
    | Some (_, c') =>
      let w := with_conns (<[conn := c']> (conns (node s))) (node s) in
      with_node match err with
                | Some err =>
                  with_log (slog.Error "Write error" [("error", slog.StringValue err)]) w
                | None => w
                end s
    end
  end.

Section Server.
Context `{Crypto}.
Context `{Binary Msg} `{Binary Handshake} `{Binary HandshakeAck} `{Binary RawMsg}.

(** an iteration of [readPump] in which [ReadMessage] returned a message *)
Definition readPump_message (conn : Conn) (msgType : Z) (data : list byte) (s : Server)
  : exec Server :=
  if negb (msgType =? BinaryMessage) then Ret s
  else
    match HandleMessage conn data (node s) with
    | Panic p => Panic p
    | Ret w => Ret (with_node w s)
    end.

(** [s.onDisconnect(conn)] *)
Definition handleWebSocket_onDisconnect (conn : Conn) (s : Server) : Server :=
  {| node := RemoveConnection conn (node s);
     connections := <[conn := Disconnected]> (connections s) |}.

Inductive step : Server -> Server -> Prop :=
| step_connect remote conn s :
    conns (node s) !! conn = None ->
    step s (handleWebSocket_connect remote conn s)
| step_message conn msgType data s s' :
    connections s !! conn = Some Reading ->
    readPump_message conn msgType data s = Ret s' ->
    step s s'
| step_return conn unexpected s :
    connections s !! conn = Some Reading ->
    step s (readPump_return conn unexpected s)
| step_onDisconnect conn s :
    connections s !! conn = Some Closed ->
    step s (handleWebSocket_onDisconnect conn s)
| step_delete remote conn s :
    connections s !! conn = Some Disconnected ->
    step s (handleWebSocket_delete remote conn s)
| step_write conn err s :
    step s (writePump_write conn err s)
| step_reader p s :
    reader.ranges p (node s) ->
    step s (with_node (reader.StartTUNReader_pass p (node s)) s).
End Server.

(** [m'] is [m] after calls of [Send] on some of its connections *)
Definition sent_on (m m' : gmap Conn wss.Connection) : Prop :=
  forall conn : Conn,
    match m' !! conn with
    | Some c' =>
      exists c, m !! conn = Some c /\ wss.closed c' = wss.closed c /\
                (wss.reachable c -> wss.reachable c')
    | None => m !! conn = None
    end.

(** what holds between the turns, for the connection at [conn] *)
Definition inv (s : Server) : Prop :=
  forall conn : Conn,
    match connections s !! conn with
    | Some Reading =>
      exists c, conns (node s) !! conn = Some c /\ wss.closed c = false /\
                wss.reachable c
    | Some Closed =>
      exists c, conns (node s) !! conn = Some c /\ wss.closed c = true /\
                wss.reachable c
    | Some Disconnected =>
      connEncoders (h (node s)) !! conn = None /\
      exists c, conns (node s) !! conn = Some c /\ wss.closed c = true /\
                wss.reachable c
    | None =>
      connEncoders (h (node s)) !! conn = None /\
      forall c, conns (node s) !! conn = Some c ->
                wss.closed c = true /\ wss.reachable c
    end.
End server.

(** ** os and strings

    The environment is a finite map; [Getenv] of a variable that is not
    set is the empty string.  Of Go's [strings], the three functions the
    client's configuration uses. *)
Module os.
Definition Env := gmap string string.

Definition Getenv (env : Env) (key : string) : string := default "" (env !! key).
End os.

Module strings.
(** [len(s) >= len(prefix) && s[:len(prefix)] == prefix] *)
Definition HasPrefix (s prefix : string) : bool := String.prefix prefix s.

(** [len(s) >= len(suffix) && s[len(s)-len(suffix):] == suffix] *)
Definition HasSuffix (s suffix : string) : bool :=
  (String.length suffix <=? String.length s)%nat &&
  String.eqb (String.substring (String.length s - String.length suffix)
                               (String.length suffix) s) suffix.

Definition TrimSuffix (s suffix : string) : string :=
  if HasSuffix s suffix
  then String.substring 0 (String.length s - String.length suffix) s
  else s.
End strings.

(** ** internal/transport/client/wss and udp: the configurations

    [GetFromEnv] assigns the field before it validates, so the receiver
    is changed also when an error is returned. *)
Module wss_client.
Record Config := { Url : string }.

Definition GetFromEnv (env : os.Env) (c : Config) (l : slog.Log)
  : error * Config * slog.Log :=
  let c := {| Url := os.Getenv env "WS_URL" |} in
  if String.eqb (Url c) "" then (Some "WS_URL is not set", c, l)
  else
    (* Validate URL format *)
    if negb (strings.HasPrefix (Url c) "ws://") && negb (strings.HasPrefix (Url c) "wss://")
    then (Some ("WS_URL must start with ws:// or wss://, got: " ++ Url c), c, l)
    else
      (* Auto-add /ws if missing *)
      let c := if negb (strings.HasSuffix (Url c) "/ws")
               then {| Url := strings.TrimSuffix (Url c) "/" ++ "/ws" |}
               else c in
      (None, c,
       slog.Info "WebSocket URL configured" [("url", slog.StringValue (Url c))] l).
End wss_client.

Module udp_client.
Record Config := { Addr : string }.

Definition GetFromEnv (env : os.Env) (c : Config) (l : slog.Log)
  : error * Config * slog.Log :=
  let c := {| Addr := os.Getenv env "UDP_ADDR" |} in
  if String.eqb (Addr c) "" then (Some "UDP_ADDR is not set", c, l)
  else (None, c,
        slog.Info "UDP address configured" [("addr", slog.StringValue (Addr c))] l).
End udp_client.

(** ** internal/kedr/config: parsing

    [TransportConfig] is an interface with two implementations; the value
    carries which one it is.  [hex.DecodeString] is taken as given. *)
Module kedr_config.
Inductive TransportConfig :=
| WssConfig (c : wss_client.Config)
| UdpConfig (c : udp_client.Config).

Definition TransportConfig_GetFromEnv (env : os.Env) (t : TransportConfig) (l : slog.Log)
  : error * TransportConfig * slog.Log :=
  match t with
  | WssConfig c =>
    let '(err, c, l) := wss_client.GetFromEnv env c l in (err, WssConfig c, l)
  | UdpConfig c =>
    let '(err, c, l) := udp_client.GetFromEnv env c l in (err, UdpConfig c, l)
  end.

(** the factories of [ConnTypeMap], each applied *)
Definition ConnTypeMap (connType : string) : option TransportConfig :=
  if String.eqb connType "wss" then Some (WssConfig {| wss_client.Url := "" |})
  else if String.eqb connType "udp" then Some (UdpConfig {| udp_client.Addr := "" |})
  else None.

Record ConnConfig := {
  PrivateKey : msg.Key;
  NodePublicKey : msg.Key;
  Type_ : string;
  LocalIP : string;
  NodeVPNIP : string;
  GatewayIP : string;
  RemoteHost : string;
  TransportConfig_ : TransportConfig;
}.

(** the fields [vpn.NewClient] reads *)
Definition for_NewClient (cfg : ConnConfig) : config.ConnConfig :=
  {| config.PrivateKey := PrivateKey cfg;
     config.NodePublicKey := NodePublicKey cfg;
     config.Type_ := Type_ cfg;
     config.RemoteHost := RemoteHost cfg |}.

Section Parse.
Variable hex_DecodeString : string -> result (list byte).

(** [hex.DecodeString(s)] followed by [err != nil || len(b) != 32] *)
Definition key_bytes (s : string) : option (list byte) :=
  match hex_DecodeString s with
  | Err _ => None
  | Ok b => if negb (length b =? 32)%nat then None else Some b
  end.

Definition ParseConfigFromEnv (env : os.Env) (connType : string) (l : slog.Log)
  : result ConnConfig * slog.Log :=
  match ConnTypeMap connType with
  | None => (Err ("invalid connection type: " ++ connType), l)
  | Some transportConfig =>
    let '(err, transportConfig, l) := TransportConfig_GetFromEnv env transportConfig l in
    match err with
    | Some err => (Err (Errorf "failed to get transport config" err), l)
    | None =>
      (* Parse private key *)
      let privKeyHex := os.Getenv env "PRIVATE_KEY" in
      if String.eqb privKeyHex "" then (Err "PRIVATE_KEY is not set", l)
      else
        match key_bytes privKeyHex with
        | None => (Err "PRIVATE_KEY must be 32 bytes hex", l)
        | Some privKeyBytes =>
          let privateKey := copy 32 privKeyBytes in
          (* Parse node public key *)
          let nodePubKeyHex := os.Getenv env "NODE_PUBLIC_KEY" in
          if String.eqb nodePubKeyHex "" then (Err "NODE_PUBLIC_KEY is not set", l)
          else
            match key_bytes nodePubKeyHex with
            | None => (Err "NODE_PUBLIC_KEY must be 32 bytes hex", l)
            | Some nodePubKeyBytes =>
              let nodePublicKey := copy 32 nodePubKeyBytes in
              (* Network config *)
              let localIP := os.Getenv env "LOCAL_IP" in
              if String.eqb localIP "" then (Err "LOCAL_IP is not set", l)
              else
                let nodeVPNIP := os.Getenv env "NODE_VPN_IP" in
                if String.eqb nodeVPNIP ""
                then (Err "NODE_VPN_IP is not set (node's TUN IP, e.g., 11.0.0.1)", l)
                else
                  let gatewayIP := os.Getenv env "GATEWAY_IP" in
                  if String.eqb gatewayIP "" then (Err "GATEWAY_IP is not set", l)
                  else
                    let remoteHost := os.Getenv env "REMOTE_HOST" in
                    if String.eqb remoteHost "" then (Err "REMOTE_HOST is not set", l)
                    else
                      (Ok {| PrivateKey := privateKey;
                             NodePublicKey := nodePublicKey;
                             Type_ := connType;
                             LocalIP := localIP;
                             NodeVPNIP := nodeVPNIP;
                             GatewayIP := gatewayIP;
                             RemoteHost := remoteHost;
                             TransportConfig_ := transportConfig |}, l)
            end
        end
    end
  end.
End Parse.

Definition GetConnTypeFromEnv (env : os.Env) : result string :=
  let env_ := os.Getenv env "CONN_TYPE" in
  if String.eqb env_ "" then Err "CONN_TYPE is not set"
  else
    match ConnTypeMap env_ with
    | None => Err ("invalid connection type: " ++ env_)
    | Some _ => Ok env_
    end.
End kedr_config.

(** ** internal/transport/client: the factory

    Dialling is the network's business: [wss_NewTransport] and
    [udp_NewTransport] are given. *)
Module client_factory.
Import kedr_config.

Section Factory.
Context {Client : Type}.
Variable wss_NewTransport : wss_client.Config -> result Client.
Variable udp_NewTransport : udp_client.Config -> result Client.

Definition NewClient (connType : string) (transportConfig : TransportConfig)
  : result Client :=
  if String.eqb connType "wss" then
    match transportConfig with
    | WssConfig wssConfig => wss_NewTransport wssConfig
    | _ => Err "invalid wss config type"
    end
  else if String.eqb connType "udp" then
    match transportConfig with
    | UdpConfig udpConfig => udp_NewTransport udpConfig
    | _ => Err "invalid udp config type"
    end
  else Err ("unsupported transport type: " ++ connType).
End Factory.
End client_factory.

(** ** internal/node/config *)
Module node_config.
Record NodeConfig := {
  PrivateKey : msg.Key;
  PublicKey : msg.Key;
  ListenAddr : string;
  TunIP : string;
  VPNSubnet : string;
}.

Section Parse.
Variable hex_DecodeString : string -> result (list byte).

Definition ParseNodeConfigFromEnv (env : os.Env) : result NodeConfig :=
  (* Parse private key *)
  let privKeyHex := os.Getenv env "NODE_PRIVATE_KEY" in
  if String.eqb privKeyHex "" then Err "NODE_PRIVATE_KEY is not set"
  else
    match kedr_config.key_bytes hex_DecodeString privKeyHex with
    | None => Err "NODE_PRIVATE_KEY must be 32 bytes hex"
    | Some privKeyBytes =>
      let privateKey := copy 32 privKeyBytes in
      (* Parse public key (optional) *)
      let pubKeyHex := os.Getenv env "NODE_PUBLIC_KEY" in
      let publicKey :=
        if negb (String.eqb pubKeyHex "") then
          match kedr_config.key_bytes hex_DecodeString pubKeyHex with
          | None => Err "NODE_PUBLIC_KEY must be 32 bytes hex"
          | Some pubKeyBytes => Ok (copy 32 pubKeyBytes)
          end
        else Ok (replicate 32 Byte.x00) in
      match publicKey with
      | Err err => Err err
      | Ok publicKey =>
        let listenAddr := os.Getenv env "LISTEN_ADDR" in
        let listenAddr := if String.eqb listenAddr "" then ":8080" else listenAddr in
        let tunIP := os.Getenv env "TUN_IP" in
        if String.eqb tunIP "" then Err "TUN_IP is not set"
        else
          let vpnSubnet := os.Getenv env "VPN_SUBNET" in
          if String.eqb vpnSubnet "" then Err "VPN_SUBNET is not set (e.g., 11.0.0.0/24)"
          else
            Ok {| PrivateKey := privateKey;
                  PublicKey := publicKey;
                  ListenAddr := listenAddr;
                  TunIP := tunIP;
                  VPNSubnet := vpnSubnet |}
      end
    end.
End Parse.
End node_config.

(** ** Sample values for the examples *)
Module samples.
Import msg.

(** a frame on the wire *)
Definition wire (raw : RawMsg) : list byte :=
  model.unwrap (@Marshal _ model.binary_RawMsg raw).

Definition ip_packet : list byte := [Byte.xaa; Byte.xbb; Byte.xcc].

(** the client's Handshake and a Data frame of its, as the node receives
    them *)
Definition hello_frame : list byte := wire (model.sealed_hello Version1 model.hello).
Definition data_frame : list byte := wire (model.sealed_packet Version1 model.packet).

(** a pass of the node's TUN reader, the table holding the one client *)
Definition pass : reader.Pass :=
  {| reader.read := Ok ip_packet;
     reader.now := 0;
     reader.order := [(1%positive, NewEncoder model.clientPublic)] |}.

(** passes of the client's [sendLoop] *)
Definition send_pass : pumps.SendPass :=
  {| pumps.send_done := false; pumps.send_read := Ok ip_packet; pumps.send_now := 0 |}.


Definition kedr : vpn.Client := @vpn.NewClient model.crypto model.cfg.

(** the client's environment *)
Definition client_env : os.Env :=
  list_to_map
    [("WS_URL", "ws://203.0.113.1:8080/");
     ("PRIVATE_KEY", hex.EncodeToString model.clientPrivate);
     ("NODE_PUBLIC_KEY", hex.EncodeToString model.nodePublic);
     ("LOCAL_IP", "11.0.0.2");
     ("NODE_VPN_IP", "11.0.0.1");
     ("GATEWAY_IP", "192.168.1.1");
     ("REMOTE_HOST", "203.0.113.1")]%string.

(** a dialler without a network *)
Definition no_network {A} (_ : A) : result unit := Err "network is unreachable".
(** a connection after [Send] was called with each of [frames] *)
Definition after_sends (frames : list (list byte)) (c : wss.Connection)
  : wss.Connection :=
  foldl (fun c data => (wss.Send c data).2) c frames.

(** a connection whose peer does not read: 256 frames queued *)
Definition full_conn : wss.Connection :=
  after_sends (replicate 256 [Byte.x00]) wss.handleWebSocket_conn.

End samples.

(** * Proofs *)

(** ** Go values *)

Lemma copy_id n src : length src = n -> copy n src = src.
Proof.
  intros <-. unfold copy.
  rewrite firstn_all, Nat.sub_diag. apply app_nil_r.
Qed.

Lemma length_copy n src : length (copy n src) = n.
Proof. unfold copy. rewrite length_app, length_take, length_replicate. lia. Qed.

Lemma Read_ok n rnd :
  (n <= length rnd)%nat -> rand.Read n rnd = (Ok (take n rnd), drop n rnd).
Proof. intros Hn. unfold rand.Read. by apply Nat.leb_le in Hn as ->. Qed.

Lemma Read_inv n rnd b rnd' :
  rand.Read n rnd = (Ok b, rnd') ->
  (n <= length rnd)%nat /\ b = take n rnd /\ rnd' = drop n rnd.
Proof.
  unfold rand.Read. destruct (n <=? length rnd)%nat eqn:E; [|done].
  apply Nat.leb_le in E. by intros [= <- <-].
Qed.

Lemma New_ok k :
  length k = 32%nat -> chacha20poly1305.New k = Ok {| chacha20poly1305.key := k |}.
Proof. intros Hk. unfold chacha20poly1305.New. by rewrite Hk. Qed.

(** ** pkg/taiga/msg *)
Module msg_proofs.
Import msg.

Section KeyPairs.
Context `{Crypto}.

Lemma PublicKeyFromPrivate_inv priv pub :
  PublicKeyFromPrivate priv = Ok pub ->
  exists P, X25519 priv Basepoint = Ok P /\ pub = copy 32 P.
Proof.
  unfold PublicKeyFromPrivate, rbind, rwrap.
  destruct (X25519 priv Basepoint) as [P|e]; [|done].
  intros [= <-]. by exists P.
Qed.

Lemma GenerateKeyPair_inv rnd priv pub rnd' :
  GenerateKeyPair rnd = (Ok (priv, pub), rnd') ->
  priv = take 32 rnd /\ rnd' = drop 32 rnd /\ (32 <= length rnd)%nat /\
  PublicKeyFromPrivate priv = Ok pub.
Proof.
  unfold GenerateKeyPair, PublicKeyFromPrivate, bind, orElse, lift, ret, rbind, rwrap.
  destruct (rand.Read 32 rnd) as [[b|e] r] eqn:ER; [|done].
  apply Read_inv in ER as (Hlen & -> & ->).
  destruct (X25519 (take 32 rnd) Basepoint) as [P|e] eqn:EX; [|done].
  simpl. intros [= <- <- <-]. by rewrite EX.
Qed.
End KeyPairs.

Section Sealing.
Context `{Crypto} `{!CryptoLaws}.
Context `{Binary Msg} `{Binary Handshake} `{Binary HandshakeAck}.

(** Both ends of one frame derive the same secret: the sender from its
    ephemeral scalar and the recipient's public key, the recipient from
    its private key and the ephemeral public key in the header. *)
Lemma ecdh_agree e p P :
  length e = 32%nat -> length p = 32%nat -> PublicKeyFromPrivate p = Ok P ->
  exists E s,
    X25519 e Basepoint = Ok E /\ length E = 32%nat /\
    X25519 e P = Ok s /\ X25519 p E = Ok s.
Proof.
  intros He Hp (P0 & HP0 & ->)%msg_proofs.PublicKeyFromPrivate_inv.
  destruct (X25519_base e He) as (E & HE & HlenE).
  destruct (X25519_base p Hp) as (P1 & HP1 & HlenP).
  assert (P1 = P0) as -> by congruence.
  rewrite (copy_id _ _ HlenP).
  destruct (X25519_dh e p E P0 He Hp HE HP0) as (s & Hs1 & Hs2).
  by exists E, s.
Qed.

Lemma entropy_split (rnd : rand.Entropy) :
  (44 <= length rnd)%nat ->
  length (take 32 rnd) = 32%nat /\
  rand.Read 32 rnd = (Ok (take 32 rnd), drop 32 rnd) /\
  length (take 12 (drop 32 rnd)) = 12%nat /\
  rand.Read 12 (drop 32 rnd) = (Ok (take 12 (drop 32 rnd)), drop 44 rnd).
Proof.
  intros Hlen. split_and!.
  - rewrite length_take. lia.
  - apply Read_ok. lia.
  - rewrite length_take, length_drop. lia.
  - rewrite Read_ok by (rewrite length_drop; lia).
    by rewrite drop_drop.
Qed.

(** The steps the three pairs of methods share. *)
Ltac seal_open Hwf Hrt :=
  match goal with
  | He : Encoder_NodePublicKey _ = ?P, Hd : Decoder_PrivateKey _ = ?p,
    Hp : length ?p = 32%nat, HP : PublicKeyFromPrivate ?p = Ok ?P,
    Hrnd : (44 <= length ?rnd)%nat |- _ =>
    destruct (entropy_split rnd Hrnd) as (Hle & HR1 & Hln & HR2);
    destruct (ecdh_agree (take 32 rnd) p P Hle Hp HP) as (E & s & HE & HlenE & Hs1 & Hs2);
    destruct (Hrt _ Hwf) as (data & HM & HU);
    eexists; split_and!;
    [ cbv [EncryptMsg EncryptHandshake EncryptHandshakeAck bind orElse lift ret];
      rewrite HR1, HE, He, Hs1, HR2, (New_ok _ (Sum256_length s)), HM;
      reflexivity
    | cbn; eexists; split_and!; [reflexivity .. | ];
      unfold Header_wf, Key_wf, Nonce_wf; cbn;
      split_and!; first [apply length_copy | done | by compute]
    | cbv [DecryptBody DecryptHandshake DecryptHandshakeAck]; cbn;
      rewrite Hd, (copy_id _ _ HlenE), Hs2; cbn;
      rewrite (New_ok _ (Sum256_length s)); cbn;
      unfold chacha20poly1305.Open_, chacha20poly1305.Seal_; cbn;
      rewrite (Open_Seal _ _ _ (Sum256_length s) Hln); cbn;
      rewrite HU; reflexivity ]
  end.

Lemma EncryptMsg_DecryptBody e d p P rnd m :
  roundtrips Msg_wf ->
  Encoder_NodePublicKey e = P -> Decoder_PrivateKey d = p ->
  length p = 32%nat -> PublicKeyFromPrivate p = Ok P ->
  (44 <= length rnd)%nat -> Msg_wf m ->
  exists raw,
    EncryptMsg e m rnd = (Ok raw, drop 44 rnd) /\
    (exists hdr, RawMsg_Header raw = Some hdr /\
                 Header_Version hdr = Encoder_Version e /\
                 Header_Type hdr = TypeData /\ Header_wf hdr) /\
    DecryptBody d raw
    = Ret (Ok {| CookedMsg_Header := RawMsg_Header raw; CookedMsg_Body := Some m |}).
Proof. intros Hrt He Hd Hp HP Hrnd Hwf.
    destruct (entropy_split rnd Hrnd) as (Hle & HR1 & Hln & HR2).
    destruct (ecdh_agree (take 32 rnd) p P Hle Hp HP) as (E & s & HE & HlenE & Hs1 & Hs2).
    destruct (Hrt _ Hwf) as (data & HM & HU).
    eexists; split_and!.
    - cbv [EncryptMsg EncryptHandshake EncryptHandshakeAck bind orElse lift ret].
      rewrite HR1, HE, He, Hs1, HR2, (New_ok _ (Sum256_length s)), HM.
      reflexivity.
    - cbn. eexists; split_and!; [reflexivity .. | ].
      unfold Header_wf, Key_wf, Nonce_wf; cbn.
      split_and!; first [apply length_copy | done | by compute].
    - cbv [DecryptBody DecryptHandshake DecryptHandshakeAck]; cbn.
      rewrite Hd, (copy_id _ _ HlenE), Hs2; cbn.
      rewrite (New_ok _ (Sum256_length s)); cbn.
      unfold chacha20poly1305.Open_, chacha20poly1305.Seal_; cbn.
      rewrite (Open_Seal _ _ _ (Sum256_length s) Hln); cbn.
      rewrite HU; reflexivity.
Qed.

Lemma EncryptHandshake_DecryptHandshake e d p P rnd hs :
  roundtrips Handshake_wf ->
  Encoder_NodePublicKey e = P -> Decoder_PrivateKey d = p ->
  length p = 32%nat -> PublicKeyFromPrivate p = Ok P ->
  (44 <= length rnd)%nat -> Handshake_wf hs ->
  exists raw,
    EncryptHandshake e hs rnd = (Ok raw, drop 44 rnd) /\
    (exists hdr, RawMsg_Header raw = Some hdr /\
                 Header_Version hdr = Encoder_Version e /\
                 Header_Type hdr = TypeHandshake /\ Header_wf hdr) /\
    DecryptHandshake d raw = Ret (Ok hs).
Proof. intros Hrt He Hd Hp HP Hrnd Hwf. seal_open Hwf Hrt. Qed.

Lemma EncryptHandshakeAck_DecryptHandshakeAck e d p P rnd ack :
  roundtrips HandshakeAck_wf ->
  Encoder_NodePublicKey e = P -> Decoder_PrivateKey d = p ->
  length p = 32%nat -> PublicKeyFromPrivate p = Ok P ->
  (44 <= length rnd)%nat -> HandshakeAck_wf ack ->
  exists raw,
    EncryptHandshakeAck e ack rnd = (Ok raw, drop 44 rnd) /\
    (exists hdr, RawMsg_Header raw = Some hdr /\
                 Header_Version hdr = Encoder_Version e /\
                 Header_Type hdr = TypeHandshakeAck /\ Header_wf hdr) /\
    DecryptHandshakeAck d raw = Ret (Ok ack).
Proof. intros Hrt He Hd Hp HP Hrnd Hwf. seal_open Hwf Hrt. Qed.
End Sealing.
End msg_proofs.

(** ** The instance meets the laws *)
Module model_proofs.
Import msg model.
Local Open Scope list_scope.

Lemma Z_of_byte_range b : 0 <= Z_of_byte b < 256.
Proof.
  unfold Z_of_byte. pose proof (Byte.to_N_bounded b). lia.
Qed.

Lemma Z_of_byte_of_Z z : 0 <= z < 256 -> Z_of_byte (byte_of_Z z) = z.
Proof.
  intros Hz. unfold Z_of_byte, byte_of_Z.
  destruct (Byte.of_N (Z.to_N z)) as [b|] eqn:E; cbn.
  - apply Byte.to_of_N in E. lia.
  - apply Byte.of_N_None_iff in E. lia.
Qed.

Lemma length_le_encode n x : length (le_encode n x) = n.
Proof. revert x. induction n as [|n IH]; intros x; cbn; [done|]. by rewrite IH. Qed.

Lemma le_decode_encode n x :
  0 <= x < 256 ^ Z.of_nat n -> le_decode (le_encode n x) = x.
Proof.
  revert x. induction n as [|n IH]; intros x Hx; cbn [le_encode le_decode].
  - change (256 ^ Z.of_nat 0) with 1 in Hx. lia.
  - rewrite Nat2Z.inj_succ, Z.pow_succ_r in Hx by lia.
    rewrite Z_of_byte_of_Z by (apply Z.mod_pos_bound; lia).
    rewrite IH.
    + pose proof (Z.div_mod x 256). lia.
    + split; [apply Z.div_pos; lia|].
      apply Z.div_lt_upper_bound; lia.
Qed.

Lemma le_decode_range l : 0 <= le_decode l.
Proof.
  induction l as [|b l IH]; cbn [le_decode]; [done|].
  pose proof (Z_of_byte_range b). lia.
Qed.

(** *** Key agreement *)

Lemma odd_mod_nonzero x : Z.odd x = true -> x mod 2 ^ 256 <> 0.
Proof.
  intros Hodd Hz.
  apply Z.mod_divide in Hz; [|done].
  destruct Hz as [k ->].
  rewrite Z.odd_mul in Hodd. apply andb_true_iff in Hodd as [_ Hodd]. done.
Qed.

Lemma scalar_odd s : Z.odd (scalar s) = true.
Proof. unfold scalar. by rewrite Z.add_comm, Z.odd_add_mul_2. Qed.

Lemma X25519_eq s pt :
  length s = 32%nat -> length pt = 32%nat -> Z.odd (le_decode pt) = true ->
  X25519 s pt = Ok (le_encode 32 ((scalar s * le_decode pt) mod 2 ^ 256)).
Proof.
  intros Hs Hpt Hodd. unfold X25519. rewrite Hs, Hpt. cbn [Nat.eqb andb negb].
  destruct (Z.eqb_spec ((scalar s * le_decode pt) mod 2 ^ 256) 0) as [E|]; [|done].
  apply odd_mod_nonzero in E; [done|].
  by rewrite Z.odd_mul, scalar_odd, Hodd.
Qed.

Lemma odd_mod x : Z.odd (x mod 2 ^ 256) = Z.odd x.
Proof.
  rewrite <- !Z.bit0_odd. apply Z.mod_pow2_bits_low. lia.
Qed.

Lemma X25519_base_eq s :
  length s = 32%nat ->
  X25519 s Basepoint = Ok (le_encode 32 ((scalar s * 9) mod 2 ^ 256)).
Proof. intros Hs. by rewrite X25519_eq. Qed.

Lemma decode_public x :
  le_decode (le_encode 32 (x mod 2 ^ 256)) = x mod 2 ^ 256.
Proof. apply le_decode_encode. by apply Z.mod_pos_bound. Qed.

#[export] Instance crypto_laws : @CryptoLaws crypto.
Proof.
  split; cbn.
  - intros s Hs. eexists. split; [by apply X25519_base_eq|].
    apply length_le_encode.
  - intros a b A B Ha Hb.
    rewrite !X25519_base_eq by done. intros HA HB.
    assert (A = le_encode 32 ((scalar a * 9) mod 2 ^ 256)) as -> by congruence.
    assert (B = le_encode 32 ((scalar b * 9) mod 2 ^ 256)) as -> by congruence.
    clear HA HB. eexists. split.
    + rewrite X25519_eq; [reflexivity|done|apply length_le_encode|].
      by rewrite decode_public, odd_mod, Z.odd_mul, scalar_odd.
    + rewrite X25519_eq; [|done|apply length_le_encode|].
      * rewrite !decode_public, !Z.mul_mod_idemp_r by done.
        do 2 f_equal. f_equal. ring.
      * by rewrite decode_public, odd_mod, Z.odd_mul, scalar_odd.
  - intros s. apply length_copy.
  - intros k n pt _ _. unfold Open, Seal.
    assert (length (tag k n) = 16%nat) as Ht by apply length_copy.
    rewrite length_app, Ht.
    replace (length pt + 16 - 16)%nat with (length pt) by lia.
    destruct (Nat.ltb_spec (length pt + 16) 16); [lia|].
    rewrite drop_app_length, take_app_length.
    by rewrite bool_decide_eq_true_2.
Qed.

(** *** Codec *)

Lemma lawful_weaken {A} (f : Fmt A) (wf wf' : A -> Prop) :
  lawful f wf -> (forall a, wf' a -> wf a) -> lawful f wf'.
Proof. intros Hf Hw a rest Ha. apply Hf, Hw, Ha. Qed.

Lemma u8_lawful : lawful u8 (fun z => 0 <= z < 256).
Proof. intros z rest Hz. cbn. by rewrite Z_of_byte_of_Z. Qed.

Lemma get_put_uvarint fuel n rest :
  0 <= n < 2 ^ Z.of_nat (S fuel) ->
  get_uvarint (put_uvarint (S fuel) n ++ rest) = Some (n, rest).
Proof.
  revert n. induction fuel as [|fuel IH]; intros n Hn.
  - change (2 ^ Z.of_nat 1) with 2 in Hn.
    cbn [put_uvarint]. destruct (Z.ltb_spec n 128); [|lia].
    cbn. rewrite Z_of_byte_of_Z by lia.
    by destruct (Z.ltb_spec n 128); [|lia].
  - rewrite Nat2Z.inj_succ, Z.pow_succ_r in Hn by lia.
    remember (S fuel) as k eqn:Hk.
    cbn [put_uvarint]. destruct (Z.ltb_spec n 128) as [Hlt|Hge].
    + cbn. rewrite Z_of_byte_of_Z by lia.
      by destruct (Z.ltb_spec n 128); [|lia].
    + pose proof (Z.mod_pos_bound n 128 ltac:(lia)) as Hmod.
      cbn [app get_uvarint]. rewrite Z_of_byte_of_Z by lia.
      destruct (Z.ltb_spec (128 + n mod 128) 128); [lia|].
      rewrite IH.
      * do 2 f_equal. pose proof (Z.div_mod n 128). lia.
      * split; [apply Z.div_pos; lia|].
        apply Z.div_lt_upper_bound; lia.
Qed.

Lemma uvarint_lawful : lawful uvarint (fun n => 0 <= n).
Proof.
  intros n rest Hn. cbn. apply get_put_uvarint.
  split; [done|].
  rewrite Nat2Z.inj_succ, Z2Nat.id by apply Z.log2_nonneg.
  destruct (Z.eq_dec n 0) as [->|Hne]; [done|].
  apply Z.log2_spec. lia.
Qed.

Lemma unzigzag_zigzag z : unzigzag (zigzag z) = z.
Proof.
  unfold zigzag, unzigzag. destruct (Z.leb_spec 0 z).
  - rewrite Z.even_mul. cbn. rewrite Z.mul_comm. by apply Z.div_mul.
  - replace (- 2 * z - 1) with (1 + 2 * (- z - 1)) by lia.
    rewrite Z.even_add_mul_2. cbn [Z.even].
    replace (1 + 2 * (- z - 1) + 1) with ((- z) * 2) by lia.
    rewrite Z.div_mul by done. lia.
Qed.

Lemma varint_lawful : lawful varint (fun _ => True).
Proof.
  intros z rest _. cbn [get put varint].
  rewrite uvarint_lawful; [by rewrite unzigzag_zigzag|].
  unfold zigzag. destruct (Z.leb_spec 0 z); lia.
Qed.

Lemma boolean_lawful : lawful boolean (fun _ => True).
Proof. by intros [] rest _. Qed.

Lemma array_lawful n : lawful (array n) (fun a => length a = n).
Proof.
  intros a rest <-. cbn [get put array]. rewrite length_app.
  destruct (Nat.ltb_spec (length a + length rest) (length a)); [lia|].
  by rewrite take_app_length, drop_app_length.
Qed.

Lemma bytes_lawful : lawful bytes (fun _ => True).
Proof.
  intros b rest _. cbn [get put bytes]. rewrite <- app_assoc.
  rewrite uvarint_lawful by lia. rewrite Nat2Z.id.
  by apply array_lawful.
Qed.

Lemma str_lawful : lawful str (fun _ => True).
Proof.
  intros s rest _. cbn [get put str]. rewrite bytes_lawful by done.
  by rewrite String.string_of_list_byte_of_string.
Qed.

Lemma pointer_lawful {A} (f : Fmt A) wf :
  lawful f wf -> lawful (pointer f) (from_option wf True).
Proof.
  intros Hf [a|] rest Ha; cbn in *; [|done]. by rewrite Hf.
Qed.

Lemma field_lawful {A B C} (fa : Fmt A) (fb : Fmt B) wfa wfb
      (mk : A -> B -> C) pa pb :
  lawful fa wfa -> lawful fb wfb -> (forall c, mk (pa c) (pb c) = c) ->
  lawful (field fa fb mk pa pb) (fun c => wfa (pa c) /\ wfb (pb c)).
Proof.
  intros Ha Hb Hmk c rest [Hwa Hwb]. cbn [get put field].
  by rewrite <- app_assoc, Ha, Hb, Hmk.
Qed.

Lemma map_lawful {A B} (f : Fmt A) wf (to : A -> B) from :
  lawful f wf -> (forall b, to (from b) = b) ->
  lawful (map_fmt f to from) (fun b => wf (from b)).
Proof. intros Hf Hto b rest Hb. cbn. by rewrite Hf, Hto. Qed.

Lemma handshake_lawful : lawful handshake_fmt Handshake_wf.
Proof. apply (map_lawful _ _ _ _ (array_lawful 32)). by intros []. Qed.

Lemma handshakeAck_lawful : lawful handshakeAck_fmt HandshakeAck_wf.
Proof.
  eapply lawful_weaken.
  - apply (field_lawful _ _ _ _ _ _ _ boolean_lawful str_lawful). by intros [].
  - done.
Qed.

Lemma nextHop_lawful : lawful nextHop_fmt NextHop_wf.
Proof.
  eapply lawful_weaken.
  - apply (field_lawful _ _ _ _ _ _ _
             (field_lawful _ _ _ _ _ _ _ (array_lawful 32) str_lawful
                           (fun c => eq_sym (surjective_pairing c)))
             str_lawful).
    by intros [].
  - intros nh Hnh. cbn. by split_and!.
Qed.

Lemma msg_lawful : lawful msg_fmt Msg_wf.
Proof.
  eapply lawful_weaken.
  - apply (field_lawful _ _ _ _ _ _ _
             (field_lawful _ _ _ _ _ _ _ uvarint_lawful varint_lawful
                           (fun c => eq_sym (surjective_pairing c)))
             (field_lawful _ _ _ _ _ _ _ (pointer_lawful _ _ nextHop_lawful)
                           bytes_lawful
                           (fun c => eq_sym (surjective_pairing c)))).
    by intros [].
  - intros m (Hf & Ht & Hn). cbn. split_and!; first [done | lia].
Qed.

Lemma header_lawful : lawful header_fmt Header_wf.
Proof.
  eapply lawful_weaken.
  - apply (field_lawful _ _ _ _ _ _ _
             (field_lawful _ _ _ _ _ _ _ str_lawful u8_lawful
                           (fun c => eq_sym (surjective_pairing c)))
             (field_lawful _ _ _ _ _ _ _ (array_lawful 32) (array_lawful 12)
                           (fun c => eq_sym (surjective_pairing c)))).
    by intros [].
  - intros hd (Ht & Hk & Hn). cbn. split_and!; first [done | lia].
Qed.

Lemma rawMsg_lawful : lawful rawMsg_fmt RawMsg_wf.
Proof.
  eapply lawful_weaken.
  - apply (field_lawful _ _ _ _ _ _ _ (pointer_lawful _ _ header_lawful)
                        bytes_lawful).
    by intros [].
  - intros r Hr. by split.
Qed.

Lemma binary_roundtrips {A} (f : Fmt A) wf :
  lawful f wf -> @roundtrips A (binary f) wf.
Proof.
  intros Hf v Hv. exists (put f v). split; [done|].
  cbn. rewrite <- (app_nil_r (put f v)). by rewrite Hf.
Qed.

Lemma Msg_roundtrips : @roundtrips _ binary_Msg Msg_wf.
Proof. apply binary_roundtrips, msg_lawful. Qed.

Lemma Handshake_roundtrips : @roundtrips _ binary_Handshake Handshake_wf.
Proof. apply binary_roundtrips, handshake_lawful. Qed.

Lemma HandshakeAck_roundtrips : @roundtrips _ binary_HandshakeAck HandshakeAck_wf.
Proof. apply binary_roundtrips, handshakeAck_lawful. Qed.

Lemma RawMsg_roundtrips : @roundtrips _ binary_RawMsg RawMsg_wf.
Proof. apply binary_roundtrips, rawMsg_lawful. Qed.
End model_proofs.

(** * The specification *)

Section Sealed_frames.
Import msg.
Context `{Crypto} `{!CryptoLaws}.
Context `{Binary Msg} `{Binary Handshake} `{Binary HandshakeAck}.

Lemma public_key p P :
  length p = 32%nat -> X25519 p Basepoint = Ok P -> PublicKeyFromPrivate p = Ok P.
Proof.
  intros Hp HP. unfold PublicKeyFromPrivate. rewrite HP. cbn.
  destruct (X25519_base p Hp) as (P' & HP' & Hlen).
  assert (P' = P) as -> by congruence.
  by rewrite copy_id.
Qed.

(** C1: for every 32-byte private key [p] with public key
    [P = X25519(p, basepoint)], every body of each of the three types and
    every draw of the 32-byte ephemeral scalar and the 12-byte nonce (the
    first 44 bytes of the entropy), the Encoder bound to [P] returns a
    RawMsg, and the Decoder holding [p] opens that RawMsg to a body equal
    to the one sealed. *)
Theorem Decoder_opens_what_Encoder_seals (p P : Key) (rnd : rand.Entropy) :
  roundtrips Msg_wf -> roundtrips Handshake_wf -> roundtrips HandshakeAck_wf ->
  length p = 32%nat -> X25519 p Basepoint = Ok P -> (44 <= length rnd)%nat ->
  (forall m, Msg_wf m ->
     exists raw rnd',
       EncryptMsg (NewEncoder P) m rnd = (Ok raw, rnd') /\
       DecryptBody (NewDecoder p) raw
       = Ret (Ok {| CookedMsg_Header := RawMsg_Header raw;
                    CookedMsg_Body := Some m |})) /\
  (forall hs, Handshake_wf hs ->
     exists raw rnd',
       EncryptHandshake (NewEncoder P) hs rnd = (Ok raw, rnd') /\
       DecryptHandshake (NewDecoder p) raw = Ret (Ok hs)) /\
  (forall ack, HandshakeAck_wf ack ->
     exists raw rnd',
       EncryptHandshakeAck (NewEncoder P) ack rnd = (Ok raw, rnd') /\
       DecryptHandshakeAck (NewDecoder p) raw = Ret (Ok ack)).
Proof.
  intros Hm Hh Ha Hp HP Hrnd. apply public_key in HP; [|done].
  split_and!.
  - intros m Hwf.
    destruct (msg_proofs.EncryptMsg_DecryptBody
                (NewEncoder P) (NewDecoder p) p P rnd m) as (raw & He & _ & Hd);
      try done.
    by exists raw, (drop 44 rnd).
  - intros hs Hwf.
    destruct (msg_proofs.EncryptHandshake_DecryptHandshake
                (NewEncoder P) (NewDecoder p) p P rnd hs) as (raw & He & _ & Hd);
      try done.
    by exists raw, (drop 44 rnd).
  - intros ack Hwf.
    destruct (msg_proofs.EncryptHandshakeAck_DecryptHandshakeAck
                (NewEncoder P) (NewDecoder p) p P rnd ack) as (raw & He & _ & Hd);
      try done.
    by exists raw, (drop 44 rnd).
Qed.
End Sealed_frames.

(** The node's key pair and a three-byte packet, on the instance. *)
Lemma Decoder_opens_what_Encoder_seals_witness :
  exists raw rnd',
    @msg.EncryptMsg model.crypto model.binary_Msg
      (msg.NewEncoder model.nodePublic) model.packet model.tape = (Ok raw, rnd') /\
    @msg.DecryptBody model.crypto model.binary_Msg
      (msg.NewDecoder model.nodePrivate) raw
    = Ret (Ok {| msg.CookedMsg_Header := msg.RawMsg_Header raw;
                 msg.CookedMsg_Body := Some model.packet |}).
Proof.
  apply (proj1 (@Decoder_opens_what_Encoder_seals
                  model.crypto model_proofs.crypto_laws
                  model.binary_Msg model.binary_Handshake model.binary_HandshakeAck
                  model.nodePrivate model.nodePublic model.tape
                  model_proofs.Msg_roundtrips model_proofs.Handshake_roundtrips
                  model_proofs.HandshakeAck_roundtrips
                  eq_refl eq_refl ltac:(vm_compute; lia))).
  unfold msg.Msg_wf. cbn. lia.
Defined.


Section Key_pairs.
Import msg.
Context `{Crypto}.
Variable hex_EncodeToString : list byte -> string.
Variable hex_DecodeString : string -> result (list byte).

(** Whenever [GenerateKeyPair] succeeds, the public key it returns is the
    one [PublicKeyFromPrivate] derives from the private key it returns.
    Hence the pairs the key-generation command prints belong together with
    [-derive], [-client] or [-node] whenever it exits with 0, and in the
    default mode whenever both generations have succeeded. *)
Lemma GenerateKeyPair_agrees_with_PublicKeyFromPrivate :
  (forall rnd priv pub rnd',
     GenerateKeyPair rnd = (Ok (priv, pub), rnd') ->
     PublicKeyFromPrivate priv = Ok pub) /\
  (forall flags rnd out,
     keygen.derive flags <> "" -> keygen.main hex_EncodeToString hex_DecodeString flags rnd = (out, 0) ->
     exists priv pub,
       PublicKeyFromPrivate priv = Ok pub /\
       out = ["Private: " ++ hex_EncodeToString priv;
              "Public:  " ++ hex_EncodeToString pub]) /\
  (forall flags rnd out,
     keygen.derive flags = "" -> keygen.client_ flags = true ->
     keygen.main hex_EncodeToString hex_DecodeString flags rnd = (out, 0) ->
     exists priv pub,
       PublicKeyFromPrivate priv = Ok pub /\
       out = ["# Client keys (add to .env.client)";
              "PRIVATE_KEY=" ++ hex_EncodeToString priv;
              "";
              "# Add this to .env.node as CLIENT_PUBLIC_KEY";
              "CLIENT_PUBLIC_KEY=" ++ hex_EncodeToString pub]) /\
  (forall flags rnd out,
     keygen.derive flags = "" -> keygen.client_ flags = false ->
     keygen.node_ flags = true -> keygen.main hex_EncodeToString hex_DecodeString flags rnd = (out, 0) ->
     exists priv pub,
       PublicKeyFromPrivate priv = Ok pub /\
       out = ["# Node keys (add to .env.node)";
              "NODE_PRIVATE_KEY=" ++ hex_EncodeToString priv;
              "NODE_PUBLIC_KEY=" ++ hex_EncodeToString pub;
              "";
              "# Add NODE_PUBLIC_KEY to .env.client"]) /\
  (forall flags rnd nodePriv nodePub rnd1 clientPriv clientPub rnd2,
     keygen.derive flags = "" -> keygen.client_ flags = false ->
     keygen.node_ flags = false ->
     GenerateKeyPair rnd = (Ok (nodePriv, nodePub), rnd1) ->
     GenerateKeyPair rnd1 = (Ok (clientPriv, clientPub), rnd2) ->
     PublicKeyFromPrivate nodePriv = Ok nodePub /\
     PublicKeyFromPrivate clientPriv = Ok clientPub /\
     keygen.main hex_EncodeToString hex_DecodeString flags rnd
     = (["=== Generating new key pairs ===";
         "";
         "# .env.node";
         "NODE_PRIVATE_KEY=" ++ hex_EncodeToString nodePriv;
         "NODE_PUBLIC_KEY=" ++ hex_EncodeToString nodePub;
         "CLIENT_PUBLIC_KEY=" ++ hex_EncodeToString clientPub;
         "";
         "# .env.client";
         "PRIVATE_KEY=" ++ hex_EncodeToString clientPriv;
         "NODE_PUBLIC_KEY=" ++ hex_EncodeToString nodePub], 0)).
Proof.
  split_and!.
  - intros rnd priv pub rnd' Hg.
    by apply msg_proofs.GenerateKeyPair_inv in Hg as (_ & _ & _ & Hg).
  - intros flags rnd out Hd. unfold keygen.main.
    destruct (String.eqb_spec (keygen.derive flags) "") as [|_]; [done|].
    cbn [negb]. destruct (hex_DecodeString _) as [b|e]; [|done].
    destruct (negb _); [done|].
    destruct (PublicKeyFromPrivate (copy 32 b)) as [pub|e] eqn:E; [|done].
    intros [= <-]. by exists (copy 32 b), pub.
  - intros flags rnd out Hd Hc. unfold keygen.main.
    rewrite Hd, Hc. cbn [String.eqb negb].
    destruct (GenerateKeyPair rnd) as [[[priv pub]|e] rnd'] eqn:E; [|done].
    apply msg_proofs.GenerateKeyPair_inv in E as (_ & _ & _ & E).
    intros [= <-]. by exists priv, pub.
  - intros flags rnd out Hd Hc Hn. unfold keygen.main.
    rewrite Hd, Hc, Hn. cbn [String.eqb negb].
    destruct (GenerateKeyPair rnd) as [[[priv pub]|e] rnd'] eqn:E; [|done].
    apply msg_proofs.GenerateKeyPair_inv in E as (_ & _ & _ & E).
    intros [= <-]. by exists priv, pub.
  - intros flags rnd nodePriv nodePub rnd1 clientPriv clientPub rnd2 Hd Hc Hn E1 E2.
    unfold keygen.main, keygen.GenerateKeyPair_.
    rewrite Hd, Hc, Hn, E1, E2. cbn [String.eqb negb].
    apply msg_proofs.GenerateKeyPair_inv in E1 as (_ & _ & _ & E1).
    by apply msg_proofs.GenerateKeyPair_inv in E2 as (_ & _ & _ & E2).
Qed.
End Key_pairs.

(** The pair generated from 32 bytes [0x01]. *)
Lemma GenerateKeyPair_agrees_with_PublicKeyFromPrivate_witness :
  @msg.PublicKeyFromPrivate model.crypto model.nodePrivate = Ok model.nodePublic.
Proof.
  apply (proj1 (@GenerateKeyPair_agrees_with_PublicKeyFromPrivate
                  model.crypto (fun _ => "") (fun _ => Err ""))
               (replicate 32 Byte.x01) model.nodePrivate model.nodePublic []).
  reflexivity.
Defined.

Section Dropped_error.
Import msg.
Context `{Crypto} `{!CryptoLaws}.
Variable hex_EncodeToString : list byte -> string.
Variable hex_DecodeString : string -> result (list byte).

Lemma GenerateKeyPair_fails (rnd : rand.Entropy) :
  (length rnd < 32)%nat ->
  GenerateKeyPair rnd
  = (Err (Errorf "failed to generate private key" "entropy source failed"), rnd).
Proof.
  intros Hlen. unfold GenerateKeyPair, bind, orElse, lift, ret, rand.Read.
  apply Nat.leb_gt in Hlen. by rewrite Hlen.
Qed.

Lemma GenerateKeyPair_succeeds (rnd : rand.Entropy) :
  (32 <= length rnd)%nat ->
  exists pub,
    X25519 (take 32 rnd) Basepoint = Ok pub /\ length pub = 32%nat /\
    PublicKeyFromPrivate (take 32 rnd) = Ok pub /\
    GenerateKeyPair rnd = (Ok (take 32 rnd, pub), drop 32 rnd).
Proof.
  intros Hlen.
  assert (length (take 32 rnd) = 32%nat) as Hpriv by (rewrite length_take; lia).
  destruct (X25519_base _ Hpriv) as (pub & Hpub & Hlpub). exists pub.
  split_and!; [done..| |].
  - unfold PublicKeyFromPrivate. rewrite Hpub. cbn. by rewrite copy_id.
  - unfold GenerateKeyPair, bind, orElse, lift, ret.
    rewrite (Read_ok 32 rnd Hlen), Hpub. by rewrite copy_id.
Qed.

(** C10 fails on the code.  Its first half holds: whenever the entropy
    source delivers 32 bytes, [GenerateKeyPair] succeeds, and what it
    returns is those bytes as the private key with the public key
    [PublicKeyFromPrivate] derives from them.  But when it fails, the
    default mode of the key-generation command, which drops the error,
    prints the zero values it got as two pairs and exits with 0, where
    [-client] and [-node] print the error and exit with 1.  With an
    X25519 that does not take the base point to the all-zero key under the
    all-zero scalar (none does: the scalar is clamped), the all-zero public
    key is not the one of the all-zero private key, so what is printed is
    no key pair. *)
Theorem default_mode_prints_keys_it_did_not_get :
  let zero := replicate 32 Byte.x00 in
  let flags c n := {| keygen.client_ := c; keygen.node_ := n; keygen.derive := "" |} in
  (forall rnd,
     (32 <= length rnd)%nat ->
     exists pub,
       GenerateKeyPair rnd = (Ok (take 32 rnd, pub), drop 32 rnd) /\
       PublicKeyFromPrivate (take 32 rnd) = Ok pub) /\
  (forall rnd,
     (length rnd < 32)%nat ->
     keygen.main hex_EncodeToString hex_DecodeString (flags false false) rnd
     = (["=== Generating new key pairs ===";
         "";
         "# .env.node";
         "NODE_PRIVATE_KEY=" ++ hex_EncodeToString zero;
         "NODE_PUBLIC_KEY=" ++ hex_EncodeToString zero;
         "CLIENT_PUBLIC_KEY=" ++ hex_EncodeToString zero;
         "";
         "# .env.client";
         "PRIVATE_KEY=" ++ hex_EncodeToString zero;
         "NODE_PUBLIC_KEY=" ++ hex_EncodeToString zero], 0) /\
     (forall n,
        keygen.main hex_EncodeToString hex_DecodeString (flags true n) rnd
        = (["Error: failed to generate private key: entropy source failed"], 1)) /\
     keygen.main hex_EncodeToString hex_DecodeString (flags false true) rnd
     = (["Error: failed to generate private key: entropy source failed"], 1)) /\
  (X25519 zero Basepoint <> Ok zero -> PublicKeyFromPrivate zero <> Ok zero).
Proof.
  cbn zeta. split_and!.
  - intros rnd Hlen.
    destruct (GenerateKeyPair_succeeds rnd Hlen) as (pub & _ & _ & HP & Hgen).
    by exists pub.
  - intros rnd Hlen. split_and!.
    + unfold keygen.main, keygen.GenerateKeyPair_. cbn [keygen.derive keygen.client_
        keygen.node_ String.eqb negb]. by rewrite !(GenerateKeyPair_fails rnd Hlen).
    + intros n. unfold keygen.main.
      cbn [keygen.derive keygen.client_ String.eqb negb].
      by rewrite (GenerateKeyPair_fails rnd Hlen).
    + unfold keygen.main.
      cbn [keygen.derive keygen.client_ keygen.node_ String.eqb negb].
      by rewrite (GenerateKeyPair_fails rnd Hlen).
  - intros Hzero.
    destruct (X25519_base (replicate 32 Byte.x00)) as (P & HP & Hlen');
      [by rewrite length_replicate|].
    unfold PublicKeyFromPrivate. rewrite HP. cbn. rewrite copy_id by done.
    intros [= ->]. by apply Hzero.
Qed.
End Dropped_error.

(** The entropy source delivers nothing: eight zero keys are printed, and
    they are no pairs. *)
Lemma default_mode_prints_keys_it_did_not_get_witness :
  @keygen.main model.crypto hex.EncodeToString hex.DecodeString
     {| keygen.client_ := false; keygen.node_ := false; keygen.derive := "" |} []
  = (["=== Generating new key pairs ===";
      "";
      "# .env.node";
      "NODE_PRIVATE_KEY=" ++ hex.EncodeToString model.zeroKey;
      "NODE_PUBLIC_KEY=" ++ hex.EncodeToString model.zeroKey;
      "CLIENT_PUBLIC_KEY=" ++ hex.EncodeToString model.zeroKey;
      "";
      "# .env.client";
      "PRIVATE_KEY=" ++ hex.EncodeToString model.zeroKey;
      "NODE_PUBLIC_KEY=" ++ hex.EncodeToString model.zeroKey], 0) /\
  @msg.PublicKeyFromPrivate model.crypto model.zeroKey <> Ok model.zeroKey.
Proof.
  destruct (@default_mode_prints_keys_it_did_not_get
              model.crypto model_proofs.crypto_laws hex.EncodeToString hex.DecodeString)
    as (_ & Hfail & Hpair).
  split.
  - exact (proj1 (Hfail [] ltac:(cbn; lia))).
  - apply Hpair. by vm_compute.
Defined.


Section Versions.
Import msg.
Context `{Crypto}.
Context `{Binary Msg} `{Binary Handshake} `{Binary HandshakeAck}.

(** C3, as the code has it: the decrypt operations never look at the
    version in the header (nor at the one the Decoder was built with).
    Putting any other version string into a RawMsg leaves what
    [DecryptHandshake] and [DecryptHandshakeAck] return unchanged, and
    changes what [DecryptBody] returns only in the header it hands back; a
    frame is refused for a failing key agreement, a failing AEAD opening or
    a body that does not unmarshal, never for its version. *)
Theorem decrypt_ignores_version (d : Decoder) (hdr : Header) (body : list byte)
        (v : Version) :
  let hdr' := {| Header_Version := v; Header_Type := Header_Type hdr;
                 Header_EphemeralKey := Header_EphemeralKey hdr;
                 Header_Nonce := Header_Nonce hdr |} in
  let raw := {| RawMsg_Header := Some hdr; RawMsg_Body := body |} in
  let raw' := {| RawMsg_Header := Some hdr'; RawMsg_Body := body |} in
  DecryptHandshake d raw' = DecryptHandshake d raw /\
  DecryptHandshakeAck d raw' = DecryptHandshakeAck d raw /\
  DecryptBody d raw'
  = match DecryptBody d raw with
    | Ret (Ok cooked) =>
      Ret (Ok {| CookedMsg_Header := Some hdr';
                 CookedMsg_Body := CookedMsg_Body cooked |})
    | other => other
    end.
Proof.
  cbn. split_and!; [done..|].
  unfold DecryptBody. cbn.
  destruct (X25519 _ _) as [s|e]; cbn; [|done].
  destruct (chacha20poly1305.New _) as [c|e]; cbn; [|done].
  destruct (chacha20poly1305.Open_ _ _ _) as [data|e]; cbn; [|done].
  by destruct (Unmarshal data) as [m|e].
Qed.
End Versions.

(** C3 as stated fails: frames stamped "taiga_v2" and sealed for the node
    (for the client, the ack) are opened like any other. *)
Lemma unknown_version_is_opened :
  (forall raw, raw = model.sealed_packet "taiga_v2" model.packet \/
               raw = model.sealed_hello "taiga_v2" model.hello \/
               raw = model.sealed_ack "taiga_v2" model.accepted ->
     exists hdr, msg.RawMsg_Header raw = Some hdr /\
                 msg.Header_Version hdr = "taiga_v2" /\
                 msg.Header_Version hdr <> msg.Version1) /\
  @msg.DecryptBody model.crypto model.binary_Msg (msg.NewDecoder model.nodePrivate)
    (model.sealed_packet "taiga_v2" model.packet)
  = Ret (Ok {| msg.CookedMsg_Header :=
                 msg.RawMsg_Header (model.sealed_packet "taiga_v2" model.packet);
               msg.CookedMsg_Body := Some model.packet |}) /\
  @msg.DecryptHandshake model.crypto model.binary_Handshake
    (msg.NewDecoder model.nodePrivate) (model.sealed_hello "taiga_v2" model.hello)
  = Ret (Ok model.hello) /\
  @msg.DecryptHandshakeAck model.crypto model.binary_HandshakeAck
    (msg.NewDecoder model.clientPrivate) (model.sealed_ack "taiga_v2" model.accepted)
  = Ret (Ok model.accepted).
Proof.
  split_and!; [|by vm_compute..].
  intros raw [-> | [-> | ->]]; eexists; (split_and!; [by vm_compute|by vm_compute|]);
    by vm_compute.
Qed.


Section Node.
Import msg handler.
Context `{Crypto}.
Context `{Binary Msg} `{Binary Handshake} `{Binary HandshakeAck} `{Binary RawMsg}.

(** C2: on a connection for which no encoder is registered (no valid
    Handshake handled yet), a Data frame is dropped: nothing is written to
    the TUN, the handler, the connections and the entropy source are as
    before, and the one thing added is the warning "Data from unregistered
    client, ignoring" in the log.  So it is for [handleData] on any RawMsg,
    and for [HandleMessage] on any bytes that unmarshal to a RawMsg of type
    Data. *)
Theorem data_from_unregistered_client_is_dropped (conn : Conn) (w : Node) :
  connEncoders (h w) !! conn = None ->
  let dropped :=
    {| h := h w; tun_ := tun_ w; conns := conns w;
       log := slog.Warn "Data from unregistered client, ignoring" [] (log w);
       entropy := entropy w |} in
  (forall rawMsg, handleData conn rawMsg w = Ret dropped) /\
  (forall data rawMsg hdr,
     Unmarshal data = Ok rawMsg -> RawMsg_Header rawMsg = Some hdr ->
     Header_Type hdr = TypeData ->
     HandleMessage conn data w = Ret dropped).
Proof.
  intros Hnone dropped.
  assert (forall rawMsg, handleData conn rawMsg w = Ret dropped) as Hdrop.
  { intros rawMsg. unfold handleData. rewrite Hnone.
    rewrite bool_decide_eq_false_2 by (by intros [? ?]). done. }
  split; [done|].
  intros data rawMsg hdr Hu Hh Ht. unfold HandleMessage.
  rewrite Hu, Hh, Ht. cbn. apply Hdrop.
Qed.

(** C6: when the handshake cannot be decrypted, [handleHandshake] sends
    nothing and registers nothing: the encoder table, the connections with
    their queues, the TUN and the entropy source are as before; two error
    records are logged. *)
Theorem undecryptable_handshake_is_dropped (conn : Conn) (rawMsg : RawMsg)
        (w : Node) (err : string) :
  DecryptHandshake (decoder (h w)) rawMsg = Ret (Err err) ->
  handleHandshake conn rawMsg w
  = Ret {| h := h w; tun_ := tun_ w; conns := conns w;
           log := slog.Error "Cannot send ack - no client public key" []
                    (slog.Error "Failed to decrypt handshake"
                                [("error", slog.StringValue err)] (log w));
           entropy := entropy w |}.
Proof. intros Hd. unfold handleHandshake. by rewrite Hd. Qed.
End Node.

(** A well-sealed packet on the node's fresh connection. *)
Lemma data_from_unregistered_client_is_dropped_witness :
  @handler.handleData model.crypto model.binary_Msg 1%positive
    (model.sealed_packet msg.Version1 model.packet) model.node0
  = Ret {| handler.h := handler.h model.node0;
           handler.tun_ := handler.tun_ model.node0;
           handler.conns := handler.conns model.node0;
           handler.log := slog.Warn "Data from unregistered client, ignoring" []
                            (handler.log model.node0);
           handler.entropy := handler.entropy model.node0 |}.
Proof.
  apply (proj1 (@data_from_unregistered_client_is_dropped
                  model.crypto model.binary_Msg model.binary_Handshake
                  model.binary_HandshakeAck model.binary_RawMsg
                  1%positive model.node0 eq_refl)).
Defined.

(** A handshake sealed for another key. *)
Lemma undecryptable_handshake_is_dropped_witness :
  exists err,
    @handler.handleHandshake model.crypto model.binary_Handshake
      model.binary_HandshakeAck model.binary_RawMsg 1%positive
      model.misdirected_hello model.node0
    = Ret {| handler.h := handler.h model.node0;
             handler.tun_ := handler.tun_ model.node0;
             handler.conns := handler.conns model.node0;
             handler.log :=
               slog.Error "Cannot send ack - no client public key" []
                 (slog.Error "Failed to decrypt handshake"
                             [("error", slog.StringValue err)]
                             (handler.log model.node0));
             handler.entropy := handler.entropy model.node0 |}.
Proof.
  eexists.
  apply (@undecryptable_handshake_is_dropped
           model.crypto model.binary_Handshake model.binary_HandshakeAck
           model.binary_RawMsg 1%positive model.misdirected_hello model.node0).
  vm_compute. reflexivity.
Defined.


Section Registration.
Import msg handler.
Context `{Crypto} `{!CryptoLaws}.
Context `{Binary Msg} `{Binary Handshake} `{Binary HandshakeAck} `{Binary RawMsg}.

(** C5, as the code has it: a Handshake that the node decrypts makes
    [handleHandshake] put, for that connection, an encoder bound to the
    announced key into the table, over whatever was there before, and leave
    decoder, private key and TUN alone.  When moreover the announced key is
    the X25519 public key of some private key [c] and the entropy source
    delivers the 44 bytes of one sealing, the handler hands exactly one
    frame to the connection's [Send]: a marshalled RawMsg of type
    HandshakeAck which the Decoder holding [c] opens to
    [{Success: true, Message: "ok"}].  When sealing the ack fails, nothing
    is handed to [Send]. *)
Theorem handshake_registers_and_acks (conn : Conn) (rawMsg : RawMsg) (w : Node)
        (hs : Handshake) :
  roundtrips HandshakeAck_wf -> roundtrips RawMsg_wf ->
  DecryptHandshake (decoder (h w)) rawMsg = Ret (Ok hs) ->
  exists w',
    handleHandshake conn rawMsg w = Ret w' /\
    h w' = {| decoder := decoder (h w); privateKey := privateKey (h w);
              connEncoders := <[conn := NewEncoder (Handshake_ClientPublicKey hs)]>
                                (connEncoders (h w)) |} /\
    tun_ w' = tun_ w /\
    (forall c,
       length c = 32%nat -> X25519 c Basepoint = Ok (Handshake_ClientPublicKey hs) ->
       (44 <= length (entropy w))%nat ->
       exists ackRaw data hdr,
         RawMsg_Header ackRaw = Some hdr /\
         Header_Type hdr = TypeHandshakeAck /\
         DecryptHandshakeAck (NewDecoder c) ackRaw
         = Ret (Ok {| HandshakeAck_Success := true; HandshakeAck_Message := "ok" |}) /\
         Marshal ackRaw = Ok data /\ Unmarshal data = Ok ackRaw /\
         conns w' = alter (fun x => (wss.Send x data).2) conn (conns w)) /\
    (forall e rnd,
       EncryptHandshakeAck (NewEncoder (Handshake_ClientPublicKey hs))
         {| HandshakeAck_Success := true; HandshakeAck_Message := "ok" |} (entropy w)
       = (Err e, rnd) ->
       conns w' = conns w).
Proof.
  intros Hack Hraw Hd. unfold handleHandshake. rewrite Hd.
  eexists. split; [reflexivity|].
  unfold sendHandshakeAck. cbn [entropy with_log with_connEncoders].
  split_and!.
  - destruct (EncryptHandshakeAck _ _ _) as [[r|e] rnd]; [|done].
    by destruct (Marshal r).
  - destruct (EncryptHandshakeAck _ _ _) as [[r|e] rnd]; [|done].
    by destruct (Marshal r).
  - intros c Hc HP Hrnd. apply public_key in HP; [|done].
    destruct (msg_proofs.EncryptHandshakeAck_DecryptHandshakeAck
                (NewEncoder (Handshake_ClientPublicKey hs)) (NewDecoder c) c
                (Handshake_ClientPublicKey hs) (entropy w)
                {| HandshakeAck_Success := true; HandshakeAck_Message := "ok" |})
      as (ackRaw & He & (hdr & Hh & _ & Ht & Hwf) & Hopen); try done.
    destruct (Hraw ackRaw) as (data & HM & HU).
    { unfold RawMsg_wf. by rewrite Hh. }
    exists ackRaw, data, hdr. rewrite He, HM. by split_and!.
  - intros e rnd He. by rewrite He.
Qed.
End Registration.

(** The client's handshake on the node's fresh connection: the ack is
    queued, and the client opens it. *)
Lemma handshake_registers_and_acks_witness :
  exists w' data ackRaw,
    @handler.handleHandshake model.crypto model.binary_Handshake
      model.binary_HandshakeAck model.binary_RawMsg 1%positive
      (model.sealed_hello msg.Version1 model.hello) model.node0 = Ret w' /\
    handler.connEncoders (handler.h w') !! 1%positive
    = Some (msg.NewEncoder model.clientPublic) /\
    handler.conns w'
    = alter (fun x => (wss.Send x data).2) 1%positive (handler.conns model.node0) /\
    @Unmarshal _ model.binary_RawMsg data = Ok ackRaw /\
    @msg.DecryptHandshakeAck model.crypto model.binary_HandshakeAck
      (msg.NewDecoder model.clientPrivate) ackRaw = Ret (Ok model.accepted).
Proof.
  destruct (@handshake_registers_and_acks
              model.crypto model_proofs.crypto_laws
              model.binary_Handshake model.binary_HandshakeAck model.binary_RawMsg
              1%positive (model.sealed_hello msg.Version1 model.hello) model.node0
              model.hello
              model_proofs.HandshakeAck_roundtrips model_proofs.RawMsg_roundtrips
              ltac:(vm_compute; reflexivity))
    as (w' & Hrun & Hh & _ & Hack & _).
  destruct (Hack model.clientPrivate eq_refl eq_refl ltac:(vm_compute; lia))
    as (ackRaw & data & hdr & _ & _ & Hopen & _ & HU & Hconns).
  exists w', data, ackRaw. split_and!; [exact Hrun| |exact Hconns|exact HU|exact Hopen].
  rewrite Hh. apply lookup_insert_eq.
Defined.

(** C5 as stated fails: the node decrypts a Handshake that announces the
    all-zero key, registers an encoder for it, and sends no ack: sealing to
    that key fails, and the open connection's queue stays empty. *)
Lemma handshake_registered_but_not_acked :
  @msg.DecryptHandshake model.crypto model.binary_Handshake
    (handler.decoder (handler.h model.node0)) model.zero_hello
  = Ret (Ok {| msg.Handshake_ClientPublicKey := model.zeroKey |}) /\
  handler.conns model.node0 !! 1%positive = Some wss.handleWebSocket_conn /\
  exists w',
    @handler.handleHandshake model.crypto model.binary_Handshake
      model.binary_HandshakeAck model.binary_RawMsg 1%positive
      model.zero_hello model.node0 = Ret w' /\
    handler.connEncoders (handler.h w') !! 1%positive
    = Some (msg.NewEncoder model.zeroKey) /\
    handler.conns w' = handler.conns model.node0 /\
    handler.log w'
    = [{| slog.Level_ := slog.LevelInfo; slog.Message := "Client registered";
          slog.Attrs := [("pubkey", slog.BytesValue (replicate 8 Byte.x00))] |};
       {| slog.Level_ := slog.LevelError; slog.Message := "Failed to encrypt ack";
          slog.Attrs :=
            [("error", slog.StringValue
                "failed to compute shared secret: bad input point: low order point")] |}].
Proof.
  split_and!; [by vm_compute..|].
  eexists. split_and!; [by vm_compute|by vm_compute..].
Qed.


Section Frames.
Import msg handler.
Context `{Crypto}.
Context `{Binary Msg} `{Binary Handshake} `{Binary HandshakeAck} `{Binary RawMsg}.

(** C4 fails on the code: bytes that unmarshal to a RawMsg whose [Header]
    pointer is nil make [HandleMessage] panic at [rawMsg.Header.Type]. *)
Theorem HandleMessage_panics_on_nil_Header (conn : Conn) (data : list byte)
        (rawMsg : RawMsg) (w : Node) :
  Unmarshal data = Ok rawMsg -> RawMsg_Header rawMsg = None ->
  HandleMessage conn data w = Panic nil_deref.
Proof. intros Hu Hh. unfold HandleMessage. by rewrite Hu, Hh. Qed.

(** Every codec that round-trips the values of [RawMsg] has such bytes. *)
Lemma some_frame_panics :
  roundtrips RawMsg_wf ->
  exists data, forall conn w, HandleMessage conn data w = Panic nil_deref.
Proof.
  intros Hraw.
  destruct (Hraw {| RawMsg_Header := None; RawMsg_Body := [] |}) as (data & _ & Hu);
    [done|].
  exists data. intros conn w. unfold HandleMessage. by rewrite Hu.
Qed.

(** That is the one way to a panic: on bytes that do not unmarshal, and on
    every frame with a header, [HandleMessage] returns. *)
Lemma HandleMessage_returns_otherwise (conn : Conn) (data : list byte) (w : Node) :
  (forall rawMsg, Unmarshal data = Ok rawMsg -> is_Some (RawMsg_Header rawMsg)) ->
  exists w', HandleMessage conn data w = Ret w'.
Proof.
  intros Hhdr. unfold HandleMessage.
  destruct (Unmarshal data) as [rawMsg|e]; [|by eexists].
  destruct (Hhdr rawMsg eq_refl) as [hdr Hh]. rewrite Hh.
  destruct (Header_Type hdr =? TypeHandshake).
  - unfold handleHandshake, DecryptHandshake. rewrite Hh.
    destruct (rbind _ _); by eexists.
  - destruct (Header_Type hdr =? TypeData); [|by eexists].
    unfold handleData, DecryptBody. rewrite Hh.
    destruct (negb _); [by eexists|].
    destruct (X25519 _ _) as [s|e]; cbn; [|by eexists].
    destruct (chacha20poly1305.New _) as [c|e]; cbn; [|by eexists].
    destruct (chacha20poly1305.Open_ _ _ _) as [pt|e]; cbn; [|by eexists].
    destruct (Unmarshal pt) as [m|e]; cbn; [|by eexists].
    destruct (Msg_NextHop m); [by eexists|].
    destruct (tun.dev_Write _ _) as [n [e|]]; [by eexists|].
    destruct (negb _); by eexists.
Qed.

(** C7, as the code has it: a decrypted Data body with a next hop is not
    written to the TUN, and no error comes back.  The node's [handleData]
    (for a registered connection) logs the warning "Multi-hop routing not
    implemented yet" and returns, with handler, TUN, connections and
    entropy as before; the client's [Process] returns nil and leaves the
    TUN as it was. *)
Theorem next_hop_is_ignored (body : Msg) (nh : NextHop) :
  Msg_NextHop body = Some nh ->
  (forall conn rawMsg w cooked,
     is_Some (connEncoders (h w) !! conn) ->
     DecryptBody (decoder (h w)) rawMsg = Ret (Ok cooked) ->
     CookedMsg_Body cooked = Some body ->
     handleData conn rawMsg w
     = Ret {| h := h w; tun_ := tun_ w; conns := conns w;
              log := slog.Warn "Multi-hop routing not implemented yet" [] (log w);
              entropy := entropy w |}) /\
  (forall hdr t,
     processor.Process {| CookedMsg_Header := hdr; CookedMsg_Body := Some body |} t
     = Ret (None, t)).
Proof.
  intros Hnh. split.
  - intros conn rawMsg w cooked Hreg Hd Hb. unfold handleData.
    rewrite bool_decide_eq_true_2 by done. cbn [negb].
    by rewrite Hd, Hb, Hnh.
  - intros hdr t. unfold processor.Process. cbn. by rewrite Hnh.
Qed.
End Frames.

(** The two bytes [0x01 0x00]. *)
Lemma HandleMessage_panics_on_nil_Header_witness :
  @handler.HandleMessage model.crypto model.binary_Msg model.binary_Handshake
    model.binary_HandshakeAck model.binary_RawMsg 1%positive
    model.nil_header_frame model.node0
  = Panic nil_deref.
Proof.
  apply (@HandleMessage_panics_on_nil_Header
           model.crypto model.binary_Msg model.binary_Handshake
           model.binary_HandshakeAck model.binary_RawMsg 1%positive
           model.nil_header_frame
           {| msg.RawMsg_Header := None; msg.RawMsg_Body := [] |} model.node0);
    reflexivity.
Defined.

(** A packet with a next hop, at the registered node and at the client. *)
Lemma next_hop_is_ignored_witness :
  @handler.handleData model.crypto model.binary_Msg 1%positive
    (model.sealed_packet msg.Version1 model.forwarded) model.node1
  = Ret {| handler.h := handler.h model.node1;
           handler.tun_ := handler.tun_ model.node1;
           handler.conns := handler.conns model.node1;
           handler.log := slog.Warn "Multi-hop routing not implemented yet" []
                            (handler.log model.node1);
           handler.entropy := handler.entropy model.node1 |} /\
  processor.Process {| msg.CookedMsg_Header := None;
                       msg.CookedMsg_Body := Some model.forwarded |} model.device
  = Ret (None, model.device).
Proof.
  destruct (@next_hop_is_ignored model.crypto model.binary_Msg model.forwarded _ eq_refl)
    as [Hnode Hclient].
  split; [|apply Hclient].
  eapply Hnode; [by eexists|by vm_compute|reflexivity].
Defined.

(** C7 as stated fails: for a body with a next hop the client's [Process]
    returns no error at all, and the node's [handleData], which has no
    result, leaves one warning in the log. *)
Lemma next_hop_returns_no_error :
  msg.Msg_NextHop model.forwarded <> None /\
  processor.Process {| msg.CookedMsg_Header := None;
                       msg.CookedMsg_Body := Some model.forwarded |} model.device
  = Ret (None, model.device) /\
  @handler.handleData model.crypto model.binary_Msg 1%positive
    (model.sealed_packet msg.Version1 model.forwarded) model.node1
  = Ret (handler.with_log (slog.Warn "Multi-hop routing not implemented yet" [])
                          model.node1).
Proof. split_and!; by vm_compute. Qed.


Section Backpressure.
Import wss.

Lemma reachable_bounded c :
  reachable c -> cap (sendCh c) = 256%nat /\ (length (buf (sendCh c)) <= 256)%nat.
Proof.
  induction 1 as [|c data Hc [IHcap IHlen]|c data c' Hc [IHcap IHlen] Hrecv
                  |c Hc [IHcap IHlen]].
  - cbn. lia.
  - unfold Send. destruct (closed c); [done|].
    destruct (Nat.ltb_spec (length (buf (sendCh c))) (cap (sendCh c))); [|done].
    cbn. rewrite length_app. cbn. lia.
  - unfold writePump_recv in Hrecv.
    destruct (buf (sendCh c)) as [|x rest] eqn:E; [done|].
    injection Hrecv as _ <-. cbn in *. lia.
  - done.
Qed.

(** X21: what [Send] does from the moment it holds the mutex: the queue has
    capacity 256 and never holds more than 256 frames; the call returns an
    error, the connection unchanged and the frame not queued, when the
    connection is closed or the queue is full, and nil, the frame at the
    end of the queue, otherwise. *)
Lemma Send_on_bounded_queue (c : Connection) :
  reachable c ->
  cap (sendCh c) = 256%nat /\ (length (buf (sendCh c)) <= 256)%nat /\
  forall data,
    (closed c = true -> Send c data = (Some "connection closed", c)) /\
    (closed c = false -> length (buf (sendCh c)) = 256%nat ->
     Send c data = (Some "send buffer full", c)) /\
    (closed c = false -> (length (buf (sendCh c)) < 256)%nat ->
     Send c data
     = (None, {| sendCh := {| buf := buf (sendCh c) ++ [data]; cap := 256 |};
                 closed := false |})).
Proof.
  intros [Hcap Hlen]%reachable_bounded. split_and!; [done..|].
  intros data. unfold Send. rewrite Hcap. split_and!.
  - by intros ->.
  - intros -> ->. done.
  - intros -> Hlt. by apply Nat.ltb_lt in Hlt as ->.
Qed.

(** X20: a call of [Send] that finds the mutex free, on a channel that is
    not closed, and is given two turns in a row returns in them: with
    "connection closed" when the connection is closed, with "send buffer
    full" when its queue holds as many frames as it has room for, and with
    nil, the frame at the end of the queue, otherwise; it leaves
    [writePump] and the wire alone.  This is the call that the handler's
    [conn.Send(data)] stands for. *)
Lemma Send_with_the_mutex_free (s : Live) (i : nat) (data : list byte) :
  mu s = false -> sendCh_closed s = false ->
  calls s !! i = Some (AtLock data) ->
  let s' := run [Run_Send i; Run_Send i] s in
  calls s' !! i = Some (Done (Send (conn s) data).1) /\
  conn s' = (Send (conn s) data).2 /\
  writePump s' = writePump s /\ wire s' = wire s.
Proof.
  intros Hmu Hch Hi. cbn zeta. unfold run. cbn [foldl].
  assert (i < length (calls s))%nat as Hlt by (by eapply lookup_lt_Some).
  assert (Send (conn s) data
          = if closed (conn s) then (Some "connection closed", conn s)
            else Send_select (conn s) data) as -> by reflexivity.
  destruct (closed (conn s)) eqn:Hcl.
  - assert (turn (Run_Send i) s
            = with_calls (<[i:=Done (Some "connection closed")]> (calls s)) s) as ->.
    { cbn. by rewrite Hi, Hmu, Hcl. }
    cbn. rewrite list_lookup_insert_eq by done. cbn. by rewrite list_lookup_insert_eq.
  - assert (turn (Run_Send i) s = with_calls (<[i:=AtSelect data]> (calls s)) s) as ->.
    { cbn. by rewrite Hi, Hmu, Hcl. }
    cbn -[Send_select]. rewrite list_lookup_insert_eq by done. rewrite Hch.
    destruct (Send_select (conn s) data) as [err c']. cbn.
    rewrite list_insert_insert_eq, list_lookup_insert_eq by done. done.
Qed.

Lemma turn_waits (s : Live) (i : nat) (frame data : list byte) (t : Turn) :
  writePump s = Writing frame -> calls s !! i = Some (AtLock data) ->
  (forall err, t <> WriteMessage_returns err) ->
  writePump (turn t s) = Writing frame /\
  calls (turn t s) !! i = Some (AtLock data) /\
  closed (conn (turn t s)) = closed (conn s) /\
  wire (turn t s) = wire s.
Proof.
  intros Hw Hi Hnot.
  assert (mu s = true) as Hmu by (unfold mu; by rewrite Hw).
  destruct t as [d|j| |err| |]; cbn.
  - split_and!; [done| |done..]. by apply lookup_app_l_Some.
  - destruct (calls s !! j) as [[d|d|e|]|] eqn:Hj; [|  |done..].
    + by rewrite Hmu.
    + assert (j <> i) as Hne by (intros ->; congruence).
      destruct (sendCh_closed s); cbn.
      * split_and!; [done| |done..]. by rewrite list_lookup_insert_ne.
      * unfold Send_select. destruct (_ <? _)%nat; cbn;
          (split_and!; [done| |done..]); by rewrite list_lookup_insert_ne.
  - by rewrite Hw.
  - by destruct (Hnot err eq_refl).
  - by rewrite Hmu.
  - destruct (closed (conn s)) eqn:Hcl; cbn; by rewrite ?Hcl.
Qed.

(** C9 fails on the code: [Send] takes [c.mu], and [writePump] holds
    [c.mu] for as long as it is inside [WriteMessage].  A call of [Send]
    that comes to its [Lock] while [writePump] is writing stays there
    through every run of the goroutines in which that write has not
    returned: it returns neither nil nor an error, whether the queue has
    room or is full and whether the connection is open or closed (the
    cleanup, which needs the mutex too, waits as well). *)
Theorem Send_waits_while_writePump_writes (s : Live) (i : nat)
        (frame data : list byte) (turns : list Turn) :
  writePump s = Writing frame ->
  calls s !! i = Some (AtLock data) ->
  (forall err, WriteMessage_returns err ∉ turns) ->
  let s' := run turns s in
  calls s' !! i = Some (AtLock data) /\
  writePump s' = Writing frame /\
  closed (conn s') = closed (conn s) /\
  wire s' = wire s.
Proof.
  cbn zeta. unfold run. revert s.
  induction turns as [|t turns IH]; intros s Hw Hi Hnot; [done|].
  cbn [foldl].
  destruct (turn_waits s i frame data t Hw Hi) as (Hw' & Hi' & Hcl & Hwire).
  { intros err ->. apply (Hnot err). by left. }
  destruct (IH (turn t s) Hw' Hi') as (? & ? & ? & ?).
  { intros err Hin. apply (Hnot err). by right. }
  split_and!; [done..|congruence|congruence].
Qed.
End Backpressure.

(** The peer has stopped reading.  A first frame was queued, [writePump]
    took it and is writing it; a second [Send], on the open connection
    with its queue empty, is still at its [Lock] however often its
    goroutine is given the turn. *)
Lemma Send_waits_while_writePump_writes_witness :
  let s := wss.run [wss.Call_Send [Byte.x01]; wss.Run_Send 0; wss.Run_Send 0;
                    wss.Run_writePump; wss.Call_Send [Byte.x02]]
                   wss.handleWebSocket_live in
  wss.closed (wss.conn s) = false /\
  wss.buf (wss.sendCh (wss.conn s)) = [] /\
  wss.calls s !! 0%nat = Some (wss.Done None) /\
  wss.calls (wss.run [wss.Run_Send 1; wss.Run_cleanup; wss.Run_Send 1;
                      wss.Run_writePump; wss.Run_Send 1] s) !! 1%nat
  = Some (wss.AtLock [Byte.x02]).
Proof.
  cbn zeta. split_and!; [reflexivity..|].
  apply (Send_waits_while_writePump_writes
           (wss.run [wss.Call_Send [Byte.x01]; wss.Run_Send 0; wss.Run_Send 0;
                     wss.Run_writePump; wss.Call_Send [Byte.x02]]
                    wss.handleWebSocket_live)
           1 [Byte.x01] [Byte.x02]); [reflexivity..|].
  intros err Hin. repeat (apply elem_of_cons in Hin as [Hin|Hin]; [done|]).
  by apply elem_of_nil in Hin.
Defined.


Section Client_handshake.
Import msg vpn.
Context `{Crypto}.
Context `{Binary Msg} `{Binary Handshake} `{Binary HandshakeAck} `{Binary RawMsg}.

(** X19: what [Run] does by design: the pumps are started only after a
    handshake in which one Handshake carrying [clientPubKey] was sent, one
    frame was received, and that frame was of type HandshakeAck and
    decrypted to an ack with [Success = true]; whenever [Run] returns
    before that, it returns an error, no pump is started, and at most one
    frame has been received. *)
Lemma Run_is_gated_by_the_handshake (c : Client) (w w' : World) (st : RunState) :
  Run c w = Ret (st, w') ->
  (st = Selecting /\
   goroutines w' = (goroutines w ++ ["sendLoop"; "receiveLoop"])%list /\
   client.receives (transport w') = S (client.receives (transport w)) /\
   exists rawMsg rnd data ackData ackRaw hdr ack,
     EncryptHandshake (encoder c) {| Handshake_ClientPublicKey := clientPubKey c |}
                      (entropy w) = (Ok rawMsg, rnd) /\
     Marshal rawMsg = Ok data /\
     client.sent (transport w') = (client.sent (transport w) ++ [data])%list /\
     client.Receive_answer (transport w) (client.receives (transport w)) = Ok ackData /\
     Unmarshal ackData = Ok ackRaw /\
     RawMsg_Header ackRaw = Some hdr /\
     Header_Type hdr = TypeHandshakeAck /\
     DecryptHandshakeAck (decoder c) ackRaw = Ret (Ok ack) /\
     HandshakeAck_Success ack = true) \/
  (exists err,
     st = Returned err /\
     goroutines w' = goroutines w /\
     (client.receives (transport w') <= S (client.receives (transport w)))%nat).
Proof.
  unfold Run, handshake.
  destruct (EncryptHandshake _ _ _) as [[rawMsg|e] rnd] eqn:Eseal.
  2: { intros [= <- <-]. right. eexists. cbn. split_and!; [reflexivity..|lia]. }
  destruct (Marshal rawMsg) as [data|e] eqn:Emar.
  2: { intros [= <- <-]. right. eexists. cbn. split_and!; [reflexivity..|lia]. }
  cbn [client.Send with_transport with_entropy transport].
  destruct (client.Send_answer (transport w) data) as [e|] eqn:Esend.
  { intros [= <- <-]. right. eexists. cbn. split_and!; [reflexivity..|lia]. }
  cbn [client.Receive with_transport transport client.Receive_answer client.receives].
  destruct (client.Receive_answer (transport w) (client.receives (transport w)))
    as [ackData|e] eqn:Erecv.
  2: { intros [= <- <-]. right. eexists. cbn. split_and!; [reflexivity..|lia]. }
  destruct (Unmarshal ackData) as [ackRaw|e] eqn:Eun.
  2: { intros [= <- <-]. right. eexists. cbn. split_and!; [reflexivity..|lia]. }
  destruct (RawMsg_Header ackRaw) as [hdr|] eqn:Ehdr; [|done].
  destruct (Z.eqb_spec (Header_Type hdr) TypeHandshakeAck) as [Hty|Hty]; cbn [negb].
  2: { intros [= <- <-]. right. eexists. cbn. split_and!; [reflexivity..|lia]. }
  destruct (DecryptHandshakeAck (decoder c) ackRaw) as [[ack|e]|p] eqn:Edec; [| |done].
  2: { intros [= <- <-]. right. eexists. cbn. split_and!; [reflexivity..|lia]. }
  destruct (HandshakeAck_Success ack) eqn:Esucc; cbn [negb].
  2: { intros [= <- <-]. right. eexists. cbn. split_and!; [reflexivity..|lia]. }
  intros [= <- <-]. left. cbn.
  split_and!; [done | by rewrite <- app_assoc | done |].
  by exists rawMsg, rnd, data, ackData, ackRaw, hdr, ack.
Qed.

(** C8 fails on the code: when the frame received in answer to the
    Handshake unmarshals to a RawMsg whose [Header] pointer is nil, [Run]
    does not return an error: [handshake] panics at [ackRaw.Header.Type]. *)
Theorem Run_panics_on_nil_Header (c : Client) (w : World) (rawMsg : RawMsg)
        (rnd : rand.Entropy) (data ackData : list byte) (ackRaw : RawMsg) :
  EncryptHandshake (encoder c) {| Handshake_ClientPublicKey := clientPubKey c |}
                   (entropy w) = (Ok rawMsg, rnd) ->
  Marshal rawMsg = Ok data ->
  client.Send_answer (transport w) data = None ->
  client.Receive_answer (transport w) (client.receives (transport w)) = Ok ackData ->
  Unmarshal ackData = Ok ackRaw ->
  RawMsg_Header ackRaw = None ->
  Run c w = Panic nil_deref.
Proof.
  intros Eseal Emar Esend Erecv Eun Ehdr. unfold Run, handshake.
  rewrite Eseal, Emar. cbn. by rewrite Esend, Erecv, Eun, Ehdr.
Qed.
End Client_handshake.

(** The node answers the handshake with the two bytes [0x01 0x00]. *)
Lemma Run_panics_on_nil_Header_witness :
  @vpn.Run model.crypto model.binary_Handshake model.binary_HandshakeAck
    model.binary_RawMsg (@vpn.NewClient model.crypto model.cfg)
    (model.world (Ok model.nil_header_frame))
  = Panic nil_deref.
Proof.
  eapply (@Run_panics_on_nil_Header
            model.crypto model.binary_Handshake model.binary_HandshakeAck
            model.binary_RawMsg (@vpn.NewClient model.crypto model.cfg)
            (model.world (Ok model.nil_header_frame)));
    by vm_compute.
Defined.

(** * More of the code *)

Local Open Scope list_scope.

(** ** pkg/taiga/msg *)

Section Frame_anatomy.
Import msg.
Context `{Crypto}.
Context `{Binary Msg} `{Binary Handshake} `{Binary HandshakeAck}.

Lemma two_reads (rnd : rand.Entropy) s r1 n r2 :
  rand.Read 32 rnd = (Ok s, r1) -> rand.Read 12 r1 = (Ok n, r2) ->
  (44 <= length rnd)%nat /\ s = take 32 rnd /\ n = take 12 (drop 32 rnd) /\
  r2 = drop 44 rnd.
Proof.
  intros (Hl1 & -> & ->)%Read_inv (Hl2 & -> & ->)%Read_inv.
  rewrite length_drop in Hl2. rewrite drop_drop. split_and!; [lia|done..].
Qed.

(** X1: what a frame from [EncryptMsg], [EncryptHandshake] or
    [EncryptHandshakeAck] is made of.  A call that succeeds has used exactly
    44 bytes of entropy: the first 32 are the ephemeral scalar [s], the next
    12 the nonce.  The header carries the encoder's version, the type of the
    method, the public key of [s] and that nonce; the body is the marshalled
    plaintext sealed under the digest of the secret that the same [s]
    shares with the encoder's key. *)
Theorem sealed_frame_anatomy (e : Encoder) (rnd rnd' : rand.Entropy) (raw : RawMsg) :
  let s := take 32 rnd in
  let nonce := take 12 (drop 32 rnd) in
  let frame ty data pub shared :=
    {| RawMsg_Header := Some {| Header_Version := Encoder_Version e;
                                Header_Type := ty;
                                Header_EphemeralKey := copy 32 pub;
                                Header_Nonce := nonce |};
       RawMsg_Body := Seal (Sum256 shared) nonce data |} in
  let made_of (marshalled : result (list byte)) ty :=
    (44 <= length rnd)%nat /\ rnd' = drop 44 rnd /\
    exists pub shared data,
      X25519 s Basepoint = Ok pub /\
      X25519 s (Encoder_NodePublicKey e) = Ok shared /\
      marshalled = Ok data /\
      raw = frame ty data pub shared in
  (forall m, EncryptMsg e m rnd = (Ok raw, rnd') -> made_of (Marshal m) TypeData) /\
  (forall hs, EncryptHandshake e hs rnd = (Ok raw, rnd') ->
              made_of (Marshal hs) TypeHandshake) /\
  (forall ack, EncryptHandshakeAck e ack rnd = (Ok raw, rnd') ->
               made_of (Marshal ack) TypeHandshakeAck).
Proof.
  cbv zeta.
  split_and!.
  - intros m. unfold EncryptMsg, bind, orElse, lift, ret.
    destruct (rand.Read 32 rnd) as [[s|err] r1] eqn:E1; [|done].
    destruct (X25519 s Basepoint) as [pub|err] eqn:Ep; [|done].
    destruct (X25519 s (Encoder_NodePublicKey e)) as [shared|err] eqn:Es; [|done].
    destruct (rand.Read 12 r1) as [[n|err] r2] eqn:E2; [|done].
    destruct (chacha20poly1305.New _) as [c|err] eqn:Ec; [|done].
    destruct (Marshal m) as [data|err] eqn:Em; [|done].
    destruct (two_reads _ _ _ _ _ E1 E2) as (Hlen & -> & -> & ->).
    unfold chacha20poly1305.New in Ec. destruct (_ =? _)%nat; [|done].
    injection Ec as <-. intros [= <- <-]. split_and!; [done..|].
    by exists pub, shared, data.
  - intros hs. unfold EncryptHandshake, bind, orElse, lift, ret.
    destruct (rand.Read 32 rnd) as [[s|err] r1] eqn:E1; [|done].
    destruct (X25519 s Basepoint) as [pub|err] eqn:Ep; [|done].
    destruct (X25519 s (Encoder_NodePublicKey e)) as [shared|err] eqn:Es; [|done].
    destruct (rand.Read 12 r1) as [[n|err] r2] eqn:E2; [|done].
    destruct (chacha20poly1305.New _) as [c|err] eqn:Ec; [|done].
    destruct (Marshal hs) as [data|err] eqn:Em; [|done].
    destruct (two_reads _ _ _ _ _ E1 E2) as (Hlen & -> & -> & ->).
    unfold chacha20poly1305.New in Ec. destruct (_ =? _)%nat; [|done].
    injection Ec as <-. intros [= <- <-]. split_and!; [done..|].
    by exists pub, shared, data.
  - intros ack. unfold EncryptHandshakeAck, bind, orElse, lift, ret.
    destruct (rand.Read 32 rnd) as [[s|err] r1] eqn:E1; [|done].
    destruct (X25519 s Basepoint) as [pub|err] eqn:Ep; [|done].
    destruct (X25519 s (Encoder_NodePublicKey e)) as [shared|err] eqn:Es; [|done].
    destruct (rand.Read 12 r1) as [[n|err] r2] eqn:E2; [|done].
    destruct (chacha20poly1305.New _) as [c|err] eqn:Ec; [|done].
    destruct (Marshal ack) as [data|err] eqn:Em; [|done].
    destruct (two_reads _ _ _ _ _ E1 E2) as (Hlen & -> & -> & ->).
    unfold chacha20poly1305.New in Ec. destruct (_ =? _)%nat; [|done].
    injection Ec as <-. intros [= <- <-]. split_and!; [done..|].
    by exists pub, shared, data.
Qed.
End Frame_anatomy.

(** A frame sealed by the instance, taken apart. *)
Lemma sealed_frame_anatomy_witness :
  exists pub shared data,
    model.X25519 (take 32 model.tape) model.Basepoint = Ok pub /\
    model.X25519 (take 32 model.tape) model.nodePublic = Ok shared /\
    @Marshal _ model.binary_Msg model.packet = Ok data /\
    model.sealed_packet msg.Version1 model.packet
    = {| msg.RawMsg_Header :=
           Some {| msg.Header_Version := msg.Version1;
                   msg.Header_Type := msg.TypeData;
                   msg.Header_EphemeralKey := copy 32 pub;
                   msg.Header_Nonce := take 12 (drop 32 model.tape) |};
         msg.RawMsg_Body :=
           model.Seal (model.Sum256 shared) (take 12 (drop 32 model.tape)) data |}.
Proof.
  apply (proj1 (@sealed_frame_anatomy
                  model.crypto model.binary_Msg model.binary_Handshake
                  model.binary_HandshakeAck
                  {| msg.Encoder_NodePublicKey := model.nodePublic;
                     msg.Encoder_Version := msg.Version1 |}
                  model.tape [] (model.sealed_packet msg.Version1 model.packet))
               model.packet eq_refl).
Defined.

Section Decrypt_inputs.
Import msg.
Context `{Crypto}.
Context `{Binary Msg} `{Binary Handshake} `{Binary HandshakeAck}.

(** X2: the three decrypt operations read four things only: the Decoder's
    private key, the ephemeral key and the nonce of the header, and the
    body.  Two frames that agree in these are treated alike by two Decoders
    that agree in the key, whatever type and version the headers carry:
    [DecryptHandshake] and [DecryptHandshakeAck] return the same, and
    [DecryptBody] returns the same error or the same Msg. *)
Theorem decrypt_reads_key_nonce_body (d d' : Decoder) (raw raw' : RawMsg)
        (hdr hdr' : Header) :
  RawMsg_Header raw = Some hdr -> RawMsg_Header raw' = Some hdr' ->
  Decoder_PrivateKey d = Decoder_PrivateKey d' ->
  Header_EphemeralKey hdr = Header_EphemeralKey hdr' ->
  Header_Nonce hdr = Header_Nonce hdr' ->
  RawMsg_Body raw = RawMsg_Body raw' ->
  DecryptHandshake d raw = DecryptHandshake d' raw' /\
  DecryptHandshakeAck d raw = DecryptHandshakeAck d' raw' /\
  match DecryptBody d raw, DecryptBody d' raw' with
  | Ret (Ok c), Ret (Ok c') =>
    CookedMsg_Body c = CookedMsg_Body c' /\
    CookedMsg_Header c = Some hdr /\ CookedMsg_Header c' = Some hdr'
  | Ret (Err e), Ret (Err e') => e = e'
  | _, _ => False
  end.
Proof.
  intros Hh Hh' Hk He Hn Hb.
  unfold DecryptHandshake, DecryptHandshakeAck, DecryptBody.
  rewrite Hh, Hh', Hk, He, Hn, Hb. split_and!; [done..|].
  destruct (X25519 _ _) as [s|e]; cbn; [|done].
  destruct (chacha20poly1305.New _) as [c|e]; cbn; [|done].
  destruct (chacha20poly1305.Open_ _ _ _) as [data|e]; cbn; [|done].
  by destruct (Unmarshal data) as [m|e].
Qed.
End Decrypt_inputs.

(** A sealed handshake, relabelled as Data of another version, for a Decoder
    built with another version. *)
Lemma decrypt_reads_key_nonce_body_witness :
  exists hdr,
    msg.RawMsg_Header (model.sealed_hello msg.Version1 model.hello) = Some hdr /\
    @msg.DecryptHandshake model.crypto model.binary_Handshake
      {| msg.Decoder_PrivateKey := model.nodePrivate; msg.Decoder_Version := "other" |}
      {| msg.RawMsg_Header :=
           Some {| msg.Header_Version := "taiga_v9"; msg.Header_Type := msg.TypeData;
                   msg.Header_EphemeralKey := msg.Header_EphemeralKey hdr;
                   msg.Header_Nonce := msg.Header_Nonce hdr |};
         msg.RawMsg_Body := msg.RawMsg_Body (model.sealed_hello msg.Version1 model.hello) |}
    = @msg.DecryptHandshake model.crypto model.binary_Handshake
        (msg.NewDecoder model.nodePrivate) (model.sealed_hello msg.Version1 model.hello).
Proof.
  destruct (msg.RawMsg_Header (model.sealed_hello msg.Version1 model.hello))
    as [hdr|] eqn:E; [|by vm_compute in E].
  exists hdr. split; [reflexivity|].
  exact (proj1 (@decrypt_reads_key_nonce_body
                  model.crypto model.binary_Msg model.binary_Handshake
                  model.binary_HandshakeAck
                  {| msg.Decoder_PrivateKey := model.nodePrivate;
                     msg.Decoder_Version := "other" |}
                  (msg.NewDecoder model.nodePrivate)
                  {| msg.RawMsg_Header :=
                       Some {| msg.Header_Version := "taiga_v9";
                               msg.Header_Type := msg.TypeData;
                               msg.Header_EphemeralKey := msg.Header_EphemeralKey hdr;
                               msg.Header_Nonce := msg.Header_Nonce hdr |};
                     msg.RawMsg_Body :=
                       msg.RawMsg_Body (model.sealed_hello msg.Version1 model.hello) |}
                  (model.sealed_hello msg.Version1 model.hello) _ hdr
                  eq_refl E eq_refl eq_refl eq_refl eq_refl)).
Defined.

(** ** internal/node/handler *)

Section Node_frames.
Import msg handler.
Context `{Crypto}.
Context `{Binary Msg} `{Binary Handshake} `{Binary HandshakeAck} `{Binary RawMsg}.

(** X3: on a registered connection, a Data frame that decrypts to a body
    without next hop makes [handleData] hand that body's [Data], once, to
    the TUN; handler, connections and entropy stay as they are, and the
    log grows by at most one record (none when the device takes the packet
    whole). *)
Theorem registered_data_reaches_the_tun (conn : Conn) (rawMsg : RawMsg) (w : Node)
        (cooked : CookedMsg) (body : Msg) :
  is_Some (connEncoders (h w) !! conn) ->
  DecryptBody (decoder (h w)) rawMsg = Ret (Ok cooked) ->
  CookedMsg_Body cooked = Some body ->
  Msg_NextHop body = None ->
  exists w',
    handleData conn rawMsg w = Ret w' /\
    tun.written (tun_ w') = tun.written (tun_ w) ++ [Msg_Data body] /\
    tun.dev_Write (tun_ w') = tun.dev_Write (tun_ w) /\
    h w' = h w /\ conns w' = conns w /\ entropy w' = entropy w /\
    (exists r, log w' = log w ++ r /\ (length r <= 1)%nat) /\
    (tun.dev_Write (tun_ w) (Msg_Data body)
     = (Z.of_nat (length (Msg_Data body)), None) -> log w' = log w).
Proof.
  intros Hreg Hd Hb Hnh. unfold handleData.
  rewrite bool_decide_eq_true_2 by done. cbn [negb].
  rewrite Hd, Hb, Hnh. unfold tun.Write.
  destruct (tun.dev_Write (tun_ w) (Msg_Data body)) as [n [e|]] eqn:Ew.
  - eexists. split; [reflexivity|]. cbn. split_and!; try done.
    eexists. split; [reflexivity|]. cbn. lia.
  - destruct (Z.eqb_spec n (Z.of_nat (length (Msg_Data body)))) as [->|Hne]; cbn [negb].
    + eexists. split; [reflexivity|]. cbn. split_and!; try done.
      exists []. split; [by rewrite app_nil_r|]. cbn. lia.
    + eexists. split; [reflexivity|]. cbn. split_and!; try done.
      * eexists. split; [reflexivity|]. cbn. lia.
      * intros [= ?]. done.
Qed.

(** X4: a frame handled on one connection leaves the others alone.
    Whenever [HandleMessage] returns, the decoder and the private key are
    the ones before, and for every other connection the registered encoder
    and the connection with its queue are unchanged. *)
Theorem HandleMessage_touches_one_connection (conn : Conn) (data : list byte)
        (w w' : Node) :
  HandleMessage conn data w = Ret w' ->
  decoder (h w') = decoder (h w) /\ privateKey (h w') = privateKey (h w) /\
  forall conn', conn' <> conn ->
    connEncoders (h w') !! conn' = connEncoders (h w) !! conn' /\
    conns w' !! conn' = conns w !! conn'.
Proof.
  unfold HandleMessage.
  destruct (Unmarshal data) as [rawMsg|e]; [|by intros [= <-]].
  destruct (RawMsg_Header rawMsg) as [hdr|] eqn:Hh; [|done].
  destruct (Header_Type hdr =? TypeHandshake).
  - unfold handleHandshake.
    destruct (DecryptHandshake _ _) as [[hs|e]|p]; [| |done].
    + unfold sendHandshakeAck. cbn [entropy with_log with_connEncoders].
      destruct (EncryptHandshakeAck _ _ _) as [[r|e] rnd].
      * destruct (Marshal r) as [d|e]; intros [= <-]; cbn;
          (split_and!; [done..|]); intros conn' Hne;
          rewrite ?lookup_insert_ne, ?lookup_alter_ne by done; done.
      * intros [= <-]. cbn. split_and!; [done..|]. intros conn' Hne.
        by rewrite lookup_insert_ne.
    + by intros [= <-].
  - destruct (Header_Type hdr =? TypeData); [|by intros [= <-]].
    unfold handleData. destruct (negb _); [by intros [= <-]|].
    destruct (DecryptBody _ _) as [[cooked|e]|p]; [| |done].
    + destruct (CookedMsg_Body cooked) as [body|]; [|done].
      destruct (Msg_NextHop body); [by intros [= <-]|].
      unfold tun.Write. destruct (tun.dev_Write _ _) as [n [e|]]; [by intros [= <-]|].
      destruct (negb _); by intros [= <-].
    + by intros [= <-].
Qed.

(** X5: one frame, at most one packet.  Whenever [HandleMessage] returns,
    either the TUN was not written to, or it was written to once, and
    then the connection was registered, the frame was of type Data and
    decrypted to a body without next hop, and what was written is that
    body's [Data]. *)
Theorem HandleMessage_writes_only_registered_data (conn : Conn) (data : list byte)
        (w w' : Node) :
  HandleMessage conn data w = Ret w' ->
  tun_ w' = tun_ w \/
  exists rawMsg hdr cooked body,
    Unmarshal data = Ok rawMsg /\ RawMsg_Header rawMsg = Some hdr /\
    Header_Type hdr = TypeData /\
    is_Some (connEncoders (h w) !! conn) /\
    DecryptBody (decoder (h w)) rawMsg = Ret (Ok cooked) /\
    CookedMsg_Body cooked = Some body /\ Msg_NextHop body = None /\
    tun.written (tun_ w') = tun.written (tun_ w) ++ [Msg_Data body].
Proof.
  unfold HandleMessage.
  destruct (Unmarshal data) as [rawMsg|e] eqn:Hu; [|intros [= <-]; by left].
  destruct (RawMsg_Header rawMsg) as [hdr|] eqn:Hh; [|done].
  destruct (Header_Type hdr =? TypeHandshake).
  - unfold handleHandshake.
    destruct (DecryptHandshake _ _) as [[hs|e]|p]; [| |done].
    + unfold sendHandshakeAck. cbn [entropy with_log with_connEncoders].
      destruct (EncryptHandshakeAck _ _ _) as [[r|e] rnd].
      * destruct (Marshal r) as [d|e]; intros [= <-]; by left.
      * intros [= <-]. by left.
    + intros [= <-]. by left.
  - destruct (Z.eqb_spec (Header_Type hdr) TypeData) as [Hty|Hty];
      [|intros [= <-]; by left].
    unfold handleData.
    destruct (decide (is_Some (connEncoders (h w) !! conn))) as [Hreg|Hreg].
    2: { rewrite bool_decide_eq_false_2 by done. intros [= <-]. by left. }
    rewrite bool_decide_eq_true_2 by done. cbn [negb].
    destruct (DecryptBody _ _) as [[cooked|e]|p] eqn:Hd; [| |done].
    2: { intros [= <-]. by left. }
    destruct (CookedMsg_Body cooked) as [body|] eqn:Hb; [|done].
    destruct (Msg_NextHop body) eqn:Hn; [intros [= <-]; by left|].
    intros Hw. right. exists rawMsg, hdr, cooked, body.
    split_and!; try done.
    revert Hw. unfold tun.Write.
    destruct (tun.dev_Write _ _) as [n [e|]]; [by intros [= <-]|].
    destruct (negb _); by intros [= <-].
Qed.

(** X6: after [RemoveConnection] a connection is unregistered: every frame
    [handleData] gets on it is dropped with the warning, nothing reaching
    the TUN, whatever was registered before; the encoders of the other
    connections, the connections themselves, the TUN and the entropy are
    not touched. *)
Theorem RemoveConnection_unregisters (conn : Conn) (w : Node) :
  let w1 := RemoveConnection conn w in
  connEncoders (h w1) !! conn = None /\
  (forall conn', conn' <> conn ->
     connEncoders (h w1) !! conn' = connEncoders (h w) !! conn') /\
  conns w1 = conns w /\ tun_ w1 = tun_ w /\ entropy w1 = entropy w /\
  forall rawMsg,
    handleData conn rawMsg w1
    = Ret (with_log (slog.Warn "Data from unregistered client, ignoring" []) w1).
Proof.
  cbn. split_and!; try done.
  - apply lookup_delete_eq.
  - intros conn' Hne. by apply lookup_delete_ne.
  - intros rawMsg. unfold handleData. cbn.
    rewrite lookup_delete_eq.
    by rewrite bool_decide_eq_false_2 by (by intros [? ?]).
Qed.
End Node_frames.

(** ** The node's TUN reader *)

Section Reader_effects.
Import msg handler reader.
Context `{Crypto}.
Context `{Binary Msg} `{Binary RawMsg}.

Lemma EncryptMsg_entropy e m rnd r rnd' :
  EncryptMsg e m rnd = (r, rnd') -> (length rnd <= length rnd' + 44)%nat.
Proof.
  unfold EncryptMsg, bind, orElse, lift, ret.
  destruct (rand.Read 32 rnd) as [[s|err] r1] eqn:E1.
  2: { unfold rand.Read in E1. destruct (_ <=? _)%nat in E1; [done|].
       injection E1 as _ <-. intros [= _ <-]. lia. }
  apply Read_inv in E1 as (Hl1 & -> & ->).
  assert (length rnd <= length (drop 32 rnd) + 44)%nat as Hd
    by (rewrite length_drop; lia).
  destruct (X25519 _ Basepoint); [|by intros [= _ <-]].
  destruct (X25519 _ (Encoder_NodePublicKey e)); [|by intros [= _ <-]].
  destruct (rand.Read 12 (drop 32 rnd)) as [[n|err] r2] eqn:E2.
  2: { unfold rand.Read in E2. destruct (_ <=? _)%nat in E2; [done|].
       injection E2 as _ <-. by intros [= _ <-]. }
  apply Read_inv in E2 as (Hl2 & -> & ->).
  rewrite length_drop in Hl2.
  assert (length rnd <= length (drop 12 (drop 32 rnd)) + 44)%nat
    by (rewrite !length_drop; lia).
  destruct (chacha20poly1305.New _); [|by intros [= _ <-]].
  destruct (Marshal m); by intros [= _ <-].
Qed.

Lemma send_to_frame message w conn enc :
  h (send_to message w (conn, enc)) = h w /\
  tun_ (send_to message w (conn, enc)) = tun_ w /\
  (length (entropy w) <= length (entropy (send_to message w (conn, enc))) + 44)%nat /\
  forall conn', conn' <> conn ->
    conns (send_to message w (conn, enc)) !! conn' = conns w !! conn'.
Proof.
  unfold send_to.
  destruct (EncryptMsg enc message (entropy w)) as [[raw|e] rnd] eqn:E;
    apply EncryptMsg_entropy in E.
  - destruct (Marshal raw) as [d|e]; cbn; split_and!; try done.
    intros conn' Hne. by rewrite lookup_alter_ne.
  - by cbn.
Qed.

Lemma foldl_send_to_frame message l w :
  h (foldl (send_to message) w l) = h w /\
  tun_ (foldl (send_to message) w l) = tun_ w /\
  forall conn', conn' ∉ l.*1 ->
    conns (foldl (send_to message) w l) !! conn' = conns w !! conn'.
Proof.
  revert w. induction l as [|[conn enc] l IH]; intros w; [done|].
  cbn [foldl]. destruct (IH (send_to message w (conn, enc))) as (Hh & Ht & Hc).
  destruct (send_to_frame message w conn enc) as (Hh1 & Ht1 & _ & Hc1).
  rewrite Hh, Ht, Hh1, Ht1. split_and!; [done..|].
  intros conn' Hnot. rewrite fmap_cons, not_elem_of_cons in Hnot.
  destruct Hnot as [Hne Hnot]. by rewrite Hc, Hc1.
Qed.

(** X7: what a pass of the TUN reader leaves alone.  The encoder table,
    the decoder and the TUN are never changed, and a connection without a
    registered encoder keeps its queue; when the read fails or returns no
    bytes, no connection and no entropy is touched at all. *)
Theorem reader_sends_to_registered_only (p : Pass) (w : Node) :
  ranges p w ->
  let w' := StartTUNReader_pass p w in
  h w' = h w /\ tun_ w' = tun_ w /\
  (forall conn, connEncoders (h w) !! conn = None -> conns w' !! conn = conns w !! conn) /\
  (read p = Ok [] \/ (exists err, read p = Err err) ->
   conns w' = conns w /\ entropy w' = entropy w).
Proof.
  intros Hrange. cbn zeta. unfold StartTUNReader_pass.
  destruct (read p) as [packet|err] eqn:Er.
  - destruct packet as [|b packet]; cbn [length Nat.eqb].
    + split_and!; done.
    + destruct (foldl_send_to_frame
                  {| Msg_Flags := 0; Msg_Timestamp := now p; Msg_NextHop := None;
                     Msg_Data := b :: packet |} (order p) w) as (Hh & Ht & Hc).
      split_and!; [done..| |].
      * intros conn Hnone. apply Hc. intros Hin.
        apply list_elem_of_fmap in Hin as ([c e] & -> & Hin).
        rewrite Hrange in Hin. apply elem_of_map_to_list in Hin. cbn in *. congruence.
      * intros [[=]|[err [=]]].
  - by cbn.
Qed.
End Reader_effects.

Section Reader_delivery.
Import msg handler reader.
Context `{Crypto} `{!CryptoLaws}.
Context `{Binary Msg} `{Binary Handshake} `{Binary HandshakeAck} `{Binary RawMsg}.

Lemma foldl_send_to_delivers message l w conn enc d c :
  roundtrips Msg_wf -> roundtrips RawMsg_wf -> Msg_wf message ->
  NoDup l.*1 -> (conn, enc) ∈ l ->
  (44 * length l <= length (entropy w))%nat ->
  Decoder_PrivateKey d = c ->
  length c = 32%nat -> PublicKeyFromPrivate c = Ok (Encoder_NodePublicKey enc) ->
  exists raw data,
    Marshal raw = Ok data /\ Unmarshal data = Ok raw /\
    DecryptBody d raw
    = Ret (Ok {| CookedMsg_Header := RawMsg_Header raw;
                 CookedMsg_Body := Some message |}) /\
    conns (foldl (send_to message) w l) !! conn
    = (fun cn => (wss.Send cn data).2) <$> conns w !! conn.
Proof.
  intros Hm Hraw Hwf Hnd Hin Hent Hd Hc HP. revert w Hent.
  induction l as [|[conn0 enc0] l IH]; intros w Hent; [by apply elem_of_nil in Hin|].
  rewrite fmap_cons in Hnd. apply NoDup_cons in Hnd as [Hfresh Hnd].
  cbn [foldl length] in *.
  apply elem_of_cons in Hin as [[= <- <-]|Hin].
  - destruct (msg_proofs.EncryptMsg_DecryptBody
                enc d c (Encoder_NodePublicKey enc) (entropy w) message)
      as (raw & He & (hdr & Hh & _ & _ & Hhwf) & Hopen); try done; [lia|].
    destruct (Hraw raw) as (data & HM & HU); [unfold RawMsg_wf; by rewrite Hh|].
    exists raw, data. split_and!; [done..|].
    destruct (foldl_send_to_frame message l (send_to message w (conn, enc)))
      as (_ & _ & Hc').
    rewrite Hc' by done. unfold send_to. rewrite He, HM. cbn.
    apply lookup_alter_eq.
  - assert (conn <> conn0) as Hne.
    { intros ->. apply Hfresh. apply list_elem_of_fmap. by exists (conn0, enc). }
    destruct (send_to_frame message w conn0 enc0) as (_ & _ & Hlen & Hc').
    destruct (IH Hnd Hin (send_to message w (conn0, enc0))) as (raw & data & ? & ? & ? & Hq);
      [lia|].
    exists raw, data. split_and!; [done..|]. by rewrite Hq, Hc'.
Qed.

Lemma pass_delivers (p : Pass) (w : Node) (packet : list byte)
      (conn : Conn) (enc : Encoder) (d : Decoder) (c : Key) :
  roundtrips Msg_wf -> roundtrips RawMsg_wf ->
  ranges p w -> read p = Ok packet -> packet <> [] ->
  - 2 ^ 63 <= now p < 2 ^ 63 ->
  (44 * size (connEncoders (h w)) <= length (entropy w))%nat ->
  connEncoders (h w) !! conn = Some enc ->
  Decoder_PrivateKey d = c ->
  length c = 32%nat -> X25519 c Basepoint = Ok (Encoder_NodePublicKey enc) ->
  exists raw data,
    Marshal raw = Ok data /\ Unmarshal data = Ok raw /\
    DecryptBody d raw
    = Ret (Ok {| CookedMsg_Header := RawMsg_Header raw;
                 CookedMsg_Body := Some {| Msg_Flags := 0; Msg_Timestamp := now p;
                                           Msg_NextHop := None; Msg_Data := packet |} |}) /\
    conns (StartTUNReader_pass p w) !! conn
    = (fun cn => (wss.Send cn data).2) <$> conns w !! conn.
Proof.
  intros Hm Hraw Hrange Hread Hne Hnow Hent Hreg Hd Hc HP.
  apply public_key in HP; [|done].
  unfold StartTUNReader_pass. rewrite Hread.
  destruct packet as [|b packet]; [done|]. cbn [length Nat.eqb].
  apply (foldl_send_to_delivers _ (order p) w conn enc d c); try done.
  - rewrite Hrange. apply NoDup_fst_map_to_list.
  - rewrite Hrange. by apply elem_of_map_to_list.
  - rewrite Hrange, length_map_to_list. done.
Qed.

(** X8: what a pass of the TUN reader delivers.  When the device read a
    packet that is not empty and the entropy source has 44 bytes for every
    registered encoder, every connection whose encoder is bound to the
    public key of some private key [c] is handed, through [Send], exactly
    one frame: the marshalled RawMsg that the Decoder holding [c] opens to
    the Msg with flags 0, the time of the pass, no next hop and the packet
    as [Data].  This is so in whatever order the table is visited, and
    whether or not sealing for other connections fails. *)
Theorem reader_delivers_to_each_client (p : Pass) (w : Node) (packet : list byte)
        (conn : Conn) (enc : Encoder) (c : Key) :
  roundtrips Msg_wf -> roundtrips RawMsg_wf ->
  ranges p w -> read p = Ok packet -> packet <> [] ->
  - 2 ^ 63 <= now p < 2 ^ 63 ->
  (44 * size (connEncoders (h w)) <= length (entropy w))%nat ->
  connEncoders (h w) !! conn = Some enc ->
  length c = 32%nat -> X25519 c Basepoint = Ok (Encoder_NodePublicKey enc) ->
  exists raw data,
    Marshal raw = Ok data /\ Unmarshal data = Ok raw /\
    DecryptBody (NewDecoder c) raw
    = Ret (Ok {| CookedMsg_Header := RawMsg_Header raw;
                 CookedMsg_Body := Some {| Msg_Flags := 0; Msg_Timestamp := now p;
                                           Msg_NextHop := None; Msg_Data := packet |} |}) /\
    conns (StartTUNReader_pass p w) !! conn
    = (fun cn => (wss.Send cn data).2) <$> conns w !! conn.
Proof.
  intros Hm Hraw Hrange Hread Hne Hnow Hent Hreg Hc HP.
  by apply (pass_delivers p w packet conn enc (NewDecoder c) c).
Qed.
End Reader_delivery.

(** ** The client's pumps, and the two ends together *)

Section Receive_loop.
Import msg vpn pumps.
Context `{Crypto}.
Context `{Binary Msg} `{Binary RawMsg}.


End Receive_loop.

Section Two_ends.
Import msg.
Context `{Crypto} `{!CryptoLaws}.
Context `{Binary Msg} `{Binary Handshake} `{Binary HandshakeAck} `{Binary RawMsg}.

Lemma HandleMessage_data (conn : handler.Conn) (data : list byte) (rawMsg : RawMsg)
      (hdr : Header) (w : handler.Node) :
  Unmarshal data = Ok rawMsg -> RawMsg_Header rawMsg = Some hdr ->
  Header_Type hdr = TypeData ->
  handler.HandleMessage conn data w = handler.handleData conn rawMsg w.
Proof. intros Hu Hh Ht. unfold handler.HandleMessage. by rewrite Hu, Hh, Ht. Qed.

(** X10: from the client's TUN to the node's.  A pass of [sendLoop] that
    reads a packet which is not empty, with 44 bytes of entropy and a
    transport that takes the frame, sends exactly one frame and carries on;
    when the client's encoder is bound to the public key of the node's
    private key, [HandleMessage] on any registered connection writes, for
    that frame, exactly the packet to the node's TUN. *)
Theorem packet_from_client_reaches_node_tun (c : vpn.Client) (p : pumps.SendPass)
        (wc : vpn.World) (packet : list byte) (n : Key) (conn : handler.Conn)
        (w : handler.Node) :
  roundtrips Msg_wf -> roundtrips RawMsg_wf ->
  pumps.send_done p = false -> pumps.send_read p = Ok packet -> packet <> [] ->
  - 2 ^ 63 <= pumps.send_now p < 2 ^ 63 ->
  (44 <= length (vpn.entropy wc))%nat ->
  (forall d, client.Send_answer (vpn.transport wc) d = None) ->
  length n = 32%nat ->
  X25519 n Basepoint = Ok (Encoder_NodePublicKey (vpn.encoder c)) ->
  Decoder_PrivateKey (handler.decoder (handler.h w)) = n ->
  is_Some (handler.connEncoders (handler.h w) !! conn) ->
  exists data wc' w',
    pumps.sendLoop_pass c p wc = (pumps.Running, wc') /\
    client.sent (vpn.transport wc') = client.sent (vpn.transport wc) ++ [data] /\
    vpn.tun_ wc' = vpn.tun_ wc /\
    handler.HandleMessage conn data w = Ret w' /\
    tun.written (handler.tun_ w') = tun.written (handler.tun_ w) ++ [packet] /\
    handler.h w' = handler.h w.
Proof.
  intros Hm Hraw Hdone Hread Hne Hnow Hent Hsend Hn HP Hd Hreg.
  apply public_key in HP; [|done].
  set (message := {| Msg_Flags := 0; Msg_Timestamp := pumps.send_now p;
                     Msg_NextHop := None; Msg_Data := packet |}).
  destruct (msg_proofs.EncryptMsg_DecryptBody
              (vpn.encoder c) (handler.decoder (handler.h w)) n
              (Encoder_NodePublicKey (vpn.encoder c)) (vpn.entropy wc) message)
    as (raw & He & (hdr & Hh & _ & Hty & Hhwf) & Hopen); try done.
  destruct (Hraw raw) as (data & HM & HU); [unfold RawMsg_wf; by rewrite Hh|].
  assert (exists w', handler.handleData conn raw w = Ret w' /\
            tun.written (handler.tun_ w') = tun.written (handler.tun_ w) ++ [packet] /\
            handler.h w' = handler.h w) as (w' & Hrun & Hw & Hh').
  { unfold handler.handleData. rewrite bool_decide_eq_true_2 by done. cbn [negb].
    rewrite Hopen. cbn.
    destruct (tun.dev_Write _ _) as [k [e|]];
      [|destruct (negb _)]; (eexists; split; [reflexivity|]; by cbn). }
  assert (pumps.sendLoop_pass c p wc
          = (pumps.Running,
             vpn.with_transport (client.Send (vpn.transport wc) data).2
                                (vpn.with_entropy (drop 44 (vpn.entropy wc)) wc)))
    as Hpass.
  { unfold pumps.sendLoop_pass. rewrite Hdone, Hread.
    destruct packet as [|b packet]; [done|]. cbn [length Nat.eqb].
    fold message. rewrite He, HM. cbn. by rewrite Hsend. }
  exists data. eexists. exists w'. split; [exact Hpass|].
  rewrite (HandleMessage_data conn data raw hdr w HU Hh Hty). by cbn.
Qed.

(** X11: from the node's TUN to the client's.  The frame that a pass of
    the TUN reader hands to the connection of a client (registered with
    the public key of the client's private key; the connection open, its
    queue not full) is put at the end of that connection's queue; and a
    pass of that client's [receiveLoop] which receives this frame writes
    exactly the packet to the client's TUN and carries on. *)
Theorem packet_from_node_reaches_client_tun (p : reader.Pass) (w : handler.Node)
        (packet : list byte) (conn : handler.Conn) (enc : Encoder)
        (cn : wss.Connection) (c : vpn.Client) :
  roundtrips Msg_wf -> roundtrips RawMsg_wf ->
  reader.ranges p w -> reader.read p = Ok packet -> packet <> [] ->
  - 2 ^ 63 <= reader.now p < 2 ^ 63 ->
  (44 * size (handler.connEncoders (handler.h w)) <= length (handler.entropy w))%nat ->
  handler.connEncoders (handler.h w) !! conn = Some enc ->
  handler.conns w !! conn = Some cn ->
  wss.closed cn = false ->
  (length (wss.buf (wss.sendCh cn)) < wss.cap (wss.sendCh cn))%nat ->
  length (Decoder_PrivateKey (vpn.decoder c)) = 32%nat ->
  X25519 (Decoder_PrivateKey (vpn.decoder c)) Basepoint = Ok (Encoder_NodePublicKey enc) ->
  exists data cn',
    handler.conns (reader.StartTUNReader_pass p w) !! conn = Some cn' /\
    wss.buf (wss.sendCh cn') = wss.buf (wss.sendCh cn) ++ [data] /\
    forall wc,
      client.Receive_answer (vpn.transport wc) (client.receives (vpn.transport wc))
      = Ok data ->
      exists wc',
        pumps.receiveLoop_pass c false wc = Ret (pumps.Running, wc') /\
        tun.written (vpn.tun_ wc') = tun.written (vpn.tun_ wc) ++ [packet] /\
        client.sent (vpn.transport wc') = client.sent (vpn.transport wc).
Proof.
  intros Hm Hraw Hrange Hread Hne Hnow Hent Hreg Hcn Hopen Hroom Hc HP.
  destruct (pass_delivers p w packet conn enc (vpn.decoder c)
                          (Decoder_PrivateKey (vpn.decoder c)))
    as (raw & data & HM & HU & Hdec & Hq); try done.
  rewrite Hcn in Hq. cbn in Hq.
  exists data, (wss.Send cn data).2. split; [done|].
  unfold wss.Send. rewrite Hopen. apply Nat.ltb_lt in Hroom. rewrite Hroom. cbn.
  split; [done|].
  intros wc Hans. unfold pumps.receiveLoop_pass, client.Receive. cbn.
  rewrite Hans, HU, Hdec. unfold processor.Process. cbn.
  destruct (tun.dev_Write _ _) as [k [e|]];
    [|destruct (negb _)]; (eexists; split; [reflexivity|]; by cbn).
Qed.
End Two_ends.

Section Handshake_both_ends.
Import msg.
Context `{Crypto} `{!CryptoLaws}.
Context `{Binary Msg} `{Binary Handshake} `{Binary HandshakeAck} `{Binary RawMsg}.

(** X12: the handshake, both ends.  Take a client made by [NewClient] from
    a 32-byte private key and the public key of the node's private key, a
    transport that takes the frame, and 44 bytes of entropy at each end.
    The frame [Run] sends first is one that [HandleMessage] answers, on an
    open connection with room in its queue, by registering an encoder for
    the client's public key and queueing one frame; and when that frame is
    what the client receives, [Run] gets through the handshake and starts
    both pumps. *)
Theorem handshake_completes (cfg : config.ConnConfig) (wc : vpn.World) (npriv : Key)
        (conn : handler.Conn) (w : handler.Node) (cn : wss.Connection) :
  roundtrips Handshake_wf -> roundtrips HandshakeAck_wf -> roundtrips RawMsg_wf ->
  length (config.PrivateKey cfg) = 32%nat ->
  length npriv = 32%nat -> X25519 npriv Basepoint = Ok (config.NodePublicKey cfg) ->
  Decoder_PrivateKey (handler.decoder (handler.h w)) = npriv ->
  (44 <= length (vpn.entropy wc))%nat -> (44 <= length (handler.entropy w))%nat ->
  (forall d, client.Send_answer (vpn.transport wc) d = None) ->
  handler.conns w !! conn = Some cn -> wss.closed cn = false ->
  (length (wss.buf (wss.sendCh cn)) < wss.cap (wss.sendCh cn))%nat ->
  exists clientPub data ackData w' cn',
    PublicKeyFromPrivate (config.PrivateKey cfg) = Ok clientPub /\
    handler.HandleMessage conn data w = Ret w' /\
    handler.connEncoders (handler.h w') !! conn = Some (NewEncoder clientPub) /\
    handler.conns w' !! conn = Some cn' /\
    wss.buf (wss.sendCh cn') = wss.buf (wss.sendCh cn) ++ [ackData] /\
    (client.Receive_answer (vpn.transport wc) (client.receives (vpn.transport wc))
     = Ok ackData ->
     exists wc',
       vpn.Run (vpn.NewClient cfg) wc = Ret (vpn.Selecting, wc') /\
       client.sent (vpn.transport wc') = client.sent (vpn.transport wc) ++ [data] /\
       client.receives (vpn.transport wc') = S (client.receives (vpn.transport wc)) /\
       vpn.goroutines wc' = vpn.goroutines wc ++ ["sendLoop"; "receiveLoop"]%string).
Proof.
  intros Hhs Hack Hraw Hc Hn HP Hd Hentc Hentn Hsend Hcn Hopen Hroom.
  apply public_key in HP; [|done].
  destruct (X25519_base _ Hc) as (clientPub & HC & Hlen).
  pose proof (public_key _ _ Hc HC) as HCP.
  set (hs := {| Handshake_ClientPublicKey := clientPub |}).
  destruct (msg_proofs.EncryptHandshake_DecryptHandshake
              (NewEncoder (config.NodePublicKey cfg)) (handler.decoder (handler.h w))
              npriv (config.NodePublicKey cfg) (vpn.entropy wc) hs)
    as (raw & He & (hdr & Hh & _ & Hty & Hhwf) & Hdec); try done.
  destruct (Hraw raw) as (data & HM & HU); [unfold RawMsg_wf; by rewrite Hh|].
  set (ack := {| HandshakeAck_Success := true; HandshakeAck_Message := "ok" |}).
  destruct (msg_proofs.EncryptHandshakeAck_DecryptHandshakeAck
              (NewEncoder clientPub) (NewDecoder (config.PrivateKey cfg))
              (config.PrivateKey cfg) clientPub (handler.entropy w) ack)
    as (ackRaw & Hea & (ahdr & Hah & _ & Haty & Hahwf) & Hadec); try done.
  destruct (Hraw ackRaw) as (ackData & HAM & HAU); [unfold RawMsg_wf; by rewrite Hah|].
  exists clientPub, data, ackData. eexists. exists (wss.Send cn ackData).2.
  split_and!.
  - done.
  - unfold handler.HandleMessage. rewrite HU, Hh, Hty. cbn [Z.eqb Pos.eqb TypeHandshake].
    unfold handler.handleHandshake. rewrite Hdec.
    unfold handler.sendHandshakeAck. cbn [handler.entropy handler.with_log
      handler.with_connEncoders Handshake_ClientPublicKey hs].
    fold ack. rewrite Hea, HAM. reflexivity.
  - cbn. apply lookup_insert_eq.
  - cbn. rewrite lookup_alter_eq, Hcn. done.
  - unfold wss.Send. rewrite Hopen. apply Nat.ltb_lt in Hroom. by rewrite Hroom.
  - intros Hans. unfold vpn.Run, vpn.handshake, vpn.NewClient.
    rewrite HCP. cbn [vpn.encoder vpn.decoder vpn.clientPubKey].
    fold hs. rewrite He, HM. cbn. rewrite Hsend, Hans, HAU, Hah, Haty.
    cbn [Z.eqb Pos.eqb TypeHandshakeAck negb]. rewrite Hadec. cbn.
    eexists. split; [reflexivity|]. cbn. by rewrite <- app_assoc.
Qed.
End Handshake_both_ends.

Section Send_loop.
Import msg vpn pumps.
Context `{Crypto}.
Context `{Binary Msg} `{Binary RawMsg}.


End Send_loop.

(** ** internal/transport/server/wss *)

Section Queue.
Import wss queue.

Lemma turn_in_order (t : Turn) (s : Live) :
  (forall err, t <> WriteMessage_returns (Some err)) ->
  in_order (turn t s) = in_order s ++ accepts t s.
Proof.
  intros Hnot. unfold in_order, inflight.
  destruct t as [d|j| |[err|]| |]; cbn.
  - by rewrite app_nil_r.
  - destruct (calls s !! j) as [[d|d|e|]|] eqn:Hj; cbn; try by rewrite app_nil_r.
    + destruct (mu s); [by rewrite app_nil_r|].
      destruct (closed (conn s)); cbn; by rewrite app_nil_r.
    + destruct (sendCh_closed s); cbn; [by rewrite app_nil_r|].
      unfold Send_select. destruct (_ <? _)%nat; cbn; [|by rewrite app_nil_r].
      by rewrite <- !app_assoc.
  - rewrite app_nil_r. destruct (writePump s) eqn:Hw; cbn; rewrite ?Hw; try done.
    unfold writePump_recv. destruct (buf (sendCh (conn s))) as [|x rest] eqn:Hb; cbn.
    + destruct (sendCh_closed s); cbn; by rewrite ?Hw, ?Hb.
    + done.
  - by destruct (Hnot err).
  - rewrite app_nil_r. destruct (writePump s) eqn:Hw; cbn; rewrite ?Hw; try done.
    by rewrite <- app_assoc.
  - rewrite app_nil_r. by destruct (mu s).
  - rewrite app_nil_r. by destruct (closed (conn s)).
Qed.

(** X14: the queue of a connection is first in, first out, and loses
    nothing while the writes succeed.  Through every run of the callers of
    [Send], of [writePump], the network and the cleanup in which no
    [WriteMessage] has failed, the frames already written, the frame being
    written and the frames queued are, in this order, what they were
    before followed by the frames that [Send] has put on the channel (the
    calls that returned nil), in the order in which it did. *)
Theorem queue_is_fifo (turns : list Turn) (s : Live) :
  (forall err, WriteMessage_returns (Some err) ∉ turns) ->
  in_order (run turns s) = in_order s ++ accepted turns s.
Proof.
  unfold run. revert s. induction turns as [|t turns IH]; intros s Hnot; cbn.
  - by rewrite app_nil_r.
  - rewrite IH, turn_in_order, <- app_assoc; [done| |].
    + intros err ->. apply (Hnot err). by left.
    + intros err Hin. apply (Hnot err). by right.
Qed.
End Queue.

(** ** The sessions of a node *)

Section Sessions.
Import msg handler server.
Context `{Crypto}.
Context `{Binary Msg} `{Binary Handshake} `{Binary HandshakeAck} `{Binary RawMsg}.

Lemma Send_closed c data : wss.closed (wss.Send c data).2 = wss.closed c.
Proof.
  unfold wss.Send. destruct (wss.closed c) eqn:E; [done|].
  by destruct (_ <? _)%nat.
Qed.

Lemma HandleMessage_frame conn data w w' :
  HandleMessage conn data w = Ret w' ->
  (forall conn', conn' <> conn ->
     connEncoders (h w') !! conn' = connEncoders (h w) !! conn') /\
  (conns w' = conns w \/
   exists d, conns w' = alter (fun c => (wss.Send c d).2) conn (conns w)).
Proof.
  unfold HandleMessage.
  destruct (Unmarshal data) as [rawMsg|e]; [|intros [= <-]; split; [done|by left]].
  destruct (RawMsg_Header rawMsg) as [hdr|] eqn:Hh; [|done].
  destruct (Header_Type hdr =? TypeHandshake).
  - unfold handleHandshake.
    destruct (DecryptHandshake _ _) as [[hs|e]|p]; [| |done].
    + unfold sendHandshakeAck. cbn [entropy with_log with_connEncoders].
      destruct (EncryptHandshakeAck _ _ _) as [[r|e] rnd].
      * destruct (Marshal r) as [d|e]; intros [= <-]; cbn; split;
          try (intros conn' Hne; by rewrite lookup_insert_ne);
          [right; by exists d | by left].
      * intros [= <-]. cbn. split; [|by left].
        intros conn' Hne. by rewrite lookup_insert_ne.
    + intros [= <-]. split; [done|by left].
  - destruct (Header_Type hdr =? TypeData); [|intros [= <-]; split; [done|by left]].
    unfold handleData. destruct (negb _); [intros [= <-]; split; [done|by left]|].
    destruct (DecryptBody _ _) as [[cooked|e]|p]; [| |done].
    + destruct (CookedMsg_Body cooked) as [body|]; [|done].
      destruct (Msg_NextHop body); [intros [= <-]; split; [done|by left]|].
      unfold tun.Write.
      destruct (tun.dev_Write _ _) as [n [e|]]; [intros [= <-]; split; [done|by left]|].
      destruct (negb _); intros [= <-]; (split; [done|by left]).
    + intros [= <-]. split; [done|by left].
Qed.

Lemma sent_on_refl m : sent_on m m.
Proof. intros conn. destruct (m !! conn) as [c|] eqn:E; [|done]. by exists c. Qed.

Lemma sent_on_trans m1 m2 m3 : sent_on m1 m2 -> sent_on m2 m3 -> sent_on m1 m3.
Proof.
  intros H12 H23 conn. specialize (H12 conn). specialize (H23 conn).
  destruct (m3 !! conn) as [c3|].
  - destruct H23 as (c2 & E2 & Hc & Hr). rewrite E2 in H12.
    destruct H12 as (c1 & E1 & Hc' & Hr'). exists c1.
    split_and!; [done|congruence|auto].
  - by rewrite H23 in H12.
Qed.

Lemma sent_on_Send m conn data :
  sent_on m (alter (fun c => (wss.Send c data).2) conn m).
Proof.
  intros conn'. destruct (decide (conn' = conn)) as [->|Hne].
  - rewrite lookup_alter_eq. destruct (m !! conn) as [c|] eqn:E; cbn; [|done].
    exists c. split_and!; [done|apply Send_closed|]. intros Hr. by apply wss.reach_Send.
  - rewrite lookup_alter_ne by done. apply sent_on_refl.
Qed.

Lemma send_to_sent_on message w entry :
  sent_on (conns w) (conns (reader.send_to message w entry)).
Proof.
  destruct entry as [conn enc]. unfold reader.send_to.
  destruct (EncryptMsg _ _ _) as [[raw|e] rnd]; [|apply sent_on_refl].
  destruct (Marshal raw) as [d|e]; [|apply sent_on_refl].
  apply sent_on_Send.
Qed.

Lemma foldl_send_to_sent_on message l w :
  sent_on (conns w) (conns (foldl (reader.send_to message) w l)).
Proof.
  revert w. induction l as [|entry l IH]; intros w; [apply sent_on_refl|].
  cbn. eapply sent_on_trans; [apply send_to_sent_on|apply IH].
Qed.

Lemma StartTUNReader_pass_frame p w :
  h (reader.StartTUNReader_pass p w) = h w /\
  sent_on (conns w) (conns (reader.StartTUNReader_pass p w)).
Proof.
  unfold reader.StartTUNReader_pass.
  destruct (reader.read p) as [packet|e]; [|split; [done|apply sent_on_refl]].
  destruct (_ =? _)%nat; [split; [done|apply sent_on_refl]|].
  split; [|apply foldl_send_to_sent_on].
  apply (foldl_send_to_frame _ (reader.order p) w).
Qed.

Lemma step_inv s s' : step s s' -> inv s -> inv s'.
Proof.
  intros Hstep Hinv.
  destruct Hstep as [remote conn0 s Hfresh|conn0 msgType data s s' Hph Hrun
                     |conn0 unexpected s Hph|conn0 s Hph|remote conn0 s Hph
                     |conn0 err s|p s Hrange]; intros conn; specialize (Hinv conn).
  - cbn. destruct (decide (conn = conn0)) as [->|Hne].
    + rewrite !lookup_insert_eq. exists wss.handleWebSocket_conn.
      split_and!; [done..|apply wss.reach_new].
    + by rewrite !lookup_insert_ne.
  - unfold readPump_message in Hrun.
    destruct (negb _); [by injection Hrun as <-|].
    destruct (HandleMessage conn0 data (node s)) as [w'|] eqn:Hm; [|done].
    injection Hrun as <-. cbn.
    apply HandleMessage_frame in Hm as [Henc Hconns].
    destruct (decide (conn = conn0)) as [->|Hne].
    + rewrite Hph in *. destruct Hinv as (c & Hc & Hopen & Hr).
      destruct Hconns as [->|[d ->]]; [by exists c|].
      rewrite lookup_alter_eq, Hc. cbn. eexists. split_and!; [done| |].
      * by rewrite Send_closed.
      * by apply wss.reach_Send.
    + rewrite Henc by done.
      assert (conns w' !! conn = conns (node s) !! conn) as ->; [|done].
      destruct Hconns as [->|[d ->]]; [done|by rewrite lookup_alter_ne].
  - assert (forall w conn1, conns (match unexpected with
              | Some e => with_log (slog.Error "Read error"
                                      [("error", slog.StringValue e)]) w
              | None => w end) !! conn1 = conns w !! conn1) as Hc
      by (intros w conn1; by destruct unexpected).
    assert (forall w, h (match unexpected with
              | Some e => with_log (slog.Error "Read error"
                                      [("error", slog.StringValue e)]) w
              | None => w end) = h w) as Hh
      by (intros w; by destruct unexpected).
    cbn. rewrite Hh. destruct (decide (conn = conn0)) as [->|Hne].
    + rewrite lookup_insert_eq, lookup_alter_eq, Hc. rewrite Hph in Hinv.
      destruct Hinv as (c & -> & Hopen & Hr). cbn. eexists.
      split_and!; [done..|]. by apply wss.reach_cleanup.
    + by rewrite lookup_insert_ne, lookup_alter_ne, Hc.
  - cbn. destruct (decide (conn = conn0)) as [->|Hne].
    + rewrite lookup_insert_eq, lookup_delete_eq. by rewrite Hph in Hinv.
    + by rewrite lookup_insert_ne, lookup_delete_ne.
  - cbn. destruct (decide (conn = conn0)) as [->|Hne].
    + rewrite lookup_delete_eq. rewrite Hph in Hinv.
      destruct Hinv as (Henc & c & Hc & Hcl & Hr). split; [done|].
      intros c' Hc'. by simplify_eq.
    + by rewrite lookup_delete_ne.
  - unfold writePump_write.
    destruct (conns (node s) !! conn0) as [c0|] eqn:Hc0; [|done].
    destruct (wss.writePump_recv c0) as [[d c1]|] eqn:Hw; [|done].
    assert (wss.closed c1 = wss.closed c0) as Hcl.
    { unfold wss.writePump_recv in Hw. destruct (wss.buf _); [done|].
      by injection Hw as _ <-. }
    assert (wss.reachable c0 -> wss.reachable c1) as Hre.
    { intros Hr. by apply (wss.reach_write c0 d c1). }
    assert (forall conn1,
              conns (node (with_node
                match err with
                | Some e =>
                  with_log (slog.Error "Write error" [("error", slog.StringValue e)])
                    (with_conns (<[conn0:=c1]> (conns (node s))) (node s))
                | None => with_conns (<[conn0:=c1]> (conns (node s))) (node s)
                end s)) !! conn1 = <[conn0:=c1]> (conns (node s)) !! conn1) as Hc
      by (intros conn1; by destruct err).
    assert (h (node (with_node
                match err with
                | Some e =>
                  with_log (slog.Error "Write error" [("error", slog.StringValue e)])
                    (with_conns (<[conn0:=c1]> (conns (node s))) (node s))
                | None => with_conns (<[conn0:=c1]> (conns (node s))) (node s)
                end s)) = h (node s)) as Hh
      by (by destruct err).
    rewrite Hh, Hc. cbn [connections with_node].
    destruct (decide (conn = conn0)) as [->|Hne].
    + rewrite lookup_insert_eq. rewrite Hc0 in Hinv.
      destruct (connections s !! conn0) as [[]|].
      * destruct Hinv as (c & [= <-] & ? & ?). exists c1. split_and!; [done|congruence|auto].
      * destruct Hinv as (c & [= <-] & ? & ?). exists c1. split_and!; [done|congruence|auto].
      * destruct Hinv as (? & c & [= <-] & ? & ?). split; [done|].
        exists c1. split_and!; [done|congruence|auto].
      * destruct Hinv as (? & Hall). split; [done|]. intros c [= <-].
        destruct (Hall c0 eq_refl). split; [congruence|auto].
    + by rewrite lookup_insert_ne.
  - cbn. destruct (StartTUNReader_pass_frame p (node s)) as [-> Hsent].
    specialize (Hsent conn).
    destruct (conns (reader.StartTUNReader_pass p (node s)) !! conn) as [c'|].
    + destruct Hsent as (c & Hc & Hcl & Hr). rewrite Hc in Hinv.
      destruct (connections s !! conn) as [[]|].
      * destruct Hinv as (? & [= <-] & ? & ?). exists c'. split_and!; [done|congruence|auto].
      * destruct Hinv as (? & [= <-] & ? & ?). exists c'. split_and!; [done|congruence|auto].
      * destruct Hinv as (? & ? & [= <-] & ? & ?). split; [done|].
        exists c'. split_and!; [done|congruence|auto].
      * destruct Hinv as (? & Hall). split; [done|]. intros ? [= <-].
        destruct (Hall c eq_refl). split; [congruence|auto].
    + rewrite Hsent in Hinv. destruct (connections s !! conn) as [[]|].
      * by destruct Hinv as (? & ? & _).
      * by destruct Hinv as (? & ? & _).
      * by destruct Hinv as (? & ? & ? & _).
      * destruct Hinv as (? & _). split; [done|]. done.
Qed.

(** X15: what the sessions keep true of a node.  From the start of the
    server, through any run of connects, frames handled, read errors,
    cleanups, writes and passes of the TUN reader in which no handler
    panicked: an encoder is registered only for a connection that is still
    in [s.connections] and whose session has not yet called
    [onDisconnect]; every session in [s.connections] has its connection; a
    connection is open exactly until the cleanup of its session has marked
    it closed; and no queue holds more than its 256 frames. *)
Theorem sessions_keep_the_table_clean (privateKey : Key) (t : tun.TUN)
        (rnd : rand.Entropy) (s : Server) :
  rtc step (boot privateKey t rnd) s ->
  forall conn,
    (is_Some (connEncoders (h (node s)) !! conn) ->
     connections s !! conn = Some Reading \/ connections s !! conn = Some Closed) /\
    (is_Some (connections s !! conn) -> is_Some (conns (node s) !! conn)) /\
    (forall c, conns (node s) !! conn = Some c ->
       (wss.closed c = false <-> connections s !! conn = Some Reading) /\
       wss.cap (wss.sendCh c) = 256%nat /\
       (length (wss.buf (wss.sendCh c)) <= 256)%nat).
Proof.
  intros Hrun.
  assert (inv s) as Hinv.
  { apply (rtc_ind_r (R:=step) inv (boot privateKey t rnd)); [| |exact Hrun].
    - intros conn. cbn. by rewrite !lookup_empty.
    - intros s1 s2 _ Hstep IH. by apply (step_inv s1 s2). }
  intros conn. specialize (Hinv conn).
  destruct (connections s !! conn) as [[]|] eqn:Hph.
  - destruct Hinv as (c & Hc & Hopen & Hr). split_and!; [by left|by eexists|].
    intros ? [= <-]%(eq_trans (eq_sym Hc)). split; [done|by apply reachable_bounded].
  - destruct Hinv as (c & Hc & Hcl & Hr). split_and!; [by right|by eexists|].
    intros ? [= <-]%(eq_trans (eq_sym Hc)). split; [|by apply reachable_bounded].
    rewrite Hcl. split; done.
  - destruct Hinv as (Henc & c & Hc & Hcl & Hr). rewrite Henc.
    split_and!; [by intros [? ?]|by eexists|].
    intros ? [= <-]%(eq_trans (eq_sym Hc)). split; [|by apply reachable_bounded].
    rewrite Hcl. split; done.
  - destruct Hinv as (Henc & Hall). rewrite Henc.
    split_and!; [by intros [? ?]|by intros [? ?]|].
    intros c Hc. destruct (Hall c Hc) as [Hcl Hr]. split; [|by apply reachable_bounded].
    rewrite Hcl. split; done.
Qed.
End Sessions.

(** ** Configuration *)

Section Strings.
Import strings.

Lemma substring_at_end (t s : string) n :
  String.substring (String.length t) n (t ++ s) = String.substring 0 n s.
Proof. induction t as [|a t IH]; [done|]. cbn. apply IH. Qed.

Lemma length_append (s t : string) :
  String.length (s ++ t) = (String.length s + String.length t)%nat.
Proof. induction s as [|a s IH]; [done|]. exact (f_equal S IH). Qed.

Lemma substring_all (s : string) : String.substring 0 (String.length s) s = s.
Proof. induction s as [|a s IH]; [done|]. cbn. f_equal. exact IH. Qed.

Lemma HasSuffix_append (t s : string) : HasSuffix (t ++ s) s = true.
Proof.
  unfold HasSuffix. rewrite length_append.
  replace (String.length t + String.length s - String.length s)%nat
    with (String.length t) by lia.
  rewrite substring_at_end, substring_all, String.eqb_refl, andb_true_r.
  apply Nat.leb_le. lia.
Qed.

Lemma prefix_empty (s : string) : String.prefix "" s = true.
Proof. by destruct s. Qed.

Lemma append_assoc (s t u : string) : ((s ++ t) ++ u)%string = (s ++ t ++ u)%string.
Proof.
  induction s as [|a s IH]; [done|].
  change (String a ((s +:+ t) +:+ u) = String a (s +:+ t +:+ u)). by f_equal.
Qed.

Lemma HasPrefix_append (s p t : string) :
  HasPrefix s p = true -> HasPrefix (s ++ t) p = true.
Proof.
  unfold HasPrefix. revert s. induction p as [|a p IH]; intros s.
  - intros _. apply prefix_empty.
  - destruct s as [|b s]; [done|].
    change (String b s +:+ t) with (String b (s +:+ t)). cbn.
    destruct (Ascii.ascii_dec a b); [apply IH|done].
Qed.

Lemma HasSuffix_slash (u : string) :
  HasSuffix u "/" = true ->
  (String.substring 0 (String.length u - 1) u ++ "/")%string = u.
Proof.
  unfold HasSuffix. cbn [String.length].
  induction u as [|a u IH]; [done|].
  intros [_ Hs%String.eqb_eq]%andb_true_iff.
  destruct u as [|b u].
  - cbn in Hs. by rewrite <- Hs.
  - cbn [String.length Nat.sub] in *.
    rewrite Nat.sub_0_r in *. cbn [String.substring] in Hs |- *.
    change (String a ?x +:+ ?y) with (String a (x +:+ y)). f_equal.
    apply IH. apply andb_true_iff. split; [done|]. by apply String.eqb_eq.
Qed.

Lemma TrimSuffix_slash (u : string) :
  exists t, (TrimSuffix u "/" ++ "/ws")%string = (u ++ t)%string.
Proof.
  unfold TrimSuffix. destruct (HasSuffix u "/") eqn:E.
  - exists "ws". cbn [String.length].
    transitivity ((String.substring 0 (String.length u - 1) u ++ "/") ++ "ws")%string.
    + by rewrite append_assoc.
    + by rewrite (HasSuffix_slash u E).
  - by exists "/ws".
Qed.
End Strings.

Section Client_url.
Import strings wss_client.

(** X16: the URL that [GetFromEnv] accepts.  When it returns nil, the
    configured URL begins with the scheme that [WS_URL] begins with
    ("ws://" or "wss://") and ends with "/ws"; a [WS_URL] that already ends
    with "/ws" is taken as it is, any other gets "/ws" in place of at most
    one trailing slash; and the result is a fixed point: given back as
    [WS_URL], it is accepted unchanged. *)
Theorem GetFromEnv_normalises (env : os.Env) (c c' : Config) (l l' : slog.Log) :
  GetFromEnv env c l = (None, c', l') ->
  let url := os.Getenv env "WS_URL" in
  (HasPrefix url "ws://" = true \/ HasPrefix url "wss://" = true) /\
  (HasPrefix url "ws://" = true -> HasPrefix (Url c') "ws://" = true) /\
  (HasPrefix url "wss://" = true -> HasPrefix (Url c') "wss://" = true) /\
  HasSuffix (Url c') "/ws" = true /\
  (HasSuffix url "/ws" = true -> Url c' = url) /\
  (HasSuffix url "/ws" = false -> Url c' = (TrimSuffix url "/" ++ "/ws")%string) /\
  forall env' c0 l0,
    os.Getenv env' "WS_URL" = Url c' ->
    exists l1, GetFromEnv env' c0 l0 = (None, c', l1).
Proof.
  cbn zeta.
  assert (forall u, u <> "" ->
            (HasPrefix u "ws://" = true \/ HasPrefix u "wss://" = true) ->
            HasSuffix u "/ws" = true ->
            forall env' c0 l0, os.Getenv env' "WS_URL" = u ->
            exists l1, GetFromEnv env' c0 l0 = (None, {| Url := u |}, l1)) as Hfix.
  { intros u Hu Hp Hs env' c0 l0 He. unfold GetFromEnv. cbn [Url]. rewrite He.
    destruct (String.eqb_spec u "") as [|_]; [done|].
    rewrite Hs. cbn [negb].
    destruct Hp as [-> | ->]; [|rewrite andb_false_r]; by eexists. }
  unfold GetFromEnv. cbn [Url].
  destruct (String.eqb_spec (os.Getenv env "WS_URL") "") as [|Hne]; [done|].
  destruct (TrimSuffix_slash (os.Getenv env "WS_URL")) as [t Ht].
  assert (forall p, HasPrefix (os.Getenv env "WS_URL") p = true ->
            HasPrefix (TrimSuffix (os.Getenv env "WS_URL") "/" ++ "/ws") p = true)
    as Hpre by (intros p Hp; rewrite Ht; by apply HasPrefix_append).
  assert (TrimSuffix (os.Getenv env "WS_URL") "/" +:+ "/ws" <> "") as Hne'.
  { rewrite Ht. intros Hempty. by destruct (os.Getenv env "WS_URL"). }
  destruct (HasPrefix (os.Getenv env "WS_URL") "ws://") eqn:Hws;
    destruct (HasPrefix (os.Getenv env "WS_URL") "wss://") eqn:Hwss;
    cbn [negb andb]; try done.
  all: destruct (HasSuffix (os.Getenv env "WS_URL") "/ws") eqn:Hsuf; cbn [negb];
    intros [= <- <-]; cbn [Url].
  all: split_and!; try done; try (by left); try (by right);
    try (intros _; by apply Hpre); try apply HasSuffix_append.
  all: apply Hfix; try done; try (by left); try (by right);
    try apply HasSuffix_append.
  all: try (left; by apply Hpre).
  all: try (right; by apply Hpre).
Qed.
End Client_url.

Section Client_config.
Import kedr_config.
Variable hex_DecodeString : string -> result (list byte).
Context {Client : Type}.
Variable wss_NewTransport : wss_client.Config -> result Client.
Variable udp_NewTransport : udp_client.Config -> result Client.

Lemma key_bytes_inv s b :
  key_bytes hex_DecodeString s = Some b ->
  hex_DecodeString s = Ok b /\ length b = 32%nat /\ copy 32 b = b.
Proof.
  unfold key_bytes. destruct (hex_DecodeString s) as [b'|e]; [|done].
  destruct (Nat.eqb_spec (length b') 32) as [Hlen|]; [|done].
  intros [= <-]. split_and!; [done..|]. by apply copy_id.
Qed.

Lemma ParseConfigFromEnv_keys env connType l cfg l' :
  ParseConfigFromEnv hex_DecodeString env connType l = (Ok cfg, l') ->
  Type_ cfg = connType /\
  hex_DecodeString (os.Getenv env "PRIVATE_KEY") = Ok (PrivateKey cfg) /\
  hex_DecodeString (os.Getenv env "NODE_PUBLIC_KEY") = Ok (NodePublicKey cfg) /\
  length (PrivateKey cfg) = 32%nat /\ length (NodePublicKey cfg) = 32%nat /\
  exists t l0,
    ConnTypeMap connType = Some t /\
    TransportConfig_GetFromEnv env t l = (None, TransportConfig_ cfg, l0).
Proof.
  unfold ParseConfigFromEnv.
  destruct (ConnTypeMap connType) as [t|]; [|done].
  destruct (TransportConfig_GetFromEnv env t l) as [[[e|] t'] l0] eqn:Eget; [done|].
  destruct (String.eqb _ ""); [done|].
  destruct (key_bytes _ (os.Getenv env "PRIVATE_KEY")) as [priv|] eqn:Epriv; [|done].
  destruct (String.eqb _ ""); [done|].
  destruct (key_bytes _ (os.Getenv env "NODE_PUBLIC_KEY")) as [pub|] eqn:Epub; [|done].
  do 4 (destruct (String.eqb _ ""); [done|]).
  intros [= <- <-]. cbn.
  apply key_bytes_inv in Epriv as (? & ? & ->), Epub as (? & ? & ->).
  split_and!; [done..|]. by exists t, l0.
Qed.

(** X17: a configuration that [ParseConfigFromEnv] returns fits the
    factory.  Its type is "wss" or "udp", its transport configuration is
    of that transport and is what that transport's [GetFromEnv] made of
    the environment, and [Factory.NewClient], given the type and the
    transport configuration, goes to that transport's dialler: it returns
    neither "invalid wss config type", nor "invalid udp config type", nor
    "unsupported transport type".  Both keys are the 32 bytes that the
    variables decode to. *)
Theorem parsed_config_fits_the_factory (env : os.Env) (connType : string)
        (l l' : slog.Log) (cfg : ConnConfig) :
  ParseConfigFromEnv hex_DecodeString env connType l = (Ok cfg, l') ->
  Type_ cfg = connType /\
  hex_DecodeString (os.Getenv env "PRIVATE_KEY") = Ok (PrivateKey cfg) /\
  hex_DecodeString (os.Getenv env "NODE_PUBLIC_KEY") = Ok (NodePublicKey cfg) /\
  length (PrivateKey cfg) = 32%nat /\ length (NodePublicKey cfg) = 32%nat /\
  ((connType = "wss" /\
    exists c,
      TransportConfig_ cfg = WssConfig c /\
      wss_client.GetFromEnv env {| wss_client.Url := "" |} l = (None, c, l') /\
      client_factory.NewClient wss_NewTransport udp_NewTransport
                               (Type_ cfg) (TransportConfig_ cfg)
      = wss_NewTransport c) \/
   (connType = "udp" /\
    exists c,
      TransportConfig_ cfg = UdpConfig c /\
      udp_client.GetFromEnv env {| udp_client.Addr := "" |} l = (None, c, l') /\
      client_factory.NewClient wss_NewTransport udp_NewTransport
                               (Type_ cfg) (TransportConfig_ cfg)
      = udp_NewTransport c)).
Proof.
  intros Hparse.
  destruct (ParseConfigFromEnv_keys _ _ _ _ _ Hparse)
    as (Hty & Hpriv & Hpub & Hlpriv & Hlpub & t & l0 & Hmap & Hget).
  split_and!; [done..|].
  assert (l0 = l') as ->.
  { revert Hparse. unfold ParseConfigFromEnv. rewrite Hmap, Hget.
    destruct (String.eqb _ ""); [done|].
    destruct (key_bytes _ _); [|done].
    destruct (String.eqb _ ""); [done|].
    destruct (key_bytes _ _); [|done].
    do 4 (destruct (String.eqb _ ""); [done|]).
    by intros [= _ <-]. }
  unfold ConnTypeMap in Hmap. unfold client_factory.NewClient. rewrite Hty.
  destruct (String.eqb_spec connType "wss") as [->|_].
  - left. split; [done|]. injection Hmap as <-. cbn in Hget.
    destruct (wss_client.GetFromEnv _ _ _) as [[e c] l1].
    injection Hget as -> Ht ->. exists c. by rewrite <- Ht.
  - destruct (String.eqb_spec connType "udp") as [->|_]; [|done].
    right. split; [done|]. injection Hmap as <-. cbn in Hget.
    destruct (udp_client.GetFromEnv _ _ _) as [[e c] l1].
    injection Hget as -> Ht ->. exists c. by rewrite <- Ht.
Qed.
End Client_config.

Section Keys_to_configs.
Import msg.
Context `{Crypto} `{!CryptoLaws}.
Variable hex_EncodeToString : list byte -> string.
Variable hex_DecodeString : string -> result (list byte).

Lemma key_bytes_hex (b : list byte) :
  (forall b, hex_DecodeString (hex_EncodeToString b) = Ok b) ->
  (forall b, String.length (hex_EncodeToString b) = (2 * length b)%nat) ->
  length b = 32%nat ->
  String.eqb (hex_EncodeToString b) "" = false /\
  kedr_config.key_bytes hex_DecodeString (hex_EncodeToString b) = Some b.
Proof.
  intros Hrt Hlen Hb. split.
  - apply String.eqb_neq. intros Hempty.
    specialize (Hlen b). rewrite Hempty, Hb in Hlen. done.
  - unfold kedr_config.key_bytes. rewrite Hrt, Hb. done.
Qed.

(** X18: the keys that the key-generation command prints configure both
    ends.  With an [encoding/hex] that decodes what it encodes, two
    digits a byte, and 64 bytes of entropy, the default mode prints a node
    pair and a client pair and exits with 0.  An environment with the
    printed [NODE_PRIVATE_KEY] and [NODE_PUBLIC_KEY] (and [TUN_IP],
    [VPN_SUBNET]) is parsed by [ParseNodeConfigFromEnv] to these two keys;
    one with the printed [PRIVATE_KEY] and [NODE_PUBLIC_KEY], whenever
    [ParseConfigFromEnv] accepts it, to the client's private key and the
    node's public key, and [NewClient] derives from it the client's public
    key as printed.  The node's public key is the one of its private
    key. *)
Theorem keygen_keys_configure_both_ends (rnd : rand.Entropy) :
  (forall b, hex_DecodeString (hex_EncodeToString b) = Ok b) ->
  (forall b, String.length (hex_EncodeToString b) = (2 * length b)%nat) ->
  (64 <= length rnd)%nat ->
  exists nodePriv nodePub clientPriv clientPub,
    keygen.main hex_EncodeToString hex_DecodeString
                {| keygen.client_ := false; keygen.node_ := false; keygen.derive := "" |}
                rnd
    = (["=== Generating new key pairs ===";
        "";
        "# .env.node";
        "NODE_PRIVATE_KEY=" ++ hex_EncodeToString nodePriv;
        "NODE_PUBLIC_KEY=" ++ hex_EncodeToString nodePub;
        "CLIENT_PUBLIC_KEY=" ++ hex_EncodeToString clientPub;
        "";
        "# .env.client";
        "PRIVATE_KEY=" ++ hex_EncodeToString clientPriv;
        "NODE_PUBLIC_KEY=" ++ hex_EncodeToString nodePub]%string, 0) /\
    X25519 nodePriv Basepoint = Ok nodePub /\
    X25519 clientPriv Basepoint = Ok clientPub /\
    (forall env,
       os.Getenv env "NODE_PRIVATE_KEY" = hex_EncodeToString nodePriv ->
       os.Getenv env "NODE_PUBLIC_KEY" = hex_EncodeToString nodePub ->
       os.Getenv env "TUN_IP" <> "" -> os.Getenv env "VPN_SUBNET" <> "" ->
       exists cfg,
         node_config.ParseNodeConfigFromEnv hex_DecodeString env = Ok cfg /\
         node_config.PrivateKey cfg = nodePriv /\
         node_config.PublicKey cfg = nodePub) /\
    (forall env connType l cfg l',
       os.Getenv env "PRIVATE_KEY" = hex_EncodeToString clientPriv ->
       os.Getenv env "NODE_PUBLIC_KEY" = hex_EncodeToString nodePub ->
       kedr_config.ParseConfigFromEnv hex_DecodeString env connType l = (Ok cfg, l') ->
       kedr_config.PrivateKey cfg = clientPriv /\
       kedr_config.NodePublicKey cfg = nodePub /\
       vpn.clientPubKey (vpn.NewClient (kedr_config.for_NewClient cfg)) = clientPub).
Proof.
  intros Hrt Hhex Hlen.
  destruct (GenerateKeyPair_succeeds rnd) as (nodePub & HnP & HlnP & _ & Hgen1); [lia|].
  destruct (GenerateKeyPair_succeeds (drop 32 rnd))
    as (clientPub & HcP & HlcP & _ & Hgen2); [rewrite length_drop; lia|].
  assert (length (take 32 rnd) = 32%nat) as Hln by (rewrite length_take; lia).
  assert (length (take 32 (drop 32 rnd)) = 32%nat) as Hlc
    by (rewrite length_take, length_drop; lia).
  exists (take 32 rnd), nodePub, (take 32 (drop 32 rnd)), clientPub.
  split_and!; [|done..| |].
  - unfold keygen.main, keygen.GenerateKeyPair_. cbn [keygen.derive keygen.client_
      keygen.node_ String.eqb negb]. by rewrite Hgen1, Hgen2.
  - intros env Epriv Epub Htun Hsub.
    destruct (key_bytes_hex (take 32 rnd) Hrt Hhex Hln) as [Hne1 Hk1].
    destruct (key_bytes_hex nodePub Hrt Hhex HlnP) as [Hne2 Hk2].
    unfold node_config.ParseNodeConfigFromEnv.
    rewrite Epriv, Epub, Hne1, Hne2, Hk1, Hk2. cbn [negb].
    apply String.eqb_neq in Htun as ->, Hsub as ->.
    eexists. split; [reflexivity|]. cbn. by rewrite !copy_id.
  - intros env connType l cfg l' Epriv Epub Hparse.
    apply ParseConfigFromEnv_keys in Hparse as (_ & Hpriv & Hpub & _).
    rewrite Epriv, Hrt in Hpriv. rewrite Epub, Hrt in Hpub.
    injection Hpriv as Ep. injection Hpub as Ep'. split_and!; [done..|].
    unfold vpn.NewClient. cbn. rewrite <- Ep.
    by rewrite (public_key _ _ Hlc HcP).
Qed.
End Keys_to_configs.

(** ** The instance of [encoding/hex] decodes what it encodes *)
Module hex_proofs.
Lemma decode_encode_byte (b : byte) (s : string) :
  hex.DecodeString (hex.encode_byte b s)
  = match hex.DecodeString s with
    | Ok dst => Ok (b :: dst)
    | Err e => Err e
    end.
Proof. destruct b; reflexivity. Qed.

Lemma decode_encode (b : list byte) : hex.DecodeString (hex.EncodeToString b) = Ok b.
Proof.
  induction b as [|x b IH]; [done|].
  cbn [hex.EncodeToString]. by rewrite decode_encode_byte, IH.
Qed.

Lemma length_encode (b : list byte) :
  String.length (hex.EncodeToString b) = (2 * length b)%nat.
Proof.
  induction b as [|x b IH]; [done|].
  cbn [hex.EncodeToString hex.encode_byte String.length length]. rewrite IH. lia.
Qed.
End hex_proofs.

(** ** The theorems at work on the instance *)

#[local] Existing Instance model.crypto.
#[local] Existing Instance model_proofs.crypto_laws.
#[local] Existing Instance model.binary_Msg.
#[local] Existing Instance model.binary_Handshake.
#[local] Existing Instance model.binary_HandshakeAck.
#[local] Existing Instance model.binary_RawMsg.

(** A Data frame of the registered client reaches the node's TUN. *)
Lemma registered_data_reaches_the_tun_witness :
  exists w',
    handler.handleData 1%positive (model.sealed_packet msg.Version1 model.packet)
                       model.node1 = Ret w' /\
    tun.written (handler.tun_ w') = [samples.ip_packet].
Proof.
  destruct (registered_data_reaches_the_tun
              1%positive (model.sealed_packet msg.Version1 model.packet) model.node1
              {| msg.CookedMsg_Header :=
                   msg.RawMsg_Header (model.sealed_packet msg.Version1 model.packet);
                 msg.CookedMsg_Body := Some model.packet |}
              model.packet
              ltac:(eexists; vm_compute; reflexivity) ltac:(vm_compute; reflexivity)
              eq_refl eq_refl)
    as (w' & Hrun & Hw & _).
  exists w'. split; [exact Hrun|exact Hw].
Defined.

(** The Handshake on connection 1 leaves connection 2 without encoder. *)
Lemma HandleMessage_touches_one_connection_witness :
  exists w',
    handler.HandleMessage 1%positive samples.hello_frame model.node0 = Ret w' /\
    handler.connEncoders (handler.h w') !! 2%positive = None.
Proof.
  destruct (handler.HandleMessage 1%positive samples.hello_frame model.node0)
    as [w'|p] eqn:Hrun; [|by vm_compute in Hrun].
  exists w'. split; [reflexivity|].
  destruct (HandleMessage_touches_one_connection _ _ _ _ Hrun) as (_ & _ & Hother).
  destruct (Hother 2%positive ltac:(done)) as [He _].
  exact (eq_trans He eq_refl).
Defined.

(** The one packet the node writes for the client's Data frame. *)
Lemma HandleMessage_writes_only_registered_data_witness :
  exists w',
    handler.HandleMessage 1%positive samples.data_frame model.node1 = Ret w' /\
    (handler.tun_ w' = handler.tun_ model.node1 \/
     exists body,
       msg.Msg_NextHop body = None /\
       tun.written (handler.tun_ w') = [msg.Msg_Data body]).
Proof.
  destruct (handler.HandleMessage 1%positive samples.data_frame model.node1)
    as [w'|p] eqn:Hrun; [|by vm_compute in Hrun].
  exists w'. split; [reflexivity|].
  destruct (HandleMessage_writes_only_registered_data _ _ _ _ Hrun)
    as [Hsame|(raw & hdr & cooked & body & _ & _ & _ & _ & _ & _ & Hnh & Hw)].
  - left. exact Hsame.
  - right. exists body. split; [exact Hnh|exact Hw].
Defined.

(** A pass of the reader over the table with the one client. *)
Lemma reader_sends_to_registered_only_witness :
  handler.h (reader.StartTUNReader_pass samples.pass model.node1) = handler.h model.node1.
Proof.
  exact (proj1 (reader_sends_to_registered_only
                  samples.pass model.node1
                  ltac:(unfold reader.ranges; vm_compute; reflexivity))).
Defined.

(** The frame the reader queues for the one client, and what that client's
    Decoder makes of it. *)
Lemma reader_delivers_to_each_client_witness :
  exists raw data,
    Marshal raw = Ok data /\
    msg.DecryptBody (msg.NewDecoder model.clientPrivate) raw
    = Ret (Ok {| msg.CookedMsg_Header := msg.RawMsg_Header raw;
                 msg.CookedMsg_Body :=
                   Some {| msg.Msg_Flags := 0; msg.Msg_Timestamp := 0;
                           msg.Msg_NextHop := None;
                           msg.Msg_Data := samples.ip_packet |} |}) /\
    handler.conns (reader.StartTUNReader_pass samples.pass model.node1) !! 1%positive
    = Some (wss.Send wss.handleWebSocket_conn data).2.
Proof.
  destruct (reader_delivers_to_each_client
              samples.pass model.node1 samples.ip_packet 1%positive
              (msg.NewEncoder model.clientPublic) model.clientPrivate
              model_proofs.Msg_roundtrips model_proofs.RawMsg_roundtrips
              ltac:(unfold reader.ranges; vm_compute; reflexivity)
              eq_refl ltac:(done) ltac:(cbn; lia) ltac:(vm_compute; lia)
              ltac:(vm_compute; reflexivity) eq_refl ltac:(vm_compute; reflexivity))
    as (raw & data & HM & _ & Hopen & Hq).
  exists raw, data. split_and!; [exact HM|exact Hopen|exact Hq].
Defined.


(** The client's packet, sealed by [sendLoop], written by the node. *)
Lemma packet_from_client_reaches_node_tun_witness :
  exists data wc' w',
    pumps.sendLoop_pass samples.kedr samples.send_pass (model.world (Err "closed"))
    = (pumps.Running, wc') /\
    handler.HandleMessage 1%positive data model.node1 = Ret w' /\
    tun.written (handler.tun_ w') = [samples.ip_packet].
Proof.
  destruct (packet_from_client_reaches_node_tun
              samples.kedr samples.send_pass (model.world (Err "closed"))
              samples.ip_packet model.nodePrivate 1%positive model.node1
              model_proofs.Msg_roundtrips model_proofs.RawMsg_roundtrips
              eq_refl eq_refl ltac:(done) ltac:(cbn; lia) ltac:(vm_compute; lia)
              ltac:(done) eq_refl ltac:(vm_compute; reflexivity) eq_refl
              ltac:(eexists; vm_compute; reflexivity))
    as (data & wc' & w' & Hpass & _ & _ & Hrun & Hw & _).
  exists data, wc', w'. split_and!; [exact Hpass|exact Hrun|exact Hw].
Defined.

(** The node's packet, queued for the client by the reader. *)
Lemma packet_from_node_reaches_client_tun_witness :
  exists data cn',
    handler.conns (reader.StartTUNReader_pass samples.pass model.node1) !! 1%positive
    = Some cn' /\
    wss.buf (wss.sendCh cn') = [data].
Proof.
  destruct (packet_from_node_reaches_client_tun
              samples.pass model.node1 samples.ip_packet 1%positive
              (msg.NewEncoder model.clientPublic) wss.handleWebSocket_conn samples.kedr
              model_proofs.Msg_roundtrips model_proofs.RawMsg_roundtrips
              ltac:(unfold reader.ranges; vm_compute; reflexivity)
              eq_refl ltac:(done) ltac:(cbn; lia) ltac:(vm_compute; lia)
              ltac:(vm_compute; reflexivity) ltac:(vm_compute; reflexivity)
              eq_refl ltac:(vm_compute; lia) eq_refl ltac:(vm_compute; reflexivity))
    as (data & cn' & Hq & Hbuf & _).
  exists data, cn'. split; [exact Hq|exact Hbuf].
Defined.

(** The model client's handshake on the node's fresh connection. *)
Lemma handshake_completes_witness :
  exists clientPub data w',
    msg.PublicKeyFromPrivate model.clientPrivate = Ok clientPub /\
    handler.HandleMessage 1%positive data model.node0 = Ret w' /\
    handler.connEncoders (handler.h w') !! 1%positive = Some (msg.NewEncoder clientPub).
Proof.
  destruct (handshake_completes
              (H:=model.crypto) model.cfg (model.world (Err "closed")) model.nodePrivate 1%positive
              model.node0 wss.handleWebSocket_conn
              model_proofs.Handshake_roundtrips model_proofs.HandshakeAck_roundtrips
              model_proofs.RawMsg_roundtrips
              eq_refl eq_refl ltac:(vm_compute; reflexivity) eq_refl
              ltac:(vm_compute; lia) ltac:(vm_compute; lia) ltac:(done)
              ltac:(vm_compute; reflexivity) eq_refl ltac:(vm_compute; lia))
    as (clientPub & data & ackData & w' & cn' & HP & Hrun & Henc & _).
  exists clientPub, data, w'. split_and!; [exact HP|exact Hrun|exact Henc].
Defined.


(** A client connects and its Handshake is handled: it is registered, and
    its session is in [readPump]. *)
Lemma sessions_keep_the_table_clean_witness :
  exists s,
    rtc server.step (server.boot model.nodePrivate model.device model.tape) s /\
    is_Some (handler.connEncoders (handler.h (server.node s)) !! 1%positive) /\
    (server.connections s !! 1%positive = Some server.Reading \/
     server.connections s !! 1%positive = Some server.Closed).
Proof.
  set (s0 := server.boot model.nodePrivate model.device model.tape).
  set (s1 := server.handleWebSocket_connect "198.51.100.7:40000" 1%positive s0).
  destruct (server.readPump_message 1%positive server.BinaryMessage
                                    samples.hello_frame s1) as [s2|p] eqn:Hrun;
    [|by vm_compute in Hrun].
  assert (rtc server.step s0 s2) as Hsteps.
  { apply (rtc_l _ _ s1); [by apply server.step_connect|].
    apply rtc_once.
    by apply (server.step_message 1%positive server.BinaryMessage
                                  samples.hello_frame s1 s2). }
  assert (is_Some (handler.connEncoders (handler.h (server.node s2)) !! 1%positive))
    as Hreg.
  { pose proof Hrun as Hc. vm_compute in Hc. injection Hc as <-.
    eexists. vm_compute. reflexivity. }
  exists s2. split_and!; [exact Hsteps|exact Hreg|].
  exact (proj1 (sessions_keep_the_table_clean _ _ _ _ Hsteps 1%positive) Hreg).
Defined.

(** A URL with a trailing slash. *)
Lemma GetFromEnv_normalises_witness :
  exists c' l',
    wss_client.GetFromEnv samples.client_env {| wss_client.Url := "" |} [] = (None, c', l') /\
    strings.HasSuffix (wss_client.Url c') "/ws" = true.
Proof.
  destruct (wss_client.GetFromEnv samples.client_env {| wss_client.Url := "" |} [])
    as [[e c'] l'] eqn:Hrun.
  assert (e = None) as -> by (vm_compute in Hrun; congruence).
  exists c', l'. split; [reflexivity|].
  destruct (GetFromEnv_normalises _ _ _ _ _ Hrun) as (_ & _ & _ & Hsuf & _).
  exact Hsuf.
Defined.

(** The client's environment, for the wss transport. *)
Lemma parsed_config_fits_the_factory_witness :
  exists cfg l',
    kedr_config.ParseConfigFromEnv hex.DecodeString samples.client_env "wss" []
    = (Ok cfg, l') /\
    kedr_config.Type_ cfg = "wss" /\
    length (kedr_config.PrivateKey cfg) = 32%nat.
Proof.
  destruct (kedr_config.ParseConfigFromEnv hex.DecodeString samples.client_env "wss" [])
    as [[cfg|e] l'] eqn:Hrun; [|by vm_compute in Hrun].
  exists cfg, l'. split; [reflexivity|].
  destruct (parsed_config_fits_the_factory
              hex.DecodeString (@samples.no_network wss_client.Config)
              (@samples.no_network udp_client.Config) _ _ _ _ _ Hrun)
    as (Hty & _ & _ & Hlen & _).
  split; [exact Hty|exact Hlen].
Defined.

(** Sixty-four bytes of entropy: both pairs are printed. *)
Lemma keygen_keys_configure_both_ends_witness :
  exists nodePriv nodePub clientPriv clientPub,
    keygen.main hex.EncodeToString hex.DecodeString
                {| keygen.client_ := false; keygen.node_ := false; keygen.derive := "" |}
                (replicate 64 Byte.x07)
    = (["=== Generating new key pairs ===";
        "";
        "# .env.node";
        "NODE_PRIVATE_KEY=" ++ hex.EncodeToString nodePriv;
        "NODE_PUBLIC_KEY=" ++ hex.EncodeToString nodePub;
        "CLIENT_PUBLIC_KEY=" ++ hex.EncodeToString clientPub;
        "";
        "# .env.client";
        "PRIVATE_KEY=" ++ hex.EncodeToString clientPriv;
        "NODE_PUBLIC_KEY=" ++ hex.EncodeToString nodePub]%string, 0) /\
    X25519 nodePriv Basepoint = Ok nodePub.
Proof.
  destruct (keygen_keys_configure_both_ends
              hex.EncodeToString hex.DecodeString (replicate 64 Byte.x07)
              hex_proofs.decode_encode hex_proofs.length_encode
              ltac:(vm_compute; lia))
    as (nodePriv & nodePub & clientPriv & clientPub & Hmain & HP & _).
  exists nodePriv, nodePub, clientPriv, clientPub. split; [exact Hmain|exact HP].
Defined.

(** A transport that fails to receive: [Run] returns, no pump started. *)
Lemma Run_is_gated_by_the_handshake_witness :
  exists st w',
    vpn.Run samples.kedr (model.world (Err "closed")) = Ret (st, w') /\
    (st = vpn.Selecting \/ vpn.goroutines w' = []).
Proof.
  destruct (vpn.Run samples.kedr (model.world (Err "closed")))
    as [[st w']|p] eqn:Hrun; [|by vm_compute in Hrun].
  exists st, w'. split; [reflexivity|].
  destruct (Run_is_gated_by_the_handshake _ _ _ _ Hrun)
    as [(Hst & _)|(err & _ & Hgo & _)].
  - by left.
  - right. exact Hgo.
Defined.

(** Two frames sent, the first one written: both in order. *)
Lemma queue_is_fifo_witness :
  queue.in_order
    (wss.run [wss.Call_Send [Byte.x01]; wss.Run_Send 0; wss.Run_Send 0;
              wss.Run_writePump; wss.WriteMessage_returns None;
              wss.Call_Send [Byte.x02]; wss.Run_Send 1; wss.Run_Send 1]
             wss.handleWebSocket_live)
  = [[Byte.x01]; [Byte.x02]].
Proof.
  refine (eq_trans (queue_is_fifo _ wss.handleWebSocket_live _) eq_refl).
  intros err Hin. repeat (apply elem_of_cons in Hin as [Hin|Hin]; [done|]).
  by apply elem_of_nil in Hin.
Defined.

(** The first [Send] on a fresh connection. *)
Lemma Send_with_the_mutex_free_witness :
  wss.calls (wss.run [wss.Run_Send 0; wss.Run_Send 0]
                     (wss.run [wss.Call_Send [Byte.x01]] wss.handleWebSocket_live))
    !! 0%nat
  = Some (wss.Done None).
Proof.
  exact (proj1 (Send_with_the_mutex_free
                  (wss.run [wss.Call_Send [Byte.x01]] wss.handleWebSocket_live)
                  0 [Byte.x01] eq_refl eq_refl eq_refl)).
Defined.

Lemma reachable_after_sends (frames : list (list byte)) (c : wss.Connection) :
  wss.reachable c -> wss.reachable (samples.after_sends frames c).
Proof.
  revert c. induction frames as [|data frames IH]; intros c Hc; [done|].
  apply IH. by apply wss.reach_Send.
Qed.

(** The three answers of [Send]: on a connection after its cleanup, on one
    with 256 frames queued, and on a fresh one. *)
Lemma Send_on_bounded_queue_witness :
  wss.Send (wss.handleWebSocket_cleanup wss.handleWebSocket_conn) [Byte.x01]
  = (Some "connection closed", wss.handleWebSocket_cleanup wss.handleWebSocket_conn) /\
  wss.Send samples.full_conn [Byte.x01] = (Some "send buffer full", samples.full_conn) /\
  (wss.Send wss.handleWebSocket_conn [Byte.x01]).1 = None.
Proof.
  split_and!.
  - exact (proj1 (proj2 (proj2 (Send_on_bounded_queue
                                  _ (wss.reach_cleanup _ wss.reach_new)))
                        [Byte.x01]) eq_refl).
  - exact (proj1 (proj2 (proj2 (proj2 (Send_on_bounded_queue
                                         samples.full_conn
                                         (reachable_after_sends
                                            _ _ wss.reach_new)))
                               [Byte.x01])) eq_refl eq_refl).
  - exact (f_equal fst
             (proj2 (proj2 (proj2 (proj2 (Send_on_bounded_queue _ wss.reach_new))
                                  [Byte.x01])) eq_refl ltac:(cbn; lia))).
Defined.
